(** * Funnel analysis: stage classifier, configuration tables and
      conversion calculator

    A shallow embedding of [config.py], [stage_classifier.py] and
    [conversion_calculator.py], with the properties their specification
    states about them.

    Conventions.
    - Python [str] values are [string]s (UTF-8 bytes; prefix, suffix,
      substring and ordering tests agree with the code-point versions on
      well-formed UTF-8).
    - Confidence scores are IEEE-754 binary64 values ([PrimFloat]), the
      arithmetic CPython performs: stage scores are compared with each
      other, and sums such as [0.4 + 0.2] and [0.3 + 0.3] differ in the
      last bit.
    - Conversion rates are exact rationals ([Q]); rounding to binary64 is
      monotone and keeps 0 and 100 fixed, so bounds proved here carry over.
    - Exceptions are values of a small error monad ([Result]).
    - Where a property is about what a call changes, the frames are
      objects of a heap ([Run]): [copy] and [sort_values] make a new
      object, column and cell assignments write the object in place. *)

From Stdlib Require Import List String Ascii Bool Arith ZArith QArith Lia
  Permutation Sorted OrderedTypeEx RelationClasses PrimFloat.
Import ListNotations.

Set Warnings "-inexact-float".
Local Open Scope list_scope.
Local Open Scope string_scope.

(* ================================================================== *)
(** ** Python string primitives *)

Module PyStr.

(** [s.startswith(prefix)] *)
Fixpoint startswith (s prefix : string) : bool :=
  match prefix, s with
  | EmptyString, _ => true
  | String _ _, EmptyString => false
  | String c prefix', String d s' => Ascii.eqb c d && startswith s' prefix'
  end.

(** [s.endswith(c)] for a one-character suffix [c] *)
Fixpoint endswith (s : string) (c : ascii) : bool :=
  match s with
  | EmptyString => false
  | String a EmptyString => Ascii.eqb a c
  | String _ s' => endswith s' c
  end.

(** [s[:-1]] *)
Fixpoint drop_last (s : string) : string :=
  match s with
  | EmptyString => EmptyString
  | String _ EmptyString => EmptyString
  | String a s' => String a (drop_last s')
  end.

(** [sub in s] *)
Fixpoint contains (s sub : string) : bool :=
  startswith s sub ||
  match s with
  | EmptyString => false
  | String _ s' => contains s' sub
  end.

(** [x in l] for a list of strings *)
Definition mem (x : string) (l : list string) : bool :=
  existsb (String.eqb x) l.

Lemma startswith_spec s p :
  startswith s p = true <-> exists rest, s = p ++ rest.
Proof.
  revert s; induction p as [|c p IH]; intros s.
  - split; [intros _; now exists s | now destruct s].
  - destruct s as [|d s]; simpl.
    + split; [discriminate | intros [rest H]; discriminate].
    + rewrite andb_true_iff, IH, Ascii.eqb_eq. split.
      * intros [-> [rest ->]]. now exists rest.
      * intros [rest H]. injection H as -> ->. split; [reflexivity | now exists rest].
Qed.

Lemma endswith_app q c : endswith (q ++ String c EmptyString) c = true.
Proof.
  induction q as [|a q IH]; simpl.
  - apply Ascii.eqb_refl.
  - destruct (q ++ String c EmptyString) eqn:E; [destruct q; discriminate | exact IH].
Qed.

Lemma drop_last_app q c : drop_last (q ++ String c EmptyString) = q.
Proof.
  induction q as [|a q IH]; simpl; [reflexivity|].
  destruct (q ++ String c EmptyString) eqn:E; [destruct q; discriminate |].
  now rewrite IH.
Qed.

Lemma endswith_inv s c :
  endswith s c = true -> s = drop_last s ++ String c EmptyString.
Proof.
  induction s as [|a s IH]; simpl; [discriminate|].
  destruct s as [|b s].
  - rewrite Ascii.eqb_eq. now intros ->.
  - intros H. simpl. f_equal. exact (IH H).
Qed.

Lemma endswith_spec s c :
  endswith s c = true <-> exists q, s = q ++ String c EmptyString.
Proof.
  split.
  - intros H. exists (drop_last s). now apply endswith_inv.
  - intros [q ->]. apply endswith_app.
Qed.

End PyStr.

(* ================================================================== *)
(** ** config.py *)

Module Config.

(** The attributes [_set_attributes] installs that the analysis reads.
    The dictionaries are association lists: Python iterates a [dict] in
    insertion order, and the order decides which pattern wins. *)
Record t := {
  min_engagement_time : Q;
  page_categories : list (string * list string);
  traffic_groups : list (string * list string)
}.

(** [_get_default_config] *)
Definition _get_default_config : t := {|
  min_engagement_time := 15;
  page_categories :=
    [ ("homepage", ["/"]);
      ("authentication", ["/login"; "/id-login"; "/provider-join"]);
      ("content", ["/posts/*"; "/skill-guide/*"; "/p-posts/*"]);
      ("service_info", ["/fee-information"; "/providers"; "/service-plan/*"]);
      ("core_features", ["/order/*"; "/products/*"; "/distribution/*"]);
      ("support", ["/p-posts/qna"; "/skill-guide/*"]) ];
  traffic_groups :=
    [ ("paid_search", ["google/cpc"; "naver/cpc"; "naver/cpc2"]);
      ("organic_search", ["google/organic"; "naver/organic"; "daum/organic"]);
      ("social_media", ["blog/sns"; "instagram/*"; "youtube/*"]);
      ("referral", ["*referral"; "blog/*"]);
      ("direct", ["(direct)/(none)"; "(not set)/(not set)"]);
      ("email", ["stibee/*"]) ]
|}.

(** The body of the inner loop of [get_page_category] and
    [get_traffic_group]: does [pattern] accept [subject]? *)
Definition pattern_matches (subject pattern : string) : bool :=
  if PyStr.endswith pattern "*"%char
  then PyStr.startswith subject (PyStr.drop_last pattern)
  else String.eqb subject pattern.

(** The two nested [for] loops with their early [return]s. *)
Fixpoint lookup_category (table : list (string * list string))
    (subject : string) : string :=
  match table with
  | [] => "other"
  | (category, patterns) :: rest =>
      if existsb (pattern_matches subject) patterns then category
      else lookup_category rest subject
  end.

Definition get_page_category (self : t) (page_path : string) : string :=
  lookup_category (page_categories self) page_path.

Definition get_traffic_group (self : t) (source medium : string) : string :=
  let source_medium := source ++ "/" ++ medium in
  lookup_category (traffic_groups self) source_medium.

(** The specification's reading of a pattern table: an ordered list of
    (category, pattern) pairs, the first matching pair wins. *)
Definition pattern_pairs (table : list (string * list string))
  : list (string * string) :=
  flat_map (fun cp => map (pair (fst cp)) (snd cp)) table.

Definition first_match_spec (table : list (string * list string))
    (subject : string) : string :=
  match find (fun cp => pattern_matches subject (snd cp)) (pattern_pairs table) with
  | Some (category, _) => category
  | None => "other"
  end.

Lemma find_map_pair (c : string) (subject : string) (patterns : list string) :
  find (fun cp : string * string => pattern_matches subject (snd cp))
       (map (pair c) patterns)
  = if existsb (pattern_matches subject) patterns
    then option_map (pair c) (find (pattern_matches subject) patterns)
    else None.
Proof.
  induction patterns as [|p ps IH]; simpl; [reflexivity|].
  destruct (pattern_matches subject p); simpl; [reflexivity|].
  rewrite IH. now destruct (existsb _ ps).
Qed.

Lemma find_app {A} (f : A -> bool) (l1 l2 : list A) :
  find f (l1 ++ l2)%list = match find f l1 with Some x => Some x | None => find f l2 end.
Proof.
  induction l1 as [|x l1 IH]; simpl; [reflexivity|].
  now destruct (f x).
Qed.

Lemma existsb_find_some {A} (f : A -> bool) (l : list A) :
  existsb f l = true -> exists x, find f l = Some x.
Proof.
  induction l as [|x l IH]; simpl; [discriminate|].
  destruct (f x); [now exists x | exact IH].
Qed.

Lemma lookup_category_first_match table subject :
  lookup_category table subject = first_match_spec table subject.
Proof.
  unfold first_match_spec.
  induction table as [|[c ps] rest IH]; simpl; [reflexivity|].
  rewrite find_app, find_map_pair.
  destruct (existsb (pattern_matches subject) ps) eqn:E.
  - destruct (existsb_find_some _ _ E) as [p ->]. reflexivity.
  - exact IH.
Qed.

Lemma pattern_matches_spec subject pattern :
  pattern_matches subject pattern = true <->
  (exists q rest, pattern = q ++ "*" /\ subject = q ++ rest) \/
  ((forall q, pattern <> q ++ "*") /\ subject = pattern).
Proof.
  unfold pattern_matches.
  destruct (PyStr.endswith pattern "*"%char) eqn:E.
  - apply PyStr.endswith_spec in E as [q ->].
    rewrite PyStr.drop_last_app, PyStr.startswith_spec. split.
    + intros [rest ->]. left. now exists q, rest.
    + intros [[q' [rest [Hq ->]]] | [Hno _]].
      * assert (q' = q) as ->.
        { rewrite <- (PyStr.drop_last_app q "*"%char),
                  <- (PyStr.drop_last_app q' "*"%char). now rewrite Hq. }
        now exists rest.
      * now destruct (Hno q).
  - rewrite String.eqb_eq. split.
    + intros ->. right. split; [|reflexivity].
      intros q ->. now rewrite PyStr.endswith_app in E.
    + intros [[q [rest [-> _]]] | [_ H]]; [|exact H].
      now rewrite PyStr.endswith_app in E.
Qed.

End Config.

(* ================================================================== *)
(** ** pandas primitives used by the analysis *)

Module Pandas.

(** Keys a frame is grouped or sorted by: a decidable equality and the
    order Python compares them with. *)
Class PyKey (K : Type) := {
  key_eqb : K -> K -> bool;
  key_leb : K -> K -> bool;
  key_eqb_eq : forall x y, key_eqb x y = true <-> x = y
}.

#[export] Instance string_key : PyKey string := {|
  key_eqb := String.eqb;
  key_leb := String.leb;
  key_eqb_eq := String.eqb_eq
|}.

#[export] Instance nat_key : PyKey nat := {|
  key_eqb := Nat.eqb;
  key_leb := Nat.leb;
  key_eqb_eq := Nat.eqb_eq
|}.

Definition pair_eqb {K1 K2} `{PyKey K1} `{PyKey K2} (x y : K1 * K2) : bool :=
  key_eqb (fst x) (fst y) && key_eqb (snd x) (snd y).

(** Tuples compare lexicographically. *)
Definition pair_leb {K1 K2} `{PyKey K1} `{PyKey K2} (x y : K1 * K2) : bool :=
  if key_eqb (fst x) (fst y) then key_leb (snd x) (snd y)
  else key_leb (fst x) (fst y).

Lemma pair_eqb_eq {K1 K2} `{PyKey K1} `{PyKey K2} (x y : K1 * K2) :
  pair_eqb x y = true <-> x = y.
Proof.
  unfold pair_eqb. destruct x as [a b], y as [c d]; simpl.
  rewrite andb_true_iff, !key_eqb_eq. split.
  - now intros [-> ->].
  - intros E. now injection E.
Qed.

#[export] Instance pair_key {K1 K2} `{PyKey K1} `{PyKey K2} : PyKey (K1 * K2) := {|
  key_eqb := pair_eqb;
  key_leb := pair_leb;
  key_eqb_eq := pair_eqb_eq
|}.

Section Sorting.
Context {A : Type}.

(** [sort_values] on one column, ascending: a stable insertion sort.
    (pandas' default quicksort may order rows with equal keys
    differently; on distinct keys every sorting algorithm agrees.) *)
Fixpoint insert_by (leb : A -> A -> bool) (x : A) (l : list A) : list A :=
  match l with
  | [] => [x]
  | y :: l' => if leb x y then x :: l else y :: insert_by leb x l'
  end.

Definition sort_by (leb : A -> A -> bool) (l : list A) : list A :=
  fold_right (insert_by leb) [] l.

End Sorting.

Section Keys.
Context {K : Type} `{PyKey K}.

Definition key_eq_dec (x y : K) : {x = y} + {x <> y}.
Proof.
  destruct (key_eqb x y) eqn:E.
  - left. now apply key_eqb_eq.
  - right. intros Heq. apply key_eqb_eq in Heq. congruence.
Defined.

(** [series.unique()] followed by a sort: the distinct keys of a column,
    ascending ([groupby] yields its groups in this order). *)
Definition unique_sorted (keys : list K) : list K :=
  sort_by key_leb (nodup key_eq_dec keys).

(** [series.mode()]: the most frequent value, the smallest one on a tie;
    [None] when the series is empty. *)
Definition count_key (k : K) (l : list K) : nat :=
  List.length (filter (key_eqb k) l).

Definition mode (l : list K) : option K :=
  fold_left
    (fun best k =>
       match best with
       | None => Some k
       | Some b => if Nat.ltb (count_key b l) (count_key k l) then Some k else Some b
       end)
    (unique_sorted l) None.

End Keys.

Section Frames.
Context {A K : Type} `{PyKey K}.

(** [df.groupby(key)]: one (key, sub-frame) pair per distinct key, keys
    ascending, the rows of a group in frame order. *)
Definition groupby (key : A -> K) (df : list A) : list (K * list A) :=
  map (fun k => (k, filter (fun r => key_eqb (key r) k) df))
      (unique_sorted (map key df)).

(** [series.nunique()] *)
Definition nunique (key : A -> K) (df : list A) : nat :=
  List.length (nodup key_eq_dec (map key df)).

(** [enumerate] *)
Definition enumerate (l : list A) : list (nat * A) :=
  combine (seq 0 (List.length l)) l.

End Frames.

End Pandas.

(* ================================================================== *)
(** ** Facts about the pandas primitives *)

Module PandasFacts.
Import Pandas.

Section SortFacts.
Context {A : Type}.
Variable leb : A -> A -> bool.

Lemma insert_by_perm (x : A) (l : list A) :
  Permutation (insert_by leb x l) (x :: l).
Proof.
  induction l as [|y l IH]; simpl; [reflexivity|].
  destruct (leb x y); [reflexivity|].
  rewrite IH. apply perm_swap.
Qed.

Lemma sort_by_perm (l : list A) : Permutation (sort_by leb l) l.
Proof.
  induction l as [|x l IH]; simpl; [reflexivity|].
  rewrite insert_by_perm. now apply perm_skip.
Qed.

Hypothesis leb_total : forall x y, leb x y = true \/ leb y x = true.

Let le (x y : A) : Prop := leb x y = true.

Lemma insert_by_sorted (x : A) (l : list A) :
  Sorted le l -> Sorted le (insert_by leb x l).
Proof.
  induction l as [|y l IH]; simpl; intros Hs.
  - repeat constructor.
  - destruct (leb x y) eqn:E.
    + constructor; [exact Hs | constructor; exact E].
    + inversion Hs as [|? ? Hl Hhd]; subst.
      constructor; [now apply IH|].
      destruct l as [|z l]; simpl.
      * constructor. destruct (leb_total x y) as [H|H]; [congruence | exact H].
      * destruct (leb x z).
        -- constructor. destruct (leb_total x y) as [H|H]; [congruence | exact H].
        -- inversion Hhd; subst. now constructor.
Qed.

Lemma sort_by_sorted (l : list A) : Sorted le (sort_by leb l).
Proof.
  induction l as [|x l IH]; simpl; [constructor|].
  now apply insert_by_sorted.
Qed.

End SortFacts.

Lemma string_leb_lt_or_eq (s1 s2 : string) :
  String.leb s1 s2 = true <-> s1 = s2 \/ String_as_OT.lt s1 s2.
Proof.
  unfold String.leb. destruct (String.compare s1 s2) eqn:E.
  - apply String.compare_eq_iff in E. subst. split; auto.
  - apply String_as_OT.cmp_lt in E. split; auto.
  - split; [discriminate|]. intros [-> | Hlt].
    + pose proof (proj2 (String_as_OT.cmp_eq s2 s2) eq_refl) as R.
      unfold String_as_OT.cmp in R. congruence.
    + apply String_as_OT.cmp_lt in Hlt. unfold String_as_OT.cmp in Hlt. congruence.
Qed.

Lemma string_leb_trans (s1 s2 s3 : string) :
  String.leb s1 s2 = true -> String.leb s2 s3 = true -> String.leb s1 s3 = true.
Proof.
  rewrite !string_leb_lt_or_eq. intros [-> | H12] [-> | H23]; auto.
  right. eapply String_as_OT.lt_trans; eauto.
Qed.

Lemma Sorted_map {A B} (f : A -> B) (R : B -> B -> Prop) (l : list A) :
  Sorted (fun x y => R (f x) (f y)) l <-> Sorted R (map f l).
Proof.
  induction l as [|x l IH]; simpl.
  - split; constructor.
  - split; intros Hs; inversion Hs as [|? ? Hl Hhd]; subst;
      (constructor; [now apply IH|]);
      destruct l; simpl in *; constructor; now inversion Hhd.
Qed.

Lemma enumerate_snd {A} (l : list A) : map snd (enumerate l) = l.
Proof.
  unfold enumerate. generalize 0%nat.
  induction l as [|x l IH]; intros s; simpl; [reflexivity|].
  now rewrite IH.
Qed.

Lemma enumerate_fst {A} (l : list A) :
  map fst (enumerate l) = seq 0 (List.length l).
Proof.
  unfold enumerate. generalize 0%nat.
  induction l as [|x l IH]; intros s; simpl; [reflexivity|].
  now rewrite IH.
Qed.

Section KeyFacts.
Context {K : Type} `{PyKey K}.

Lemma key_eqb_refl (k : K) : key_eqb k k = true.
Proof. now apply key_eqb_eq. Qed.

Lemma unique_sorted_In (keys : list K) (k : K) :
  In k (unique_sorted keys) <-> In k keys.
Proof.
  unfold unique_sorted. split; intros Hin.
  - apply (nodup_In key_eq_dec).
    eapply Permutation_in; [apply sort_by_perm | exact Hin].
  - eapply Permutation_in; [symmetry; apply sort_by_perm |].
    now apply nodup_In.
Qed.

Lemma unique_sorted_NoDup (keys : list K) : NoDup (unique_sorted keys).
Proof.
  unfold unique_sorted.
  eapply Permutation_NoDup; [symmetry; apply sort_by_perm | apply NoDup_nodup].
Qed.

End KeyFacts.

Section GroupFacts.
Context {A K : Type} `{PyKey K}.
Variable key : A -> K.

Let has_key (k : K) (r : A) : bool := key_eqb (key r) k.

Lemma filter_split_perm (f : A -> bool) (l : list A) :
  Permutation (filter f l ++ filter (fun r => negb (f r)) l)%list l.
Proof.
  induction l as [|x l IH]; simpl; [reflexivity|].
  destruct (f x); simpl.
  - now apply perm_skip.
  - rewrite <- Permutation_middle. now apply perm_skip.
Qed.

Lemma filter_filter_weaker (f g : A -> bool) (l : list A) :
  (forall x, f x = true -> g x = true) ->
  filter f (filter g l) = filter f l.
Proof.
  intros Hfg. induction l as [|x l IH]; simpl; [reflexivity|].
  destruct (g x) eqn:G; simpl.
  - now rewrite IH.
  - destruct (f x) eqn:F; [|exact IH].
    apply Hfg in F. congruence.
Qed.

Lemma flat_map_ext_in {B C} (f g : B -> list C) (l : list B) :
  (forall x, In x l -> f x = g x) -> flat_map f l = flat_map g l.
Proof.
  induction l as [|x l IH]; simpl; intros Hfg; [reflexivity|].
  rewrite Hfg by now left. rewrite IH; [reflexivity|].
  intros y Hy. apply Hfg. now right.
Qed.

Lemma groups_cover (ks : list K) :
  NoDup ks -> forall df : list A,
  (forall r, In r df -> In (key r) ks) ->
  Permutation (flat_map (fun k => filter (has_key k) df) ks) df.
Proof.
  induction 1 as [|k ks Hk Hnd IH]; intros df Hdf; simpl.
  - destruct df as [|r df]; [reflexivity|]. destruct (Hdf r). now left.
  - set (others := filter (fun r => negb (has_key k r)) df).
    assert (E : flat_map (fun k' => filter (has_key k') df) ks
                = flat_map (fun k' => filter (has_key k') others) ks).
    { apply flat_map_ext_in. intros k' Hk'. unfold others.
      rewrite filter_filter_weaker; [reflexivity|].
      intros x Hx. unfold has_key in *. apply key_eqb_eq in Hx.
      destruct (key_eqb (key x) k) eqn:Ex; [|reflexivity].
      apply key_eqb_eq in Ex. congruence. }
    rewrite E. rewrite IH.
    + apply filter_split_perm.
    + intros r Hr. unfold others in Hr. apply filter_In in Hr as [Hr Hneq].
      unfold has_key in Hneq.
      destruct (Hdf r Hr) as [E' | Hin]; [|exact Hin].
      rewrite <- E', key_eqb_refl in Hneq. discriminate Hneq.
Qed.

Lemma groupby_keys (df : list A) :
  map fst (groupby key df) = unique_sorted (map key df).
Proof.
  unfold groupby. rewrite map_map. simpl. apply map_id.
Qed.

Lemma groupby_concat_perm (df : list A) :
  Permutation (List.concat (map snd (groupby key df))) df.
Proof.
  unfold groupby. rewrite map_map. simpl.
  rewrite <- flat_map_concat_map.
  apply groups_cover.
  - apply unique_sorted_NoDup.
  - intros r Hr. apply unique_sorted_In. now apply in_map.
Qed.

Lemma groupby_In (df : list A) (g : K * list A) :
  In g (groupby key df) ->
  snd g = filter (has_key (fst g)) df /\ snd g <> [] /\
  Forall (fun r => key r = fst g) (snd g).
Proof.
  unfold groupby. intros Hg. apply in_map_iff in Hg as [k [<- Hk]]. simpl.
  split; [reflexivity|]. split.
  - apply (proj1 (unique_sorted_In _ _)) in Hk.
    apply in_map_iff in Hk as [r [<- Hr]].
    intros E. assert (Hin : In r (filter (has_key (key r)) df)).
    { apply filter_In. split; [exact Hr | apply key_eqb_refl]. }
    unfold has_key in Hin. simpl in E. rewrite E in Hin. exact Hin.
  - apply Forall_forall. intros r Hr. apply filter_In in Hr as [_ Hr].
    now apply key_eqb_eq.
Qed.

End GroupFacts.

End PandasFacts.

(* ================================================================== *)
(** ** stage_classifier.py *)

Module Classifier.
Import Pandas.

(** One row of the event relation the data loader returns. *)
Record Event := {
  userPseudoId : string;
  sessionId : string;
  eventName : string;
  pagePath : string;
  sessionSource : string;
  sessionMedium : string;
  deviceCategory : string;
  country : string;
  eventTimestamp : string;
  (** [None]: the column is absent or the value is NaN *)
  engagementTimeMsec : option Q
}.

(** One row of the frame [classify_user_events] works on: the event, its
    index label ([row.name]) and the three added columns. *)
Record Row := {
  name : nat;
  event : Event;
  funnel_stage : string;
  stage_confidence : float;
  page_category : string
}.

(** [row[column]] for a column of the event relation *)
Definition field {A} (column : Event -> A) (row : Row) : A := column (event row).

Definition set_stage (r : Row) (stage : string) (confidence : float) : Row :=
  {| name := name r; event := event r; funnel_stage := stage;
     stage_confidence := confidence; page_category := page_category r |}.

Definition set_name (r : Row) (i : nat) : Row :=
  {| name := i; event := event r; funnel_stage := funnel_stage r;
     stage_confidence := stage_confidence r; page_category := page_category r |}.

(** Python's [min(a, b)]: [b] only when [b < a]. *)
Definition py_min (a b : float) : float :=
  if (b <? a)%float then b else a.

(** [if cond: confidence += w] *)
Definition bump (cond : bool) (w : float) (confidence : float) : float :=
  if cond then (confidence + w)%float else confidence.

(** [a > b] on rationals *)
Definition Qgtb (a b : Q) : bool := negb (Qle_bool a b).

(** [any(row['eventName'] in names for _, row in context.iterrows()
         if row.name < event.name)] *)
Definition prior_event (names : list string) (event : Row)
    (context : list Row) : bool :=
  existsb (fun row => Nat.ltb (name row) (name event)
                      && PyStr.mem (field eventName row) names) context.

Definition _awareness_conditions (event : Row) (context : list Row) : float :=
  let confidence := 0%float in
  let confidence := bump (field eventName event =? "session_start") 0.8 confidence in
  let confidence := bump (field eventName event =? "first_visit") 0.9 confidence in
  let confidence := bump (negb (field sessionSource event =? "(direct)")) 0.3 confidence in
  let confidence :=
    bump (PyStr.mem (field pagePath event) ["/"; "/skill-guide/one-click"]) 0.4
         confidence in
  let confidence :=
    bump (match context with
          | [] => false
          | first_event :: _ => Nat.eqb (name event) (name first_event)
          end) 0.3 confidence in
  py_min confidence 1.

Definition _interest_conditions (config : Config.t) (event : Row)
    (context : list Row) : float :=
  let confidence := 0%float in
  let confidence :=
    bump (PyStr.mem (field eventName event) ["user_engagement"; "visit_blog"]) 0.7
         confidence in
  let confidence :=
    bump (PyStr.contains (field pagePath event) "/posts/"
          || PyStr.contains (field pagePath event) "/skill-guide/") 0.5
         confidence in
  let confidence :=
    bump (match field engagementTimeMsec event with
          | Some msec =>
              let engagement_sec := (msec / 1000)%Q in
              Qgtb engagement_sec (Config.min_engagement_time config)
          | None => false
          end) 0.4 confidence in
  let confidence := bump (field eventName event =? "visit_blog") 0.6 confidence in
  let prior_awareness := prior_event ["session_start"; "first_visit"] event context in
  let confidence := bump prior_awareness 0.2 confidence in
  py_min confidence 1.

Definition _consideration_conditions (event : Row) (context : list Row) : float :=
  let confidence := 0%float in
  let service_pages := ["/fee-information"; "/providers"; "/service-plan"] in
  let confidence :=
    bump (existsb (fun page => PyStr.contains (field pagePath event) page)
                  service_pages) 0.8 confidence in
  let unique_pages := nunique (field pagePath) context in
  let confidence := bump (3 <=? unique_pages)%nat 0.3 confidence in
  let confidence := bump (5 <=? unique_pages)%nat 0.2 confidence in
  let event_position :=
    List.length (filter (fun row => Nat.leb (name row) (name event)) context) in
  let confidence := bump (3 <=? event_position)%nat 0.2 confidence in
  let prior_interest := prior_event ["user_engagement"; "visit_blog"] event context in
  let confidence := bump prior_interest 0.3 confidence in
  let confidence := bump (field sessionSource event =? "(direct)") 0.2 confidence in
  py_min confidence 1.

Definition conversion_event_name : string := "회원가입2".

Definition _conversion_conditions (event : Row) (context : list Row) : float :=
  let confidence := 0%float in
  let confidence :=
    if field eventName event =? conversion_event_name then 1%float
    else if field pagePath event =? "/provider-join" then
      if field eventName event =? "page_view" then (confidence + 0.3)%float
      else if field eventName event =? "user_engagement" then (confidence + 0.5)%float
      else confidence
    else confidence in
  py_min confidence 1.

(** A value of the [stage_rules] dictionary.  The scoring functions never
    read the rule they are handed ([config] in the source), so
    [conditions] takes the event and the context only. *)
Record StageRule := {
  events : list string;
  pages : list string;
  conditions : Row -> list Row -> float;
  priority : nat
}.

Record t := {
  config : Config.t;
  stage_rules : list (string * StageRule)
}.

Definition _initialize_stage_rules (config : Config.t) : list (string * StageRule) :=
  [ ("AWARENESS",
     {| events := ["session_start"; "first_visit"];
        pages := ["/"; "/skill-guide/one-click"];
        conditions := _awareness_conditions;
        priority := 1 |});
    ("INTEREST",
     {| events := ["user_engagement"; "visit_blog"; "scroll"];
        pages := ["/posts/*"; "/skill-guide/*"];
        conditions := _interest_conditions config;
        priority := 2 |});
    ("CONSIDERATION",
     {| events := ["page_view"];
        pages := ["/fee-information"; "/providers"; "/service-plan/*"];
        conditions := _consideration_conditions;
        priority := 3 |});
    ("CONVERSION",
     {| events := [conversion_event_name];
        pages := ["/provider-join"];
        conditions := _conversion_conditions;
        priority := 4 |}) ].

(** [FunnelStageClassifier(config)] *)
Definition init (config : Config.t) : t :=
  {| config := config; stage_rules := _initialize_stage_rules config |}.

(** The loop over [stage_rules.items()], keeping the first strictly
    larger score. *)
Definition _classify_single_event (self : t) (event_row : Row)
    (user_context : list Row) : string * float :=
  fold_left
    (fun (best : string * float) (rule : string * StageRule) =>
       let (best_stage, max_confidence) := best in
       let (stage_name, stage_config) := rule in
       let confidence := conditions stage_config event_row user_context in
       if (max_confidence <? confidence)%float
       then (stage_name, confidence)
       else (best_stage, max_confidence))
    (stage_rules self)
    ("UNKNOWN", 0%float).

(** [user_events.at[idx, 'funnel_stage'] = stage] and the same for
    [stage_confidence]: every row labelled [idx] is written. *)
Definition at_set (idx : nat) (stage : string) (confidence : float)
    (df : list Row) : list Row :=
  map (fun r => if Nat.eqb (name r) idx then set_stage r stage confidence else r) df.

Definition timestamp_leb (r1 r2 : Row) : bool :=
  String.leb (field eventTimestamp r1) (field eventTimestamp r2).

(** [_classify_user_journey]: the frame is sorted, then updated in place
    while it is iterated; the frame handed to the scoring functions as
    context is the one being written. *)
Definition _classify_user_journey (self : t) (user_events : list Row) : list Row :=
  let user_events := sort_by timestamp_leb user_events in
  fold_left
    (fun (user_events : list Row) (row : Row) =>
       let (stage, confidence) := _classify_single_event self row user_events in
       at_set (name row) stage confidence user_events)
    user_events
    user_events.

(** [pd.concat(..., ignore_index=True)] *)
Definition concat_ignore_index (dfs : list (list Row)) : list Row :=
  map (fun ir => set_name (snd ir) (fst ir)) (enumerate (List.concat dfs)).

Definition classify_user_events (self : t) (events_df : list Event) : list Row :=
  match events_df with
  | [] => []
  | _ =>
      let events_df :=
        map (fun ie =>
               {| name := fst ie; event := snd ie;
                  funnel_stage := "UNKNOWN"; stage_confidence := 0;
                  page_category :=
                    Config.get_page_category (config self) (pagePath (snd ie)) |})
            (enumerate events_df) in
      let user_groups := groupby (field userPseudoId) events_df in
      let classified_dfs :=
        map (fun g => _classify_user_journey self (snd g)) user_groups in
      concat_ignore_index classified_dfs
  end.

End Classifier.

(* ================================================================== *)
(** ** The scores a stage can take *)

Module Scores.
Import Classifier.

(** Every sum a run of [bump]s over the weights [ws] can produce, starting
    from one of [acc]. *)
Fixpoint reachable (ws : list float) (acc : list float) : list float :=
  match ws with
  | [] => acc
  | w :: ws' => reachable ws' (acc ++ map (fun c => (c + w)%float) acc)%list
  end.

Definition clamp_all (sums : list float) : list float :=
  map (fun c => py_min c 1) sums.

Definition awareness_scores : list float :=
  clamp_all (reachable [0.8; 0.9; 0.3; 0.4; 0.3]%float [0%float]).

Definition interest_scores : list float :=
  clamp_all (reachable [0.7; 0.5; 0.4; 0.6; 0.2]%float [0%float]).

Definition consideration_scores : list float :=
  clamp_all (reachable [0.8; 0.3; 0.2; 0.2; 0.3; 0.2]%float [0%float]).

Definition conversion_scores : list float :=
  clamp_all [1; 0 + 0.3; 0 + 0.5; 0]%float.

(** Which rule holds the best score after the loop of
    [_classify_single_event]. *)
Inductive Winner :=
  | NoStage | Awareness | Interest | Consideration | Conversion.

Definition winner_name (w : Winner) : string :=
  match w with
  | NoStage => "UNKNOWN"
  | Awareness => "AWARENESS"
  | Interest => "INTEREST"
  | Consideration => "CONSIDERATION"
  | Conversion => "CONVERSION"
  end.

Definition challenge (best : Winner * float) (w : Winner) (confidence : float)
  : Winner * float :=
  if (snd best <? confidence)%float then (w, confidence) else best.

Definition winner (a b c d : float) : Winner * float :=
  challenge (challenge (challenge (challenge (NoStage, 0%float)
    Awareness a) Interest b) Consideration c) Conversion d.

Definition winner_score (a b c d : float) (w : Winner) : float :=
  match w with
  | NoStage => 0
  | Awareness => a
  | Interest => b
  | Consideration => c
  | Conversion => d
  end.

(** The order facts that make [w] the first stage with the highest
    score (or no stage, when no score is positive). *)
Definition first_highest (a b c d : float) (w : Winner) : bool :=
  match w with
  | NoStage =>
      negb (0 <? a)%float && negb (0 <? b)%float
      && negb (0 <? c)%float && negb (0 <? d)%float
  | Awareness =>
      (0 <? a)%float && (b <=? a)%float && (c <=? a)%float && (d <=? a)%float
  | Interest =>
      (0 <? b)%float && (a <? b)%float && (c <=? b)%float && (d <=? b)%float
  | Consideration =>
      (0 <? c)%float && (a <? c)%float && (b <? c)%float && (d <=? c)%float
  | Conversion =>
      (0 <? d)%float && (a <? d)%float && (b <? d)%float && (c <? d)%float
  end.

Definition in_unit_interval (x : float) : bool :=
  (0 <=? x)%float && (x <=? 1)%float.

(** Why the scores are binary64 values: AWARENESS at 0.3 + 0.3 and
    INTEREST at 0.4 + 0.2 tie in decimal arithmetic (AWARENESS would keep
    the event), but not in the arithmetic the code runs. *)
Example rounding_breaks_a_decimal_tie :
  (py_min (0 + 0.3 + 0.3) 1 <? py_min (0 + 0.4 + 0.2) 1)%float = true.
Proof. reflexivity. Qed.

Lemma bump_reachable (b : bool) (w c : float) (acc : list float) :
  In c acc -> In (bump b w c) (acc ++ map (fun c => (c + w)%float) acc)%list.
Proof.
  intros Hc. apply in_or_app. destruct b; simpl.
  - right. now apply (in_map (fun x => (x + w)%float)).
  - now left.
Qed.

Lemma awareness_in event context :
  In (_awareness_conditions event context) awareness_scores.
Proof.
  unfold _awareness_conditions, awareness_scores, clamp_all.
  apply (in_map (fun c => py_min c 1)). cbn [reachable].
  repeat apply bump_reachable. now left.
Qed.

Lemma interest_in config event context :
  In (_interest_conditions config event context) interest_scores.
Proof.
  unfold _interest_conditions, interest_scores, clamp_all.
  apply (in_map (fun c => py_min c 1)). cbn [reachable].
  repeat apply bump_reachable. now left.
Qed.

Lemma consideration_in event context :
  In (_consideration_conditions event context) consideration_scores.
Proof.
  unfold _consideration_conditions, consideration_scores, clamp_all.
  apply (in_map (fun c => py_min c 1)). cbn [reachable].
  repeat apply bump_reachable. now left.
Qed.

Lemma conversion_in event context :
  In (_conversion_conditions event context) conversion_scores.
Proof.
  unfold _conversion_conditions, conversion_scores, clamp_all.
  apply (in_map (fun c => py_min c 1)).
  repeat match goal with
         | |- context [if String.eqb ?x ?y then _ else _] => destruct (String.eqb x y)
         end; simpl; auto.
Qed.

Definition all_scores : list float :=
  (awareness_scores ++ interest_scores ++ consideration_scores
   ++ conversion_scores)%list.

Lemma scores_in_unit_interval x :
  In x all_scores -> in_unit_interval x = true.
Proof.
  revert x. apply forallb_forall. vm_compute. reflexivity.
Qed.

Ltac each_score H :=
  vm_compute in H;
  repeat (destruct H as [<- | H]); [ .. | destruct H ].

Lemma score_not_positive x :
  In x all_scores -> (0 <? x)%float = false -> x = 0%float.
Proof.
  intros H. each_score H; vm_compute; intros E; first [reflexivity | discriminate E].
Qed.

Lemma score_at_least_one x :
  In x all_scores -> (1 <=? x)%float = true -> x = 1%float.
Proof.
  intros H. each_score H; vm_compute; intros E; first [reflexivity | discriminate E].
Qed.

Lemma winner_score_snd a b c d :
  snd (winner a b c d) = winner_score a b c d (fst (winner a b c d)).
Proof.
  unfold winner, challenge; simpl.
  repeat match goal with
         | |- context [if ?t then _ else _] => destruct t; simpl
         end; reflexivity.
Qed.

Lemma winner_first_highest a b c d :
  In a awareness_scores -> In b interest_scores ->
  In c consideration_scores -> In d conversion_scores ->
  first_highest a b c d (fst (winner a b c d)) = true.
Proof.
  assert (H : forallb (fun a => forallb (fun b => forallb (fun c => forallb (fun d =>
                first_highest a b c d (fst (winner a b c d)))
              conversion_scores) consideration_scores) interest_scores)
              awareness_scores = true)
    by (vm_compute; reflexivity).
  intros Ha Hb Hc Hd.
  rewrite forallb_forall in H. specialize (H a Ha).
  rewrite forallb_forall in H. specialize (H b Hb).
  rewrite forallb_forall in H. specialize (H c Hc).
  rewrite forallb_forall in H. exact (H d Hd).
Qed.

End Scores.

(* ================================================================== *)
(** ** Facts about the classifier *)

Module ClassifierFacts.
Import Pandas Classifier Scores.

Section SingleEvent.
Variable cfg : Config.t.
Variables (event_row : Row) (user_context : list Row).

Let a := _awareness_conditions event_row user_context.
Let b := _interest_conditions cfg event_row user_context.
Let c := _consideration_conditions event_row user_context.
Let d := _conversion_conditions event_row user_context.

Lemma classify_winner :
  _classify_single_event (init cfg) event_row user_context
  = (winner_name (fst (winner a b c d)), snd (winner a b c d)).
Proof.
  unfold _classify_single_event, winner, challenge; simpl.
  fold a b c d.
  repeat match goal with
         | |- context [if ?t then _ else _] => destruct t; simpl
         end; reflexivity.
Qed.

Lemma scores_listed :
  In a all_scores /\ In b all_scores /\ In c all_scores /\ In d all_scores.
Proof.
  unfold all_scores. repeat split.
  - apply in_or_app. left. apply awareness_in.
  - apply in_or_app. right. apply in_or_app. left. apply interest_in.
  - apply in_or_app. right. apply in_or_app. right.
    apply in_or_app. left. apply consideration_in.
  - apply in_or_app. right. apply in_or_app. right.
    apply in_or_app. right. apply conversion_in.
Qed.

(** The stage assigned is the first one holding the highest score. *)
Lemma classify_first_highest :
  exists w,
    _classify_single_event (init cfg) event_row user_context
    = (winner_name w, winner_score a b c d w)
    /\ first_highest a b c d w = true.
Proof.
  exists (fst (winner a b c d)). split.
  - rewrite classify_winner. now rewrite winner_score_snd.
  - apply winner_first_highest.
    + apply awareness_in.
    + apply interest_in.
    + apply consideration_in.
    + apply conversion_in.
Qed.

End SingleEvent.

(** A property of every result of [_classify_single_event] holds of every
    row the in-place loop of [_classify_user_journey] has written. *)
Section Lift.
Variable self : t.
Variable P : string -> float -> Prop.
Hypothesis HP : forall row ctx,
  P (fst (_classify_single_event self row ctx))
    (snd (_classify_single_event self row ctx)).

Let holds (r : Row) : Prop := P (funnel_stage r) (stage_confidence r).

Let step (user_events : list Row) (row : Row) : list Row :=
  let (stage, confidence) := _classify_single_event self row user_events in
  at_set (name row) stage confidence user_events.

Lemma journey_fold_lift (todo df : list Row) :
  (forall r, In r df -> holds r \/ In (name r) (map name todo)) ->
  Forall holds (fold_left step todo df).
Proof.
  revert df. induction todo as [|row todo IH]; intros df H; simpl.
  - apply Forall_forall. intros r Hr. destruct (H r Hr) as [Hh | []]. exact Hh.
  - apply IH. intros r Hr. unfold step in Hr.
    pose proof (HP row df) as Hrow.
    destruct (_classify_single_event self row df) as [stage confidence].
    unfold at_set in Hr. apply in_map_iff in Hr as [r0 [<- Hr0]].
    destruct (Nat.eqb (name r0) (name row)) eqn:E.
    + left. exact Hrow.
    + destruct (H r0 Hr0) as [Hh | [Hn | Hn]].
      * now left.
      * apply Nat.eqb_neq in E. congruence.
      * now right.
Qed.

Lemma journey_lift (user_events : list Row) :
  Forall holds (_classify_user_journey self user_events).
Proof.
  unfold _classify_user_journey. apply journey_fold_lift.
  intros r Hr. right. now apply in_map.
Qed.

Lemma classify_user_events_lift (events_df : list Event) :
  Forall holds (classify_user_events self events_df).
Proof.
  unfold classify_user_events. destruct events_df as [|e0 rest]; [constructor|].
  unfold concat_ignore_index. apply Forall_forall. intros r Hr.
  apply in_map_iff in Hr as [[i r0] [<- Hr0]].
  apply in_combine_r in Hr0. apply in_concat in Hr0 as [block [Hblock Hr0]].
  apply in_map_iff in Hblock as [g [<- _]].
  pose proof (journey_lift (snd g)) as HF.
  rewrite Forall_forall in HF. exact (HF r0 Hr0).
Qed.

End Lift.

(** What the in-place loop leaves untouched: the index label, the event
    and the page category of every row. *)
Definition skeleton (r : Row) : nat * Event * string :=
  (name r, event r, page_category r).

Definition timestamp_le (r1 r2 : Row) : Prop := timestamp_leb r1 r2 = true.

(** The frame [classify_user_events] builds before it groups by user. *)
Definition annotated (cfg : Config.t) (events_df : list Event) : list Row :=
  map (fun ie =>
         {| name := fst ie; event := snd ie;
            funnel_stage := "UNKNOWN"; stage_confidence := 0;
            page_category := Config.get_page_category cfg (pagePath (snd ie)) |})
      (enumerate events_df).

Section Frame.
Variable self : t.

Lemma at_set_skeleton idx stage confidence (df : list Row) :
  map skeleton (at_set idx stage confidence df) = map skeleton df.
Proof.
  unfold at_set. rewrite map_map. apply map_ext. intros r.
  now destruct (Nat.eqb (name r) idx).
Qed.

Lemma journey_fold_skeleton (todo df : list Row) :
  map skeleton
    (fold_left
       (fun (user_events : list Row) (row : Row) =>
          let (stage, confidence) := _classify_single_event self row user_events in
          at_set (name row) stage confidence user_events)
       todo df)
  = map skeleton df.
Proof.
  revert df. induction todo as [|row todo IH]; intros df; simpl; [reflexivity|].
  rewrite IH. destruct (_classify_single_event self row df).
  apply at_set_skeleton.
Qed.

Lemma journey_skeleton (user_events : list Row) :
  map skeleton (_classify_user_journey self user_events)
  = map skeleton (sort_by timestamp_leb user_events).
Proof. apply journey_fold_skeleton. Qed.

Lemma skeleton_event (l : list Row) :
  map event l = map (fun s => snd (fst s)) (map skeleton l).
Proof. rewrite map_map. reflexivity. Qed.

Lemma journey_events (user_events : list Row) :
  map event (_classify_user_journey self user_events)
  = map event (sort_by timestamp_leb user_events).
Proof. now rewrite !skeleton_event, journey_skeleton. Qed.

Lemma journey_events_perm (user_events : list Row) :
  Permutation (map event (_classify_user_journey self user_events))
              (map event user_events).
Proof.
  rewrite journey_events. apply Permutation_map, PandasFacts.sort_by_perm.
Qed.

Lemma journey_sorted (user_events : list Row) :
  Sorted timestamp_le (_classify_user_journey self user_events).
Proof.
  pose (R := fun e1 e2 : Event =>
               String.leb (eventTimestamp e1) (eventTimestamp e2) = true).
  apply (PandasFacts.Sorted_map event R). rewrite journey_events.
  apply (PandasFacts.Sorted_map event R).
  apply (PandasFacts.sort_by_sorted timestamp_leb).
  intros x y. apply String.leb_total.
Qed.

Lemma timestamp_le_trans : Transitive timestamp_le.
Proof.
  intros x y z. unfold timestamp_le, timestamp_leb.
  apply PandasFacts.string_leb_trans.
Qed.

Lemma journey_strongly_sorted (user_events : list Row) :
  StronglySorted timestamp_le (_classify_user_journey self user_events).
Proof.
  apply Sorted_StronglySorted; [exact timestamp_le_trans | apply journey_sorted].
Qed.

Lemma journey_In_skeleton (user_events : list Row) (r : Row) :
  In r (_classify_user_journey self user_events) ->
  exists r0, In r0 user_events /\ skeleton r = skeleton r0.
Proof.
  intros Hr. apply (in_map skeleton) in Hr. rewrite journey_skeleton in Hr.
  apply in_map_iff in Hr as [r0 [E Hr0]]. exists r0. split; [|now symmetry].
  eapply Permutation_in; [apply PandasFacts.sort_by_perm | exact Hr0].
Qed.

Lemma blocks_events_perm (groups : list (string * list Row)) :
  Permutation
    (map event (List.concat (map (fun g => _classify_user_journey self (snd g)) groups)))
    (map event (List.concat (map snd groups))).
Proof.
  induction groups as [|g groups IH]; simpl; [reflexivity|].
  rewrite !map_app. apply Permutation_app; [apply journey_events_perm | exact IH].
Qed.

Lemma concat_ignore_index_events (dfs : list (list Row)) :
  map event (concat_ignore_index dfs) = map event (List.concat dfs).
Proof.
  unfold concat_ignore_index. rewrite map_map. simpl.
  rewrite <- (map_map snd event). now rewrite PandasFacts.enumerate_snd.
Qed.

Lemma concat_ignore_index_names (dfs : list (list Row)) :
  map name (concat_ignore_index dfs) = seq 0 (List.length (List.concat dfs)).
Proof.
  unfold concat_ignore_index. rewrite map_map. simpl.
  apply PandasFacts.enumerate_fst.
Qed.

End Frame.

(** *** The in-place loop against a two-pass classification *)

(** The classification written without mutation: every row of the sorted
    frame of a user is classified against that frame. *)
Definition classify_row (self : t) (context : list Row) (row : Row) : Row :=
  let (stage, confidence) := _classify_single_event self row context in
  set_stage row stage confidence.

Definition two_pass_journey (self : t) (user_events : list Row) : list Row :=
  let user_events := sort_by timestamp_leb user_events in
  map (classify_row self user_events) user_events.

Definition two_pass_classify (cfg : Config.t) (events_df : list Event) : list Row :=
  concat_ignore_index
    (map (fun g => two_pass_journey (init cfg) (snd g))
         (groupby (field userPseudoId) (annotated cfg events_df))).

Section Skeleton.
Variables l l' : list Row.
Hypothesis Hsk : map skeleton l = map skeleton l'.

Lemma skeleton_names : map name l = map name l'.
Proof.
  assert (E : forall k : list Row,
             map name k = map (fun s => fst (fst s)) (map skeleton k))
    by (intros k; rewrite map_map; reflexivity).
  now rewrite !E, Hsk.
Qed.

Lemma skeleton_events : map event l = map event l'.
Proof. now rewrite !skeleton_event, Hsk. Qed.

Lemma skeleton_existsb (f : nat -> Event -> bool) :
  existsb (fun r => f (name r) (event r)) l
  = existsb (fun r => f (name r) (event r)) l'.
Proof.
  revert l' Hsk. induction l as [|r k IH]; intros [|r' k'] H;
    try discriminate H; [reflexivity|].
  simpl in H. unfold skeleton in H. injection H as Hn He _ Hk.
  simpl. rewrite Hn, He. f_equal. now apply IH.
Qed.

Lemma skeleton_filter_length (f : nat -> Event -> bool) :
  List.length (filter (fun r => f (name r) (event r)) l)
  = List.length (filter (fun r => f (name r) (event r)) l').
Proof.
  revert l' Hsk. induction l as [|r k IH]; intros [|r' k'] H;
    try discriminate H; [reflexivity|].
  simpl in H. unfold skeleton in H. injection H as Hn He _ Hk.
  simpl. rewrite Hn, He.
  destruct (f (name r') (event r')); simpl; [f_equal|]; now apply IH.
Qed.

Lemma skeleton_awareness (e : Row) :
  _awareness_conditions e l = _awareness_conditions e l'.
Proof.
  unfold _awareness_conditions.
  pose proof skeleton_names as Hn.
  destruct l as [|r k], l' as [|r' k']; try discriminate Hn; [reflexivity|].
  simpl in Hn. injection Hn as -> _. reflexivity.
Qed.

Lemma skeleton_prior_event (names : list string) (e : Row) :
  prior_event names e l = prior_event names e l'.
Proof.
  unfold prior_event, field.
  apply (skeleton_existsb
           (fun n ev => Nat.ltb n (name e) && PyStr.mem (eventName ev) names)).
Qed.

Lemma skeleton_interest (cfg : Config.t) (e : Row) :
  _interest_conditions cfg e l = _interest_conditions cfg e l'.
Proof.
  unfold _interest_conditions. now rewrite skeleton_prior_event.
Qed.

Lemma skeleton_consideration (e : Row) :
  _consideration_conditions e l = _consideration_conditions e l'.
Proof.
  unfold _consideration_conditions, nunique.
  rewrite skeleton_prior_event.
  assert (Hp : map (field pagePath) l = map (field pagePath) l').
  { unfold field. rewrite <- !(map_map event pagePath). now rewrite skeleton_events. }
  rewrite Hp.
  now rewrite (skeleton_filter_length (fun n _ => Nat.leb n (name e))).
Qed.

Lemma skeleton_classify (cfg : Config.t) (e : Row) :
  _classify_single_event (init cfg) e l = _classify_single_event (init cfg) e l'.
Proof.
  rewrite !classify_winner.
  now rewrite skeleton_awareness, skeleton_interest, skeleton_consideration.
Qed.

End Skeleton.

Lemma classify_row_skeleton (self : t) (context : list Row) (row : Row) :
  skeleton (classify_row self context row) = skeleton row.
Proof.
  unfold classify_row. now destruct (_classify_single_event self row context).
Qed.

Lemma at_set_other idx stage confidence (df : list Row) :
  ~ In idx (map name df) -> at_set idx stage confidence df = df.
Proof.
  intros Hout. unfold at_set. rewrite <- (map_id df) at 2.
  apply map_ext_in. intros r Hr.
  destruct (Nat.eqb_spec (name r) idx) as [E | _]; [|reflexivity].
  destruct Hout. rewrite <- E. now apply in_map.
Qed.

Section TwoPass.
Variable cfg : Config.t.
Variable sorted : list Row.

Let pure := classify_row (init cfg) sorted.

Lemma pure_names (k : list Row) : map name (map pure k) = map name k.
Proof.
  rewrite map_map. apply map_ext. intros r.
  pose proof (classify_row_skeleton (init cfg) sorted r) as E.
  unfold skeleton in E. now injection E.
Qed.

Lemma pure_skeleton (k : list Row) : map skeleton (map pure k) = map skeleton k.
Proof.
  rewrite map_map. apply map_ext. intros r. apply classify_row_skeleton.
Qed.

Lemma journey_fold_two_pass (todo done : list Row) :
  sorted = (done ++ todo)%list ->
  NoDup (map name sorted) ->
  fold_left
    (fun (user_events : list Row) (row : Row) =>
       let (stage, confidence) :=
         _classify_single_event (init cfg) row user_events in
       at_set (name row) stage confidence user_events)
    todo (map pure done ++ todo)%list
  = map pure sorted.
Proof.
  revert done. induction todo as [|row todo IH]; intros done Hs Hnd.
  - simpl. now rewrite Hs, !app_nil_r.
  - simpl.
    assert (Hctx : _classify_single_event (init cfg) row
                     (map pure done ++ row :: todo)%list
                   = _classify_single_event (init cfg) row sorted).
    { apply skeleton_classify. rewrite map_app, pure_skeleton, <- map_app.
      now rewrite Hs. }
    rewrite Hctx.
    rewrite Hs, map_app in Hnd. simpl in Hnd.
    pose proof (NoDup_remove_2 _ _ _ Hnd) as Hout.
    assert (Hstep :
      (let (stage, confidence) := _classify_single_event (init cfg) row sorted in
       at_set (name row) stage confidence (map pure done ++ row :: todo)%list)
      = (map pure (done ++ [row]) ++ todo)%list).
    { unfold pure at 2. unfold classify_row. rewrite map_app. simpl.
      destruct (_classify_single_event (init cfg) row sorted) as [stage confidence].
      unfold at_set at 1. rewrite map_app. simpl. rewrite Nat.eqb_refl.
      fold (at_set (name row) stage confidence (map pure done)).
      fold (at_set (name row) stage confidence todo).
      rewrite !at_set_other.
      - now rewrite <- app_assoc.
      - intros Hin. apply Hout. apply in_or_app. now right.
      - rewrite pure_names. intros Hin. apply Hout. apply in_or_app. now left. }
    rewrite Hstep. apply IH.
    + rewrite <- app_assoc. exact Hs.
    + rewrite Hs, map_app. exact Hnd.
Qed.

End TwoPass.

Lemma journey_two_pass (cfg : Config.t) (user_events : list Row) :
  NoDup (map name user_events) ->
  _classify_user_journey (init cfg) user_events
  = two_pass_journey (init cfg) user_events.
Proof.
  intros Hnd. unfold _classify_user_journey, two_pass_journey.
  apply (journey_fold_two_pass cfg (sort_by timestamp_leb user_events)
           (sort_by timestamp_leb user_events) []); [reflexivity|].
  eapply Permutation_NoDup; [|exact Hnd].
  apply Permutation_map. symmetry. apply PandasFacts.sort_by_perm.
Qed.

Lemma NoDup_map_filter {A B} (f : A -> B) (p : A -> bool) (k : list A) :
  NoDup (map f k) -> NoDup (map f (filter p k)).
Proof.
  induction k as [|x k IH]; simpl; intros Hnd; [constructor|].
  inversion Hnd as [|? ? Hout Hk]; subst.
  destruct (p x); simpl; [|now apply IH].
  constructor; [|now apply IH].
  intros Hin. apply Hout. apply in_map_iff in Hin as [y [E Hy]].
  apply filter_In in Hy as [Hy _]. rewrite <- E. now apply in_map.
Qed.

Lemma annotated_names cfg (events_df : list Event) :
  map name (annotated cfg events_df) = seq 0 (List.length events_df).
Proof.
  unfold annotated. rewrite map_map. simpl. apply PandasFacts.enumerate_fst.
Qed.

(** The in-place loop computes the two-pass classification: a write to a
    row never changes what a later row is scored against. *)
Lemma classify_user_events_two_pass cfg (events_df : list Event) :
  classify_user_events (init cfg) events_df = two_pass_classify cfg events_df.
Proof.
  destruct events_df as [|e0 rest]; [reflexivity|].
  unfold classify_user_events, two_pass_classify.
  fold (annotated cfg (e0 :: rest)). f_equal.
  apply map_ext_in. intros g Hg. apply journey_two_pass.
  apply PandasFacts.groupby_In in Hg as [-> _].
  apply NoDup_map_filter. rewrite annotated_names. apply seq_NoDup.
Qed.

Lemma annotated_events cfg (events_df : list Event) :
  map event (annotated cfg events_df) = events_df.
Proof.
  unfold annotated. rewrite map_map. simpl. apply PandasFacts.enumerate_snd.
Qed.

Lemma classify_user_events_blocks cfg (events_df : list Event) :
  classify_user_events (init cfg) events_df
  = concat_ignore_index
      (map (fun g => _classify_user_journey (init cfg) (snd g))
           (groupby (field userPseudoId) (annotated cfg events_df))).
Proof. destruct events_df; reflexivity. Qed.

Lemma classify_user_events_perm cfg (events_df : list Event) :
  Permutation (map event (classify_user_events (init cfg) events_df)) events_df.
Proof.
  rewrite classify_user_events_blocks, concat_ignore_index_events.
  rewrite blocks_events_perm.
  rewrite (Permutation_map event (PandasFacts.groupby_concat_perm _ _)).
  now rewrite annotated_events.
Qed.

End ClassifierFacts.

(* ================================================================== *)
(** ** conversion_calculator.py *)

Module Calculator.
Import Pandas Classifier.

(** *** Exceptions *)

Inductive Exn :=
  | KeyError (key : string)
  | IndexError
  | ZeroDivisionError.

Inductive Result (A : Type) : Type :=
  | Ok (a : A)
  | Raise (e : Exn).
Arguments Ok {A} a.
Arguments Raise {A} e.

Definition bind {A B} (m : Result A) (k : A -> Result B) : Result B :=
  match m with
  | Ok a => k a
  | Raise e => Raise e
  end.

Notation "x <- c1 ;; c2" := (bind c1 (fun x => c2))
  (at level 61, c1 at next level, right associativity).
Notation "c1 ;; c2" := (bind c1 (fun _ => c2))
  (at level 61, right associativity).

Fixpoint mapM {A B} (f : A -> Result B) (l : list A) : Result (list B) :=
  match l with
  | [] => Ok []
  | x :: l' => y <- f x ;; ys <- mapM f l' ;; Ok (y :: ys)
  end.

(** *** Frames *)

(** A classified frame: the names of its columns and its rows.  A frame
    without rows may still have columns; [pd.DataFrame()] has neither. *)
Record DataFrame := {
  columns : list string;
  rows : list Row
}.

Definition event_columns : list string :=
  ["userPseudoId"; "sessionId"; "eventName"; "pagePath"; "sessionSource";
   "sessionMedium"; "deviceCategory"; "country"; "eventTimestamp";
   "engagementTimeMsec"].

Definition classified_columns : list string :=
  (event_columns ++ ["funnel_stage"; "stage_confidence"; "page_category"])%list.

(** The frame [classify_user_events] returns for a non-empty relation with
    every column of the input contract. *)
Definition classified_frame (classified : list Row) : DataFrame :=
  {| columns := classified_columns; rows := classified |}.

(** [df.empty] *)
Definition empty (df : DataFrame) : bool :=
  match columns df, rows df with
  | [], _ => true
  | _, [] => true
  | _, _ => false
  end.

(** [df[column]], [df.groupby(column)], [agg({column: ...})] *)
Definition require (column : string) (df : DataFrame) : Result unit :=
  if PyStr.mem column (columns df) then Ok tt else Raise (KeyError column).

(** [pd.DataFrame(records)[column]] and [.sort_values(column)]: a frame
    built from a list of dictionaries has their keys as columns, and no
    column when the list is empty. *)
Definition records_column {A} (column : string) (records : list A) : Result unit :=
  match records with
  | [] => Raise (KeyError column)
  | _ => Ok tt
  end.

(** [df.iloc[0]] *)
Definition iloc0 {A} (records : list A) : Result A :=
  match records with
  | [] => Raise IndexError
  | r :: _ => Ok r
  end.

(** *** Numbers *)

Definition Qnat (n : nat) : Q := inject_Z (Z.of_nat n).

(** [a / b * 100] on Python integers *)
Definition percent (a b : nat) : Result Q :=
  if Nat.eqb b 0 then Raise ZeroDivisionError
  else Ok (Qnat a / Qnat b * 100)%Q.

(** [a / b * 100 if b > 0 else 0] *)
Definition percent_or_zero (a b : nat) : Result Q :=
  if Nat.ltb 0 b then percent a b else Ok 0%Q.

(** A numpy float64: division by zero gives [nan] or [inf], no exception. *)
Inductive np_float :=
  | Finite (q : Q)
  | NaN
  | PosInf.

(** [a / b * 100] where [a] is a numpy integer *)
Definition np_percent (a b : nat) : np_float :=
  if Nat.eqb b 0 then (if Nat.eqb a 0 then NaN else PosInf)
  else Finite (Qnat a / Qnat b * 100)%Q.

(** [x >= threshold]; comparisons with [nan] are false *)
Definition np_geb (x : np_float) (threshold : Q) : bool :=
  match x with
  | Finite q => Qle_bool threshold q
  | NaN => false
  | PosInf => true
  end.

(** The order [sort_values(ascending=False)] puts two values in ([nan]
    last). *)
Definition np_desc (x y : np_float) : bool :=
  match x, y with
  | _, NaN => true
  | NaN, _ => false
  | PosInf, _ => true
  | Finite _, PosInf => false
  | Finite p, Finite q => Qle_bool q p
  end.

Definition count_true {A} (f : A -> bool) (l : list A) : nat :=
  List.length (filter f l).

Definition has_stage (stage : string) (user_events : list Row) : bool :=
  existsb (fun r => funnel_stage r =? stage) user_events.

(** *** _get_user_progression *)

Record Progression := {
  user_id : string;
  reached_awareness : bool;
  reached_interest : bool;
  reached_consideration : bool;
  reached_conversion : bool;
  total_events : nat;
  unique_pages : nat;
  first_source : string;
  first_medium : string
}.

Definition _get_user_progression (classified_df : DataFrame)
  : Result (list Progression) :=
  require "userPseudoId" classified_df ;;
  mapM (fun g : string * list Row =>
          let (user_id, user_events) := g in
          require "funnel_stage" classified_df ;;
          require "pagePath" classified_df ;;
          first <- iloc0 user_events ;;
          require "sessionSource" classified_df ;;
          require "sessionMedium" classified_df ;;
          Ok {| user_id := user_id;
                reached_awareness := has_stage "AWARENESS" user_events;
                reached_interest := has_stage "INTEREST" user_events;
                reached_consideration := has_stage "CONSIDERATION" user_events;
                reached_conversion := has_stage "CONVERSION" user_events;
                total_events := List.length user_events;
                unique_pages := nunique (field pagePath) user_events;
                first_source := field sessionSource first;
                first_medium := field sessionMedium first |})
       (groupby (field userPseudoId) (rows classified_df)).

(** *** calculate_stage_conversions *)

Record StageCounts := {
  awareness : nat;
  interest : nat;
  consideration : nat;
  conversion : nat
}.

Record StageRates := {
  awareness_rate : Q;
  interest_rate : Q;
  consideration_rate : Q;
  conversion_rate : Q
}.

Record StepConversions := {
  awareness_to_interest : Q;
  interest_to_consideration : Q;
  consideration_to_conversion : Q
}.

Record ConversionRates := {
  total_users : nat;
  stage_counts : StageCounts;
  stage_rates : StageRates;
  step_conversions : StepConversions;
  overall_conversion : Q
}.

(** The dictionary returned: [{'error': ...}] or the rates. *)
Inductive StageOutput :=
  | StageError (error : string)
  | StageConversions (conversion_rates : ConversionRates).

(** (The second parameter of the source, [conversion_events], is never
    read.) *)
Definition calculate_stage_conversions (classified_df : DataFrame)
  : Result StageOutput :=
  if empty classified_df then Ok (StageError "분류된 데이터가 없습니다")
  else
    user_progression <- _get_user_progression classified_df ;;
    records_column "reached_awareness" user_progression ;;
    let stage_counts :=
      {| awareness := count_true reached_awareness user_progression;
         interest := count_true reached_interest user_progression;
         consideration := count_true reached_consideration user_progression;
         conversion := count_true reached_conversion user_progression |} in
    let total_users := List.length user_progression in
    awareness_rate <- percent (awareness stage_counts) total_users ;;
    interest_rate <- percent (interest stage_counts) total_users ;;
    consideration_rate <- percent (consideration stage_counts) total_users ;;
    conversion_rate <- percent (conversion stage_counts) total_users ;;
    awareness_to_interest <-
      percent_or_zero (interest stage_counts) (awareness stage_counts) ;;
    interest_to_consideration <-
      percent_or_zero (consideration stage_counts) (interest stage_counts) ;;
    consideration_to_conversion <-
      percent_or_zero (conversion stage_counts) (consideration stage_counts) ;;
    overall_conversion <- percent (conversion stage_counts) total_users ;;
    Ok (StageConversions
          {| total_users := total_users;
             stage_counts := stage_counts;
             stage_rates :=
               {| awareness_rate := awareness_rate;
                  interest_rate := interest_rate;
                  consideration_rate := consideration_rate;
                  conversion_rate := conversion_rate |};
             step_conversions :=
               {| awareness_to_interest := awareness_to_interest;
                  interest_to_consideration := interest_to_consideration;
                  consideration_to_conversion := consideration_to_conversion |};
             overall_conversion := overall_conversion |}).

(** *** calculate_source_conversions *)

Module SourceRow.
Record t := {
  source : string;
  medium : string;
  source_medium : string;
  traffic_group : string;
  total_users : nat;
  conversions : nat;
  conversion_rate : np_float;
  traffic_quality : string
}.
End SourceRow.

(** A row of [user_sources]: the first source and medium of a user and
    whether one of the user's events is a CONVERSION. *)
Record UserSource := {
  us_sessionSource : string;
  us_sessionMedium : string;
  us_converted : bool
}.

(** [agg('first')] on a column of a group (a group is never empty) *)
Definition first {A} (column : Row -> A) (default : A) (group : list Row) : A :=
  match group with
  | r :: _ => column r
  | [] => default
  end.

Definition _assess_traffic_quality (conversion_rate : np_float) (volume : nat)
  : string :=
  if np_geb conversion_rate 20 && (50 <=? volume)%nat then "Premium"
  else if np_geb conversion_rate 10 && (100 <=? volume)%nat then "High"
  else if np_geb conversion_rate 5 && (200 <=? volume)%nat then "Medium"
  else if np_geb conversion_rate 2 then "Low"
  else "Poor".

Definition source_rows (config : Config.t) (classified : list Row)
  : list SourceRow.t :=
  let user_sources :=
    map (fun g : string * list Row =>
           {| us_sessionSource := first (field sessionSource) "" (snd g);
              us_sessionMedium := first (field sessionMedium) "" (snd g);
              us_converted := has_stage "CONVERSION" (snd g) |})
        (groupby (field userPseudoId) classified) in
  let source_groups :=
    groupby (fun u => (us_sessionSource u, us_sessionMedium u)) user_sources in
  map (fun g : (string * string) * list UserSource =>
         let '((source, medium), group) := g in
         let total_users := List.length group in
         let conversions := count_true us_converted group in
         let conversion_rate := np_percent conversions total_users in
         let traffic_group := Config.get_traffic_group config source medium in
         {| SourceRow.source := source;
            SourceRow.medium := medium;
            SourceRow.source_medium := source ++ " / " ++ medium;
            SourceRow.traffic_group := traffic_group;
            SourceRow.total_users := total_users;
            SourceRow.conversions := conversions;
            SourceRow.conversion_rate := conversion_rate;
            SourceRow.traffic_quality :=
              _assess_traffic_quality conversion_rate total_users |})
      source_groups.

Definition calculate_source_conversions (config : Config.t)
    (classified_df : DataFrame) : Result (list SourceRow.t) :=
  require "userPseudoId" classified_df ;;
  require "sessionSource" classified_df ;;
  require "sessionMedium" classified_df ;;
  require "funnel_stage" classified_df ;;
  let source_conversions := source_rows config (rows classified_df) in
  records_column "conversion_rate" source_conversions ;;
  let source_df :=
    sort_by (fun x y => np_desc (SourceRow.conversion_rate x)
                                (SourceRow.conversion_rate y))
            source_conversions in
  (* the second [print] reads [source_df.iloc[0]] *)
  iloc0 source_df ;;
  Ok source_df.

(** *** calculate_content_conversions *)

Module ContentRow.
Record t := {
  page_path : string;
  content_type : string;
  total_users : nat;
  conversions : nat;
  conversion_rate : Q;
  avg_interactions : np_float;
  content_effectiveness : string
}.
End ContentRow.

Definition _assess_content_effectiveness (conversion_rate : Q) (volume : nat)
  : string :=
  if Qle_bool 30 conversion_rate && (20 <=? volume)%nat then "Excellent"
  else if Qle_bool 15 conversion_rate && (50 <=? volume)%nat then "Good"
  else if Qle_bool 8 conversion_rate && (100 <=? volume)%nat then "Average"
  else if Qle_bool 3 conversion_rate then "Below Average"
  else "Poor".

Definition _classify_content_type (page_path : string) : string :=
  if PyStr.contains page_path "/posts/" then "Blog Post"
  else if PyStr.contains page_path "/skill-guide/" then
    if PyStr.contains page_path "one-click" then "Product Guide"
    else if PyStr.contains page_path "market-management" then "Management Guide"
    else "General Guide"
  else "Other Content".

(** [series.mean()] of a column of counts *)
Definition mean (l : list nat) : np_float :=
  match l with
  | [] => NaN
  | _ => Finite (Qnat (fold_right Nat.add 0%nat l) / Qnat (List.length l))%Q
  end.

Definition is_content_page (r : Row) : bool :=
  PyStr.contains (field pagePath r) "/posts/"
  || PyStr.contains (field pagePath r) "/skill-guide/".

Definition content_row (converted_users : list string)
    (g : string * list ((string * string) * nat)) : Result ContentRow.t :=
  let (page_path, page_group) := g in
  let users := nodup string_dec (map (fun uc => fst (fst uc)) page_group) in
  let total_users := List.length users in
  let conversions := count_true (fun user => PyStr.mem user converted_users) users in
  conversion_rate <- percent_or_zero conversions total_users ;;
  Ok {| ContentRow.page_path := page_path;
        ContentRow.content_type := _classify_content_type page_path;
        ContentRow.total_users := total_users;
        ContentRow.conversions := conversions;
        ContentRow.conversion_rate := conversion_rate;
        ContentRow.avg_interactions := mean (map snd page_group);
        ContentRow.content_effectiveness :=
          _assess_content_effectiveness conversion_rate total_users |}.

Definition calculate_content_conversions (classified_df : DataFrame)
  : Result (list ContentRow.t) :=
  require "pagePath" classified_df ;;
  let content_events := filter is_content_page (rows classified_df) in
  match content_events with
  | [] => Ok []
  | _ =>
      require "userPseudoId" classified_df ;;
      (* one row per (user, page) with the number of events *)
      let user_content :=
        map (fun g : (string * string) * list Row => (fst g, List.length (snd g)))
            (groupby (fun r => (field userPseudoId r, field pagePath r))
                     content_events) in
      require "funnel_stage" classified_df ;;
      let converted_users :=
        nodup string_dec
          (map (field userPseudoId)
               (filter (fun r => funnel_stage r =? "CONVERSION")
                       (rows classified_df))) in
      content_conversions <-
        mapM (content_row converted_users)
             (groupby (fun uc : (string * string) * nat => snd (fst uc))
                      user_content) ;;
      records_column "conversion_rate" content_conversions ;;
      Ok (sort_by (fun x y => Qle_bool (ContentRow.conversion_rate y)
                                       (ContentRow.conversion_rate x))
                  content_conversions)
  end.

(** *** calculate_device_conversions *)

Module DeviceRow.
Record t := {
  device_category : string;
  total_users : nat;
  conversions : nat;
  conversion_rate : np_float;
  user_share : Q
}.
End DeviceRow.

(** [x.mode().iloc[0] if not x.mode().empty else default] *)
Definition mode_or {K} `{PyKey K} (default : K) (l : list K) : K :=
  match mode l with
  | Some k => k
  | None => default
  end.

Definition calculate_device_conversions (classified_df : DataFrame)
  : Result (list DeviceRow.t) :=
  if negb (PyStr.mem "deviceCategory" (columns classified_df)) then Ok []
  else
    require "userPseudoId" classified_df ;;
    require "funnel_stage" classified_df ;;
    let user_devices :=
      map (fun g : string * list Row =>
             (mode_or "unknown" (map (field deviceCategory) (snd g)),
              has_stage "CONVERSION" (snd g)))
          (groupby (field userPseudoId) (rows classified_df)) in
    device_conversions <-
      mapM (fun g : string * list (string * bool) =>
              let (device, group) := g in
              let total_users := List.length group in
              let conversions := count_true snd group in
              let conversion_rate := np_percent conversions total_users in
              user_share <- percent total_users (List.length user_devices) ;;
              Ok {| DeviceRow.device_category := device;
                    DeviceRow.total_users := total_users;
                    DeviceRow.conversions := conversions;
                    DeviceRow.conversion_rate := conversion_rate;
                    DeviceRow.user_share := user_share |})
           (groupby fst user_devices) ;;
    records_column "conversion_rate" device_conversions ;;
    Ok (sort_by (fun x y => np_desc (DeviceRow.conversion_rate x)
                                    (DeviceRow.conversion_rate y))
                device_conversions).

(** *** calculate_time_based_conversions *)

Module TimeRow.
Record t (K : Type) := {
  bucket : K;
  total_users : nat;
  conversions : nat;
  conversion_rate : np_float
}.
Arguments bucket {K}.
Arguments total_users {K}.
Arguments conversions {K}.
Arguments conversion_rate {K}.
End TimeRow.

(** The dictionary returned: [{}] or the two lists. *)
Inductive TimeOutput :=
  | TimeEmpty
  | TimeAnalysis (hourly_conversions : list (TimeRow.t nat))
                 (daily_conversions : list (TimeRow.t string)).

Section TimeBased.
(** [pd.to_datetime(ts).hour] and [pd.to_datetime(ts).day_name()], which
    belong to pandas. *)
Variable hour_of : string -> nat.
Variable day_name_of : string -> string.

Definition time_bucket {K} `{PyKey K} (bucket : K)
    (users : list (K * bool)) : list (TimeRow.t K) :=
  let bucket_users := filter (fun u => key_eqb (fst u) bucket) users in
  if Nat.ltb 0 (List.length bucket_users) then
    let conversion_rate :=
      np_percent (count_true snd bucket_users) (List.length bucket_users) in
    [ {| TimeRow.bucket := bucket;
         TimeRow.total_users := List.length bucket_users;
         TimeRow.conversions := count_true snd bucket_users;
         TimeRow.conversion_rate := conversion_rate |} ]
  else [].

Definition calculate_time_based_conversions (classified_df : DataFrame)
  : Result TimeOutput :=
  if negb (PyStr.mem "eventTimestamp" (columns classified_df)) then Ok TimeEmpty
  else
    require "userPseudoId" classified_df ;;
    require "funnel_stage" classified_df ;;
    let user_groups := groupby (field userPseudoId) (rows classified_df) in
    let converted (g : string * list Row) := has_stage "CONVERSION" (snd g) in
    let user_hours :=
      map (fun g =>
             (mode_or 12%nat
                (map (fun r => hour_of (field eventTimestamp r)) (snd g)),
              converted g))
          user_groups in
    let user_days :=
      map (fun g =>
             (mode_or "Monday"
                (map (fun r => day_name_of (field eventTimestamp r)) (snd g)),
              converted g))
          user_groups in
    let hourly_conversions :=
      flat_map (fun hour => time_bucket hour user_hours) (seq 0 24) in
    let daily_conversions :=
      flat_map (fun day => time_bucket day user_days)
        ["Monday"; "Tuesday"; "Wednesday"; "Thursday"; "Friday"; "Saturday";
         "Sunday"] in
    Ok (TimeAnalysis hourly_conversions daily_conversions).

End TimeBased.

End Calculator.

(* ================================================================== *)
(** ** Facts about the conversion calculator *)

Module CalculatorFacts.
Import Pandas Classifier Calculator.

Definition in_percent_range (q : Q) : Prop := (0 <= q /\ q <= 100)%Q.

Definition np_in_percent_range (x : np_float) : Prop :=
  match x with
  | Finite q => in_percent_range q
  | NaN | PosInf => False
  end.

(** Every column of a classified frame is present. *)
Definition has_columns (df : DataFrame) : bool :=
  forallb (fun c => PyStr.mem c (columns df)) classified_columns.

Lemma count_true_le {A} (f : A -> bool) (l : list A) :
  (count_true f l <= List.length l)%nat.
Proof.
  unfold count_true. induction l as [|x l IH]; simpl; [lia|].
  destruct (f x); simpl; lia.
Qed.

Lemma Qnat_le (a b : nat) : (a <= b)%nat -> (Qnat a <= Qnat b)%Q.
Proof. intros H. unfold Qnat. rewrite <- Zle_Qle. lia. Qed.

Lemma Qnat_pos (b : nat) : (0 < b)%nat -> (0 < Qnat b)%Q.
Proof.
  intros H. unfold Qnat. change 0%Q with (inject_Z 0). rewrite <- Zlt_Qlt. lia.
Qed.

Lemma ratio_percent_range (a b : nat) :
  (a <= b)%nat -> (0 < b)%nat -> in_percent_range (Qnat a / Qnat b * 100)%Q.
Proof.
  intros Hab Hb. pose proof (Qnat_pos b Hb) as Hpos. split.
  - apply Qmult_le_0_compat; [|discriminate].
    apply Qmult_le_0_compat.
    + apply (Qnat_le 0 a). lia.
    + apply Qinv_le_0_compat. now apply Qlt_le_weak.
  - setoid_replace 100%Q with (1 * 100)%Q at 2 by reflexivity.
    apply Qmult_le_compat_r; [|discriminate].
    apply Qle_shift_div_r; [exact Hpos|].
    rewrite Qmult_1_l. now apply Qnat_le.
Qed.

Lemma ratio_percent_nonneg (a b : nat) : (0 <= Qnat a / Qnat b * 100)%Q.
Proof.
  apply Qmult_le_0_compat; [|discriminate].
  apply Qmult_le_0_compat.
  - apply (Qnat_le 0 a). lia.
  - apply Qinv_le_0_compat. apply (Qnat_le 0 b). lia.
Qed.

Lemma percent_ok (a b : nat) :
  (0 < b)%nat -> percent a b = Ok (Qnat a / Qnat b * 100)%Q.
Proof.
  intros Hb. unfold percent. destruct (Nat.eqb_spec b 0); [lia | reflexivity].
Qed.

Lemma percent_or_zero_ok (a b : nat) :
  exists q, percent_or_zero a b = Ok q /\ (0 <= q)%Q /\ (b = 0%nat -> q = 0%Q).
Proof.
  unfold percent_or_zero. destruct (Nat.ltb_spec 0 b) as [Hb | Hb].
  - rewrite (percent_ok a b Hb). eexists. split; [reflexivity|]. split.
    + apply ratio_percent_nonneg.
    + lia.
  - exists 0%Q. split; [reflexivity|]. split; [apply Qle_refl | reflexivity].
Qed.

Lemma np_percent_range (a b : nat) :
  (a <= b)%nat -> (0 < b)%nat -> np_in_percent_range (np_percent a b).
Proof.
  intros Hab Hb. unfold np_percent.
  destruct (Nat.eqb_spec b 0); [lia|]. simpl. now apply ratio_percent_range.
Qed.

Lemma require_ok (df : DataFrame) (c : string) :
  has_columns df = true -> In c classified_columns -> require c df = Ok tt.
Proof.
  intros Hdf Hc. unfold require, has_columns in *.
  rewrite forallb_forall in Hdf. now rewrite (Hdf c Hc).
Qed.

Lemma has_columns_mem (df : DataFrame) (c : string) :
  has_columns df = true -> In c classified_columns ->
  PyStr.mem c (columns df) = true.
Proof.
  intros Hdf Hc. unfold has_columns in Hdf.
  rewrite forallb_forall in Hdf. exact (Hdf c Hc).
Qed.

Lemma has_columns_not_empty (df : DataFrame) :
  has_columns df = true -> rows df <> [] -> empty df = false.
Proof.
  intros Hdf Hrows. unfold empty.
  assert (Hm : PyStr.mem "userPseudoId" (columns df) = true)
    by (apply has_columns_mem; [exact Hdf | now left]).
  destruct (columns df); [discriminate Hm|].
  destruct (rows df); [now destruct Hrows | reflexivity].
Qed.

Lemma groupby_not_nil {A K} `{PyKey K} (key : A -> K) (df : list A) :
  df <> [] -> groupby key df <> [].
Proof.
  intros Hdf. destruct df as [|r df]; [now destruct Hdf|].
  intros E. assert (Hin : In (key r) (map fst (groupby key (r :: df)))).
  { rewrite PandasFacts.groupby_keys. apply PandasFacts.unique_sorted_In. now left. }
  rewrite E in Hin. exact Hin.
Qed.

Lemma sort_by_Forall {A} (leb : A -> A -> bool) (P : A -> Prop) (l : list A) :
  Forall P l -> Forall P (sort_by leb l).
Proof.
  intros Hl. eapply Permutation_Forall; [|exact Hl].
  symmetry. apply PandasFacts.sort_by_perm.
Qed.

Lemma sort_by_not_nil {A} (leb : A -> A -> bool) (l : list A) :
  l <> [] -> sort_by leb l <> [].
Proof.
  intros Hl E. apply Hl. apply Permutation_nil.
  rewrite <- E. apply PandasFacts.sort_by_perm.
Qed.

Lemma mapM_total {A B} (f : A -> Result B) (P : B -> Prop) (l : list A) :
  (forall x, In x l -> exists y, f x = Ok y /\ P y) ->
  exists ys, mapM f l = Ok ys /\ List.length ys = List.length l /\ Forall P ys.
Proof.
  induction l as [|x l IH]; intros Hf; simpl.
  - exists []. repeat split. constructor.
  - destruct (Hf x (or_introl eq_refl)) as [y [Ey Py]].
    destruct IH as [ys [Eys [Hlen HP]]].
    { intros z Hz. apply Hf. now right. }
    exists (y :: ys). rewrite Ey, Eys. simpl. repeat split.
    + now rewrite Hlen.
    + now constructor.
Qed.

Ltac column_present Hdf :=
  rewrite (require_ok _ _ Hdf) by (simpl; auto 20); simpl.

Ltac column_present_only Hdf :=
  rewrite (require_ok _ _ Hdf) by (simpl; auto 20); cbn [bind].

(** *** Stage funnel *)

Definition stage_rates_in_range (r : ConversionRates) : Prop :=
  in_percent_range (awareness_rate (stage_rates r))
  /\ in_percent_range (interest_rate (stage_rates r))
  /\ in_percent_range (consideration_rate (stage_rates r))
  /\ in_percent_range (conversion_rate (stage_rates r))
  /\ in_percent_range (overall_conversion r).

Definition step_conversions_guarded (r : ConversionRates) : Prop :=
  (0 <= awareness_to_interest (step_conversions r))%Q
  /\ (0 <= interest_to_consideration (step_conversions r))%Q
  /\ (0 <= consideration_to_conversion (step_conversions r))%Q
  /\ (awareness (stage_counts r) = 0%nat ->
      awareness_to_interest (step_conversions r) = 0%Q)
  /\ (interest (stage_counts r) = 0%nat ->
      interest_to_consideration (step_conversions r) = 0%Q)
  /\ (consideration (stage_counts r) = 0%nat ->
      consideration_to_conversion (step_conversions r) = 0%Q).

Lemma user_progression_ok (df : DataFrame) :
  has_columns df = true -> rows df <> [] ->
  exists ups, _get_user_progression df = Ok ups /\ ups <> [].
Proof.
  intros Hdf Hrows. unfold _get_user_progression. column_present Hdf.
  destruct (mapM_total
              (fun g : string * list Row =>
                 let (user_id, user_events) := g in
                 require "funnel_stage" df ;;
                 require "pagePath" df ;;
                 first <- iloc0 user_events ;;
                 require "sessionSource" df ;;
                 require "sessionMedium" df ;;
                 Ok {| user_id := user_id;
                       reached_awareness := has_stage "AWARENESS" user_events;
                       reached_interest := has_stage "INTEREST" user_events;
                       reached_consideration := has_stage "CONSIDERATION" user_events;
                       reached_conversion := has_stage "CONVERSION" user_events;
                       total_events := List.length user_events;
                       unique_pages := nunique (field pagePath) user_events;
                       first_source := field sessionSource first;
                       first_medium := field sessionMedium first |})
              (fun _ => True)
              (groupby (field userPseudoId) (rows df)))
    as [ups [E [Hlen _]]].
  - intros [user_id user_events] Hg.
    apply PandasFacts.groupby_In in Hg as [_ [Hne _]]. simpl in Hne.
    do 2 column_present Hdf.
    destruct user_events as [|first rest]; [now destruct Hne|]. simpl.
    do 2 column_present Hdf. eexists. split; [reflexivity | exact I].
  - exists ups. split; [exact E|].
    intros ->. simpl in Hlen.
    pose proof (groupby_not_nil (field userPseudoId) (rows df) Hrows) as Hg.
    destruct (groupby (field userPseudoId) (rows df)); [now destruct Hg | discriminate Hlen].
Qed.

Lemma stage_conversions_bounded (df : DataFrame) :
  has_columns df = true -> rows df <> [] ->
  exists r, calculate_stage_conversions df = Ok (StageConversions r)
            /\ stage_rates_in_range r /\ step_conversions_guarded r.
Proof.
  intros Hdf Hrows. unfold calculate_stage_conversions.
  rewrite (has_columns_not_empty df Hdf Hrows).
  destruct (user_progression_ok df Hdf Hrows) as [ups [-> Hne]]. simpl.
  destruct ups as [|u ups]; [now destruct Hne|].
  set (l := u :: ups). simpl records_column. simpl bind at 1.
  assert (Hpos : (0 < List.length l)%nat) by (simpl; lia).
  destruct (percent_or_zero_ok (count_true reached_interest l)
              (count_true reached_awareness l)) as [q1 [-> [H1 Z1]]].
  destruct (percent_or_zero_ok (count_true reached_consideration l)
              (count_true reached_interest l)) as [q2 [-> [H2 Z2]]].
  destruct (percent_or_zero_ok (count_true reached_conversion l)
              (count_true reached_consideration l)) as [q3 [-> [H3 Z3]]].
  simpl bind. eexists. split; [reflexivity|]. split.
  - unfold stage_rates_in_range; simpl.
    repeat split;
      apply (ratio_percent_range _ (List.length l));
      first [exact Hpos | apply count_true_le].
  - unfold step_conversions_guarded; simpl. repeat split; assumption.
Qed.

(** *** Source, content, device and time aggregates *)

Lemma source_rows_in_range (config : Config.t) (classified : list Row) :
  Forall (fun r => np_in_percent_range (SourceRow.conversion_rate r))
         (source_rows config classified).
Proof.
  unfold source_rows. apply Forall_forall. intros r Hr.
  apply in_map_iff in Hr as [[[source medium] group] [<- Hg]].
  apply PandasFacts.groupby_In in Hg as [_ [Hne _]]. simpl in Hne. simpl.
  apply np_percent_range; [apply count_true_le|].
  destruct group; [now destruct Hne | simpl; lia].
Qed.

Lemma source_rows_not_nil (config : Config.t) (classified : list Row) :
  classified <> [] -> source_rows config classified <> [].
Proof.
  intros Hne. unfold source_rows. intros E. apply map_eq_nil in E.
  revert E. apply groupby_not_nil. intros E. apply map_eq_nil in E.
  revert E. now apply groupby_not_nil.
Qed.

Lemma source_conversions_bounded (config : Config.t) (df : DataFrame) :
  has_columns df = true -> rows df <> [] ->
  exists source_df,
    calculate_source_conversions config df = Ok source_df
    /\ Forall (fun r => np_in_percent_range (SourceRow.conversion_rate r)) source_df.
Proof.
  intros Hdf Hrows. unfold calculate_source_conversions.
  do 4 column_present Hdf.
  pose proof (source_rows_not_nil config (rows df) Hrows) as Hne.
  pose proof (source_rows_in_range config (rows df)) as Hrange.
  destruct (source_rows config (rows df)) as [|r0 rs] eqn:E; [now destruct Hne|].
  remember (sort_by (fun x y : SourceRow.t =>
                       np_desc (SourceRow.conversion_rate x)
                               (SourceRow.conversion_rate y))
                    (r0 :: rs)) as source_df eqn:Es.
  assert (Hs : source_df <> [])
    by (rewrite Es; apply sort_by_not_nil; discriminate).
  assert (HF : Forall (fun r => np_in_percent_range (SourceRow.conversion_rate r))
                      source_df)
    by (rewrite Es; now apply sort_by_Forall).
  destruct source_df as [|s0 ss]; [now destruct Hs|].
  simpl. eexists. split; [reflexivity | exact HF].
Qed.

(** A content rate lies in [0, 100] and is 0 when no user is counted. *)
Definition content_rate_ok (r : ContentRow.t) : Prop :=
  in_percent_range (ContentRow.conversion_rate r)
  /\ (ContentRow.total_users r = 0%nat -> ContentRow.conversion_rate r = 0%Q).

Lemma content_row_bounded (converted_users : list string)
    (g : string * list ((string * string) * nat)) :
  exists row, content_row converted_users g = Ok row /\ content_rate_ok row.
Proof.
  destruct g as [page_path page_group]. unfold content_row, content_rate_ok.
  set (users := nodup string_dec (map (fun uc => fst (fst uc)) page_group)).
  set (conversions := count_true (fun user => PyStr.mem user converted_users) users).
  unfold percent_or_zero. destruct (Nat.ltb_spec 0 (List.length users)) as [Hpos | Hz].
  - rewrite (percent_ok _ _ Hpos). simpl. eexists. split; [reflexivity|]. simpl.
    split; [|lia].
    apply ratio_percent_range; [apply count_true_le | exact Hpos].
  - simpl. eexists. split; [reflexivity|]. simpl.
    split; [split; discriminate | reflexivity].
Qed.

Lemma content_conversions_bounded (df : DataFrame) :
  has_columns df = true ->
  exists content_df,
    calculate_content_conversions df = Ok content_df
    /\ Forall content_rate_ok content_df.
Proof.
  intros Hdf. unfold calculate_content_conversions. column_present Hdf.
  destruct (filter is_content_page (rows df)) as [|c0 cs] eqn:Ec.
  - exists []. split; [reflexivity | constructor].
  - column_present Hdf. column_present Hdf.
    set (converted_users := nodup string_dec _).
    set (user_content := map _ (groupby _ (c0 :: cs))).
    set (groups := groupby _ user_content).
    destruct (mapM_total (content_row converted_users) content_rate_ok groups)
      as [content_conversions [-> [Hlen HF]]].
    { intros g _. apply content_row_bounded. }
    simpl bind at 1.
    assert (Hg : groups <> []).
    { apply groupby_not_nil. intros E. apply map_eq_nil in E.
      revert E. apply groupby_not_nil. discriminate. }
    destruct content_conversions as [|r0 rs].
    + destruct groups; [now destruct Hg | discriminate Hlen].
    + cbn [records_column bind]. eexists. split; [reflexivity|]. now apply sort_by_Forall.
Qed.

Lemma device_conversions_bounded (df : DataFrame) :
  has_columns df = true -> rows df <> [] ->
  exists device_df,
    calculate_device_conversions df = Ok device_df
    /\ Forall (fun r => np_in_percent_range (DeviceRow.conversion_rate r)) device_df.
Proof.
  intros Hdf Hrows. unfold calculate_device_conversions.
  rewrite (has_columns_mem df "deviceCategory" Hdf) by (simpl; auto 20). simpl negb.
  cbv iota. do 2 column_present Hdf.
  set (user_devices := map _ (groupby (field userPseudoId) (rows df))).
  assert (Hud : user_devices <> []).
  { intros E. apply map_eq_nil in E. revert E. now apply groupby_not_nil. }
  assert (Hpos : (0 < List.length user_devices)%nat).
  { destruct user_devices; [now destruct Hud | simpl; lia]. }
  set (groups := groupby fst user_devices).
  match goal with
  | |- context [mapM ?f groups] =>
      destruct (mapM_total f
                  (fun r => np_in_percent_range (DeviceRow.conversion_rate r))
                  groups)
        as [device_conversions [-> [Hlen HF]]]
  end.
  { intros [device group] Hg.
    apply PandasFacts.groupby_In in Hg as [_ [Hne _]]. simpl in Hne.
    rewrite (percent_ok _ _ Hpos). simpl. eexists. split; [reflexivity|]. simpl.
    apply np_percent_range; [apply count_true_le|].
    destruct group; [now destruct Hne | simpl; lia]. }
  simpl bind at 1.
  assert (Hg : groups <> []) by now apply groupby_not_nil.
  destruct device_conversions as [|r0 rs].
  - destruct groups; [now destruct Hg | discriminate Hlen].
  - cbn [records_column bind]. eexists. split; [reflexivity|]. now apply sort_by_Forall.
Qed.

Lemma time_bucket_in_range {K} `{PyKey K} (bucket : K) (users : list (K * bool)) :
  Forall (fun r => np_in_percent_range (TimeRow.conversion_rate r))
         (time_bucket bucket users).
Proof.
  unfold time_bucket.
  destruct (Nat.ltb_spec 0 (List.length (filter (fun u => key_eqb (fst u) bucket) users)))
    as [Hpos | _]; [|constructor].
  constructor; [|constructor]. simpl.
  apply np_percent_range; [apply count_true_le | exact Hpos].
Qed.

Lemma flat_map_Forall {A B} (f : A -> list B) (P : B -> Prop) (l : list A) :
  (forall x, Forall P (f x)) -> Forall P (flat_map f l).
Proof.
  intros Hf. induction l as [|x l IH]; simpl; [constructor|].
  apply Forall_app. split; [apply Hf | exact IH].
Qed.

Lemma time_conversions_bounded (hour_of : string -> nat)
    (day_name_of : string -> string) (df : DataFrame) :
  has_columns df = true ->
  exists hourly daily,
    calculate_time_based_conversions hour_of day_name_of df
    = Ok (TimeAnalysis hourly daily)
    /\ Forall (fun r => np_in_percent_range (TimeRow.conversion_rate r)) hourly
    /\ Forall (fun r => np_in_percent_range (TimeRow.conversion_rate r)) daily.
Proof.
  intros Hdf. unfold calculate_time_based_conversions.
  rewrite (has_columns_mem df "eventTimestamp" Hdf) by (simpl; auto 20). simpl negb.
  cbv iota. do 2 column_present_only Hdf.
  eexists. eexists. split; [reflexivity|].
  split; apply flat_map_Forall; intros x; apply time_bucket_in_range.
Qed.

End CalculatorFacts.

(* ================================================================== *)
(** ** Calling the classifier *)

Module Run.
Import Pandas Classifier Calculator.

(** The objects a call of [classify_user_events] can reach: the
    classifier ([self], with its configuration and rule table) and the
    frames, each at an address of its own.  Two variables bound to the
    same address name the same frame: a write through one is seen
    through the other. *)
Definition address : Type := nat.

Record Heap := {
  classifier : Classifier.t;
  frames : list DataFrame
}.

Definition no_frame : DataFrame := {| columns := []; rows := [] |}.

Definition frame_at (h : Heap) (a : address) : DataFrame :=
  nth a (frames h) no_frame.

Fixpoint update {A} (a : nat) (x : A) (l : list A) : list A :=
  match l, a with
  | [], _ => []
  | _ :: l', O => x :: l'
  | y :: l', S a' => y :: update a' x l'
  end.

(** A statement: it changes the heap, and returns or raises. *)
Definition M (A : Type) : Type := Heap -> Result A * Heap.

Definition ret {A} (a : A) : M A := fun h => (Ok a, h).

Definition hbind {A B} (m : M A) (k : A -> M B) : M B :=
  fun h =>
    match m h with
    | (Ok a, h') => k a h'
    | (Raise e, h') => (Raise e, h')
    end.

Declare Scope heap_scope.
Delimit Scope heap_scope with heap.
Notation "x <- c1 ;; c2" := (hbind c1 (fun x => c2))
  (at level 61, c1 at next level, right associativity) : heap_scope.
Notation "c1 ;; c2" := (hbind c1 (fun _ => c2))
  (at level 61, right associativity) : heap_scope.
Local Open Scope heap_scope.

(** A computation that does not touch the heap: a column lookup that may
    raise. *)
Definition lift {A} (r : Result A) : M A := fun h => (r, h).

(** [self] *)
Definition get_self : M Classifier.t := fun h => (Ok (classifier h), h).

(** Reading the frame a variable is bound to. *)
Definition load (a : address) : M DataFrame := fun h => (Ok (frame_at h a), h).

(** A new frame object. *)
Definition alloc (df : DataFrame) : M address :=
  fun h =>
    (Ok (List.length (frames h)),
     {| classifier := classifier h; frames := (frames h ++ [df])%list |}).

(** A write into the frame object at [a]. *)
Definition store (a : address) (df : DataFrame) : M unit :=
  fun h =>
    (Ok tt, {| classifier := classifier h; frames := update a df (frames h) |}).

Fixpoint hmapM {A B} (f : A -> M B) (l : list A) : M (list B) :=
  match l with
  | [] => ret []
  | x :: l' => y <- f x ;; ys <- hmapM f l' ;; ret (y :: ys)
  end.

(** [for x in l: body] *)
Fixpoint hfor {A} (l : list A) (body : A -> M unit) : M unit :=
  match l with
  | [] => ret tt
  | x :: l' => body x ;; hfor l' body
  end.

(** *** Writes to one cell or one column of a frame *)

Definition set_funnel_stage (r : Row) (stage : string) : Row :=
  {| name := name r; event := event r; funnel_stage := stage;
     stage_confidence := stage_confidence r; page_category := page_category r |}.

Definition set_stage_confidence (r : Row) (confidence : float) : Row :=
  {| name := name r; event := event r; funnel_stage := funnel_stage r;
     stage_confidence := confidence; page_category := page_category r |}.

Definition set_page_category (r : Row) (category : string) : Row :=
  {| name := name r; event := event r; funnel_stage := funnel_stage r;
     stage_confidence := stage_confidence r; page_category := category |}.

(** A column assigned for the first time is added to the frame. *)
Definition add_column (column : string) (columns : list string) : list string :=
  if PyStr.mem column columns then columns else (columns ++ [column])%list.

(** The frame after [df[column] = values] *)
Definition setitem_frame (column : string) (set : Row -> Row) (df : DataFrame)
  : DataFrame :=
  {| columns := add_column column (columns df); rows := map set (rows df) |}.

(** The frame after [df.at[idx, column] = value]: every row labelled [idx]
    is written. *)
Definition at_frame (idx : nat) (column : string) (set : Row -> Row)
    (df : DataFrame) : DataFrame :=
  {| columns := add_column column (columns df);
     rows := map (fun r => if Nat.eqb (name r) idx then set r else r) (rows df) |}.

(** [df.copy()]: a new object with the same contents *)
Definition copy (a : address) : M address :=
  df <- load a ;; alloc df.

(** [df[column] = values]: the object at [a] is written in place *)
Definition setitem (a : address) (column : string) (set : Row -> Row) : M unit :=
  df <- load a ;; store a (setitem_frame column set df).

(** [df.at[idx, column] = value]: the object at [a] is written in place *)
Definition at_ (a : address) (idx : nat) (column : string) (set : Row -> Row)
  : M unit :=
  df <- load a ;; store a (at_frame idx column set df).

(** [df.sort_values('eventTimestamp')]: a new object *)
Definition sort_values (a : address) : M address :=
  df <- load a ;;
  lift (require "eventTimestamp" df) ;;
  alloc {| columns := columns df; rows := sort_by timestamp_leb (rows df) |}.

(** *** The methods *)

(** The body of the loop of [_classify_user_journey]: the context handed
    to [_classify_single_event] is the frame being written. *)
Definition journey_body (user_events : address) (row : Row) : M unit :=
  self <- get_self ;;
  user_context <- load user_events ;;
  let (stage, confidence) :=
    _classify_single_event self row (rows user_context) in
  at_ user_events (name row) "funnel_stage" (fun r => set_funnel_stage r stage) ;;
  at_ user_events (name row) "stage_confidence"
    (fun r => set_stage_confidence r confidence).

(** [_classify_user_journey(user_events)].  [iterrows] yields the rows of
    the frame as they were when the loop started. *)
Definition _classify_user_journey (user_events : address) : M address :=
  copied <- copy user_events ;;
  user_events <- sort_values copied ;;
  snapshot <- load user_events ;;
  hfor (rows snapshot) (journey_body user_events) ;;
  ret user_events.

(** [pd.concat(classified_dfs, ignore_index=True)]: a new object.  (Every
    frame of the list has the columns of the frame that was grouped.) *)
Definition concat (columns : list string) (classified_dfs : list address)
  : M address :=
  dfs <- hmapM load classified_dfs ;;
  alloc {| columns := columns; rows := concat_ignore_index (map rows dfs) |}.

(** [classify_user_events(events_df)].  The parameter is rebound to a copy
    before the first column is assigned; an empty frame is returned as it
    is, the very object the caller passed. *)
Definition classify_user_events (events_df : address) : M address :=
  df <- load events_df ;;
  if empty df then ret events_df
  else
    events_df <- copy events_df ;;
    setitem events_df "funnel_stage" (fun r => set_funnel_stage r "UNKNOWN") ;;
    setitem events_df "stage_confidence" (fun r => set_stage_confidence r 0) ;;
    df <- load events_df ;;
    lift (require "pagePath" df) ;;
    self <- get_self ;;
    setitem events_df "page_category"
      (fun r => set_page_category r
                  (Config.get_page_category (config self) (field pagePath r))) ;;
    df <- load events_df ;;
    lift (require "userPseudoId" df) ;;
    classified_dfs <-
      hmapM (fun g : string * list Row =>
               user_events <- alloc {| columns := columns df; rows := snd g |} ;;
               _classify_user_journey user_events)
            (groupby (field userPseudoId) (rows df)) ;;
    concat (columns df) classified_dfs.

(** The frame the data loader hands over: the event columns only, the
    default index 0..n-1.  (The three cells a row has for the columns
    still to be added are not part of the frame.) *)
Definition relation_frame (events : list Event) : DataFrame :=
  {| columns := event_columns;
     rows := map (fun ie => {| name := fst ie; event := snd ie;
                               funnel_stage := ""; stage_confidence := 0;
                               page_category := "" |})
                 (enumerate events) |}.

(** The stage and confidence columns. *)
Definition assignments (classified : list Row) : list (string * float) :=
  map (fun r => (funnel_stage r, stage_confidence r)) classified.

(** What two calls agree on: the same exception, or frames with the same
    contents. *)
Definition same_outcome (first second : Result address * Heap) : Prop :=
  match fst first, fst second with
  | Ok r1, Ok r2 =>
      frame_at (snd first) r1 = frame_at (snd second) r2
      /\ assignments (rows (frame_at (snd first) r1))
         = assignments (rows (frame_at (snd second) r2))
  | Raise e1, Raise e2 => e1 = e2
  | _, _ => False
  end.

(** Every object of [h] is in [h'] what it was in [h]. *)
Definition untouched (h h' : Heap) : Prop :=
  classifier h' = classifier h
  /\ (List.length (frames h) <= List.length (frames h'))%nat
  /\ forall a, (a < List.length (frames h))%nat -> frame_at h' a = frame_at h a.

End Run.

(* ================================================================== *)
(** ** Facts about the heap and the methods run on it *)

Module RunFacts.
Import Pandas Classifier Calculator Run.

Lemma update_length {A} (a : nat) (x : A) (l : list A) :
  List.length (update a x l) = List.length l.
Proof.
  revert a. induction l as [|y l IH]; intros [|a]; simpl; try reflexivity.
  now rewrite IH.
Qed.

Lemma nth_update_eq {A} (a : nat) (x d : A) (l : list A) :
  (a < List.length l)%nat -> nth a (update a x l) d = x.
Proof.
  revert a. induction l as [|y l IH]; intros [|a]; simpl; intros H;
    try lia; try reflexivity.
  apply IH. lia.
Qed.

Lemma nth_update_neq {A} (a b : nat) (x d : A) (l : list A) :
  a <> b -> nth b (update a x l) d = nth b l d.
Proof.
  revert a b. induction l as [|y l IH]; intros [|a] [|b]; simpl; intros H;
    try reflexivity; try (now destruct H).
  apply IH. lia.
Qed.

(** Only the object at [a] may differ between [h] and [h']. *)
Definition touched_only (a : address) (h h' : Heap) : Prop :=
  classifier h' = classifier h
  /\ List.length (frames h') = List.length (frames h)
  /\ forall b, b <> a -> frame_at h' b = frame_at h b.

Lemma untouched_refl (h : Heap) : untouched h h.
Proof. repeat split. lia. Qed.

Lemma untouched_trans (h1 h2 h3 : Heap) :
  untouched h1 h2 -> untouched h2 h3 -> untouched h1 h3.
Proof.
  intros [C1 [L1 F1]] [C2 [L2 F2]]. repeat split.
  - congruence.
  - lia.
  - intros a Ha. rewrite F2 by lia. now apply F1.
Qed.

Lemma frame_at_alloc (df : DataFrame) (h : Heap) :
  frame_at (snd (alloc df h)) (List.length (frames h)) = df.
Proof. unfold frame_at, alloc. simpl. apply nth_middle. Qed.

Lemma alloc_untouched (df : DataFrame) (h : Heap) :
  untouched h (snd (alloc df h)).
Proof.
  unfold untouched, alloc, frame_at. simpl. repeat split.
  - rewrite length_app. lia.
  - intros a Ha. now apply app_nth1.
Qed.

Lemma alloc_length (df : DataFrame) (h : Heap) :
  List.length (frames (snd (alloc df h))) = S (List.length (frames h)).
Proof. unfold alloc. simpl. rewrite length_app. simpl. lia. Qed.

Lemma store_touched (a : address) (df : DataFrame) (h : Heap) :
  touched_only a h (snd (store a df h)).
Proof.
  unfold touched_only, store, frame_at. simpl. repeat split.
  - apply update_length.
  - intros b Hb. now apply nth_update_neq.
Qed.

Lemma frame_at_store (a : address) (df : DataFrame) (h : Heap) :
  (a < List.length (frames h))%nat -> frame_at (snd (store a df h)) a = df.
Proof. intros Ha. unfold frame_at, store. simpl. now apply nth_update_eq. Qed.

Lemma touched_only_trans (a : address) (h1 h2 h3 : Heap) :
  touched_only a h1 h2 -> touched_only a h2 h3 -> touched_only a h1 h3.
Proof.
  intros [C1 [L1 F1]] [C2 [L2 F2]]. repeat split.
  - congruence.
  - congruence.
  - intros b Hb. rewrite F2 by exact Hb. now apply F1.
Qed.

(** A write to an object allocated after [h0] leaves the objects of [h0]
    as they are. *)
Lemma touched_untouched (a : address) (h0 h h' : Heap) :
  untouched h0 h -> (List.length (frames h0) <= a)%nat ->
  touched_only a h h' -> untouched h0 h'.
Proof.
  intros [C1 [L1 F1]] Ha [C2 [L2 F2]]. repeat split.
  - congruence.
  - lia.
  - intros b Hb. rewrite F2 by lia. now apply F1.
Qed.

(** *** The loop of [_classify_user_journey] *)

(** The frame after one turn of the loop. *)
Definition journey_step (self : Classifier.t) (df : DataFrame) (row : Row)
  : DataFrame :=
  let (stage, confidence) := _classify_single_event self row (rows df) in
  at_frame (name row) "stage_confidence"
    (fun r => set_stage_confidence r confidence)
    (at_frame (name row) "funnel_stage" (fun r => set_funnel_stage r stage) df).

Lemma journey_body_spec (s : address) (row : Row) (h : Heap) :
  (s < List.length (frames h))%nat ->
  fst (journey_body s row h) = Ok tt
  /\ touched_only s h (snd (journey_body s row h))
  /\ frame_at (snd (journey_body s row h)) s
     = journey_step (classifier h) (frame_at h s) row.
Proof.
  intros Hs. unfold journey_body, journey_step, hbind, get_self, load. cbn [fst snd].
  destruct (_classify_single_event (classifier h) row (rows (frame_at h s)))
    as [stage confidence].
  unfold at_, hbind, load. cbn [fst snd].
  set (h1 := snd (store s (at_frame (name row) "funnel_stage"
                             (fun r => set_funnel_stage r stage) (frame_at h s)) h)).
  assert (H1 : touched_only s h h1) by apply store_touched.
  assert (F1 : frame_at h1 s = at_frame (name row) "funnel_stage"
                                 (fun r => set_funnel_stage r stage) (frame_at h s))
    by (apply frame_at_store; exact Hs).
  change (store s (at_frame (name row) "funnel_stage"
                     (fun r => set_funnel_stage r stage) (frame_at h s)) h)
    with (Ok tt, h1).
  cbn iota.
  assert (Hs1 : (s < List.length (frames h1))%nat)
    by (destruct H1 as [_ [L _]]; lia).
  split; [reflexivity|]. split.
  - eapply touched_only_trans; [exact H1 | apply store_touched].
  - rewrite frame_at_store by exact Hs1. now rewrite F1.
Qed.

Lemma journey_loop_spec (s : address) (snapshot : list Row) :
  forall h : Heap,
  (s < List.length (frames h))%nat ->
  fst (hfor snapshot (journey_body s) h) = Ok tt
  /\ touched_only s h (snd (hfor snapshot (journey_body s) h))
  /\ frame_at (snd (hfor snapshot (journey_body s) h)) s
     = fold_left (journey_step (classifier h)) snapshot (frame_at h s).
Proof.
  induction snapshot as [|row snapshot IH]; intros h Hs.
  - simpl. repeat split.
  - destruct (journey_body_spec s row h Hs) as [E [T F]].
    cbn [hfor]. unfold hbind.
    destruct (journey_body s row h) as [out h1]. cbn [fst snd] in E, T, F.
    subst out.
    assert (Hs1 : (s < List.length (frames h1))%nat)
      by (destruct T as [_ [L _]]; lia).
    destruct (IH h1 Hs1) as [E' [T' F']].
    split; [exact E'|]. split.
    + eapply touched_only_trans; [exact T | exact T'].
    + rewrite F'. cbn [fold_left]. rewrite F.
      destruct T as [-> _]. reflexivity.
Qed.

(** The frame [_classify_user_journey] returns for a frame, or the
    exception it raises. *)
Definition journey_frame (self : Classifier.t) (df : DataFrame)
  : Result DataFrame :=
  bind (require "eventTimestamp" df)
       (fun _ =>
          let sorted := {| columns := columns df;
                           rows := sort_by timestamp_leb (rows df) |} in
          Ok (fold_left (journey_step self) (rows sorted) sorted)).

(** What a call that returns a frame does: it leaves every object of the
    heap as it was, and returns the address of a frame with the contents
    [expected], or raises what [expected] raises. *)
Definition returns_frame (expected : Result DataFrame) (h : Heap)
    (r : Result address * Heap) : Prop :=
  untouched h (snd r)
  /\ match expected with
     | Ok df =>
         exists a, fst r = Ok a
                   /\ (a < List.length (frames (snd r)))%nat
                   /\ frame_at (snd r) a = df
     | Raise e => fst r = Raise e
     end.

Lemma frame_at_new (c : Classifier.t) (l : list DataFrame) (df : DataFrame) :
  frame_at {| classifier := c; frames := (l ++ [df])%list |} (List.length l) = df.
Proof. unfold frame_at. simpl. apply nth_middle. Qed.

Lemma untouched_new (h : Heap) (df : DataFrame) :
  untouched h {| classifier := classifier h; frames := (frames h ++ [df])%list |}.
Proof. exact (alloc_untouched df h). Qed.

Ltac run :=
  cbv beta iota zeta delta [hbind load alloc copy sort_values lift ret get_self];
  cbn [fst snd classifier frames].

Lemma journey_spec (user_events : address) (h : Heap) :
  returns_frame (journey_frame (classifier h) (frame_at h user_events)) h
    (_classify_user_journey user_events h).
Proof.
  unfold _classify_user_journey, journey_frame, returns_frame.
  set (df := frame_at h user_events).
  run. fold df. rewrite frame_at_new.
  set (h1 := {| classifier := classifier h; frames := (frames h ++ [df])%list |}).
  assert (U1 : untouched h h1) by apply untouched_new.
  destruct (require "eventTimestamp" df) as [[]|e]; cbn [bind]; run.
  - set (sorted := {| columns := columns df;
                      rows := sort_by timestamp_leb (rows df) |}).
    rewrite frame_at_new.
    set (s := List.length (frames h ++ [df])%list).
    set (h2 := {| classifier := classifier h;
                  frames := ((frames h ++ [df]) ++ [sorted])%list |}).
    assert (U2 : untouched h1 h2) by apply (untouched_new h1).
    assert (Hs : (s < List.length (frames h2))%nat)
      by (unfold s, h2; cbn [frames]; rewrite !length_app; simpl; lia).
    assert (F2 : frame_at h2 s = sorted) by apply frame_at_new.
    destruct (journey_loop_spec s (rows sorted) h2 Hs) as [E [T F]].
    destruct (hfor (rows sorted) (journey_body s) h2) as [out3 h3].
    cbn [fst snd] in E, T, F. subst out3. run.
    split.
    + apply (touched_untouched s h h2 h3).
      * eapply untouched_trans; [exact U1 | exact U2].
      * unfold s. rewrite length_app. lia.
      * exact T.
    + exists s. split; [reflexivity|]. split.
      * destruct T as [_ [L _]]. lia.
      * rewrite F, F2. reflexivity.
  - split; [exact U1 | reflexivity].
Qed.

(** *** The loop over the users *)

Lemma hmapM_cons {A B} (f : A -> M B) (x : A) (l : list A) (h : Heap) :
  hmapM f (x :: l) h
  = match f x h with
    | (Ok y, h1) =>
        match hmapM f l h1 with
        | (Ok ys, h2) => (Ok (y :: ys), h2)
        | (Raise e, h2) => (Raise e, h2)
        end
    | (Raise e, h1) => (Raise e, h1)
    end.
Proof. reflexivity. Qed.

Lemma hmapM_returns {X} (f : X -> M address)
    (expected : Classifier.t -> X -> Result DataFrame) (l : list X) :
  (forall x h, In x l -> returns_frame (expected (classifier h) x) h (f x h)) ->
  forall h : Heap,
  untouched h (snd (hmapM f l h))
  /\ match mapM (expected (classifier h)) l with
     | Ok dfs =>
         exists addresses,
           fst (hmapM f l h) = Ok addresses
           /\ Forall2 (fun a df =>
                         (a < List.length (frames (snd (hmapM f l h))))%nat
                         /\ frame_at (snd (hmapM f l h)) a = df)
                      addresses dfs
     | Raise e => fst (hmapM f l h) = Raise e
     end.
Proof.
  induction l as [|x l IH]; intros Hf h.
  - simpl. split; [apply untouched_refl|]. exists []. split; [reflexivity|].
    constructor.
  - destruct (Hf x h (or_introl eq_refl)) as [U1 R1].
    rewrite hmapM_cons. cbn [mapM].
    destruct (f x h) as [out1 h1]. cbn [fst snd] in U1, R1.
    destruct (expected (classifier h) x) as [df|e]; cbn [bind].
    + destruct R1 as [a [-> [La Fa]]].
      destruct (IH (fun y h' Hy => Hf y h' (or_intror Hy)) h1) as [U2 R2].
      assert (C1 : classifier h1 = classifier h) by (destruct U1; assumption).
      rewrite C1 in R2.
      destruct (hmapM f l h1) as [out2 h2]. cbn [fst snd] in U2, R2.
      destruct (mapM (expected (classifier h)) l) as [dfs|e]; cbn [bind].
      * destruct R2 as [addresses [-> HF]]. cbn [fst snd].
        split; [eapply untouched_trans; eassumption|].
        exists (a :: addresses). split; [reflexivity|].
        constructor; [|exact HF].
        destruct U2 as [_ [L2 F2]]. split; [lia|].
        rewrite F2 by exact La. exact Fa.
      * subst out2. cbn [fst snd].
        split; [eapply untouched_trans; eassumption | reflexivity].
    + subst out1. cbn [fst snd]. split; [exact U1 | reflexivity].
Qed.

Lemma load_all (addresses : list address) (h : Heap) :
  hmapM load addresses h = (Ok (map (frame_at h) addresses), h).
Proof.
  induction addresses as [|a l IH]; [reflexivity|].
  rewrite hmapM_cons. unfold load at 1. now rewrite IH.
Qed.

Lemma update_new {A} (l : list A) (x y : A) :
  update (List.length l) x (l ++ [y])%list = (l ++ [x])%list.
Proof. induction l as [|z l IH]; simpl; [reflexivity | now rewrite IH]. Qed.

(** *** classify_user_events *)

(** The frame [classify_user_events] returns for a frame and a
    classifier, or the exception it raises. *)
Definition classify_frame (self : Classifier.t) (df : DataFrame)
  : Result DataFrame :=
  if empty df then Ok df
  else
    let df :=
      setitem_frame "stage_confidence" (fun r => set_stage_confidence r 0)
        (setitem_frame "funnel_stage" (fun r => set_funnel_stage r "UNKNOWN") df) in
    bind (require "pagePath" df)
      (fun _ =>
         let df :=
           setitem_frame "page_category"
             (fun r => set_page_category r
                         (Config.get_page_category (config self)
                            (field pagePath r))) df in
         bind (require "userPseudoId" df)
           (fun _ =>
              bind (mapM (fun g : string * list Row =>
                            journey_frame self
                              {| columns := columns df; rows := snd g |})
                         (groupby (field userPseudoId) (rows df)))
                (fun classified =>
                   Ok {| columns := columns df;
                         rows := concat_ignore_index (map rows classified) |}))).

Ltac run_stores :=
  cbv beta iota zeta
      delta [hbind load alloc copy lift ret get_self store setitem];
  cbn [fst snd classifier frames].

Lemma group_journey_spec (columns : list string) (g : string * list Row)
    (h : Heap) :
  returns_frame
    (journey_frame (classifier h) {| columns := columns; rows := snd g |}) h
    (hbind (alloc {| columns := columns; rows := snd g |})
           (fun user_events => _classify_user_journey user_events) h).
Proof.
  unfold hbind, alloc.
  set (df := {| columns := columns; rows := snd g |}).
  set (h1 := {| classifier := classifier h; frames := (frames h ++ [df])%list |}).
  destruct (journey_spec (List.length (frames h)) h1) as [U R].
  assert (F : frame_at h1 (List.length (frames h)) = df) by apply frame_at_new.
  rewrite F in R. change (classifier h1) with (classifier h) in R.
  split; [|exact R].
  eapply untouched_trans; [apply (untouched_new h df) | exact U].
Qed.

Lemma classify_spec (events_df : address) (h : Heap) :
  (events_df < List.length (frames h))%nat ->
  returns_frame (classify_frame (classifier h) (frame_at h events_df)) h
    (classify_user_events events_df h).
Proof.
  intros Ha. unfold classify_user_events, classify_frame.
  unfold hbind at 1. unfold load at 1.
  set (df0 := frame_at h events_df).
  destruct (empty df0).
  { unfold ret. split; [apply untouched_refl|].
    exists events_df. repeat split. exact Ha. }
  run_stores. fold df0.
  repeat (progress (rewrite ?frame_at_new, ?update_new)).
  set (df2 := setitem_frame "stage_confidence" _ (setitem_frame "funnel_stage" _ df0)).
  destruct (require "pagePath" df2) as [[]|e]; cbn [bind].
  2:{ split; [apply untouched_new | reflexivity]. }
  repeat (progress (rewrite ?frame_at_new, ?update_new)).
  set (df3 := setitem_frame "page_category" _ df2).
  destruct (require "userPseudoId" df3) as [[]|e]; cbn [bind].
  2:{ split; [apply untouched_new | reflexivity]. }
  set (h1 := {| classifier := classifier h; frames := (frames h ++ [df3])%list |}).
  assert (U1 : untouched h h1) by apply untouched_new.
  destruct (hmapM_returns
              (fun g : string * list Row =>
                 hbind (alloc {| columns := columns df3; rows := snd g |})
                       (fun user_events => _classify_user_journey user_events))
              (fun self (g : string * list Row) =>
                 journey_frame self {| columns := columns df3; rows := snd g |})
              (groupby (field userPseudoId) (rows df3))
              (fun g h' _ => group_journey_spec (columns df3) g h')
              h1) as [U2 R2].
  change (classifier h1) with (classifier h) in R2.
  match goal with
  | |- context [hmapM ?f ?l h1] =>
      change (hmapM f l h1)
        with (hmapM (fun g : string * list Row =>
                       hbind (alloc {| columns := columns df3; rows := snd g |})
                             (fun user_events => _classify_user_journey user_events))
                    (groupby (field userPseudoId) (rows df3)) h1)
  end.
  destruct (hmapM _ (groupby (field userPseudoId) (rows df3)) h1) as [out2 h2].
  cbn [fst snd] in U2, R2.
  destruct (mapM _ (groupby (field userPseudoId) (rows df3))) as [dfs|e];
    cbn [bind].
  - destruct R2 as [addresses [-> HF]].
    assert (Hmap : map (frame_at h2) addresses = dfs).
    { clear - HF. induction HF as [|a df addresses dfs [_ Fa] _ IH];
        [reflexivity|].
      cbn [map]. now rewrite Fa, IH. }
    unfold concat, hbind. rewrite load_all, Hmap. unfold alloc. cbn [fst snd].
    set (result := {| columns := columns df3;
                      rows := concat_ignore_index (map rows dfs) |}).
    set (h3 := {| classifier := classifier h2;
                  frames := (frames h2 ++ [result])%list |}).
    assert (U3 : untouched h2 h3) by apply untouched_new.
    split.
    + eapply untouched_trans; [exact U1|].
      eapply untouched_trans; [exact U2 | exact U3].
    + exists (List.length (frames h2)). split; [reflexivity|]. split.
      * change (List.length (frames h2)
                < List.length (frames h2 ++ [result])%list)%nat.
        rewrite length_app. simpl. lia.
      * apply frame_at_new.
  - subst out2. cbn [fst snd]. split; [|reflexivity].
    eapply untouched_trans; eassumption.
Qed.

(** *** The frame returned for a relation *)

Lemma rows_journey_step (self : Classifier.t) (df : DataFrame) (row : Row) :
  rows (journey_step self df row)
  = (let (stage, confidence) := _classify_single_event self row (rows df) in
     at_set (name row) stage confidence (rows df)).
Proof.
  unfold journey_step.
  destruct (_classify_single_event self row (rows df)) as [stage confidence].
  unfold at_frame, at_set. cbn [rows]. rewrite map_map. apply map_ext.
  intros r. destruct (Nat.eqb (name r) (name row)) eqn:E.
  - cbn [name set_funnel_stage]. now rewrite E.
  - now rewrite E.
Qed.

Lemma rows_journey_fold (self : Classifier.t) (snapshot : list Row) :
  forall df : DataFrame,
  rows (fold_left (journey_step self) snapshot df)
  = fold_left
      (fun (user_events : list Row) (row : Row) =>
         let (stage, confidence) :=
           _classify_single_event self row user_events in
         at_set (name row) stage confidence user_events)
      snapshot (rows df).
Proof.
  induction snapshot as [|row snapshot IH]; intros df; [reflexivity|].
  cbn [fold_left]. now rewrite IH, rows_journey_step.
Qed.

Lemma journey_frame_rows (self : Classifier.t) (columns : list string)
    (user_events : list Row) :
  PyStr.mem "eventTimestamp" columns = true ->
  exists df,
    journey_frame self {| columns := columns; rows := user_events |} = Ok df
    /\ rows df = Classifier._classify_user_journey self user_events.
Proof.
  intros Hc. unfold journey_frame, require. cbn [Calculator.columns].
  rewrite Hc. cbn [bind]. eexists. split; [reflexivity|].
  now rewrite rows_journey_fold.
Qed.

Lemma mapM_each_ok {A B C} (f : A -> Result B) (g : B -> C) (k : A -> C)
    (l : list A) :
  (forall x, exists y, f x = Ok y /\ g y = k x) ->
  exists ys, mapM f l = Ok ys /\ map g ys = map k l.
Proof.
  intros Hf. induction l as [|x l [ys [E Hys]]].
  - now exists [].
  - destruct (Hf x) as [y [Ey Hy]]. exists (y :: ys).
    cbn [mapM]. rewrite Ey, E. cbn [bind map]. now rewrite Hy, Hys.
Qed.

Lemma classify_frame_relation (self : Classifier.t) (events : list Event) :
  exists df,
    classify_frame self (relation_frame events) = Ok df
    /\ rows df = Classifier.classify_user_events self events.
Proof.
  destruct events as [|e events].
  - eexists. split; reflexivity.
  - unfold classify_frame.
    assert (Hempty : empty (relation_frame (e :: events)) = false) by reflexivity.
    rewrite Hempty.
    set (df2 := setitem_frame "stage_confidence" _
                  (setitem_frame "funnel_stage" _ (relation_frame (e :: events)))).
    replace (require "pagePath" df2) with (Ok tt) by reflexivity. cbn [bind].
    set (df3 := setitem_frame "page_category" _ df2).
    replace (require "userPseudoId" df3) with (Ok tt) by reflexivity. cbn [bind].
    destruct (mapM_each_ok
                (fun g : string * list Row =>
                   journey_frame self {| columns := columns df3; rows := snd g |})
                rows
                (fun g : string * list Row =>
                   Classifier._classify_user_journey self (snd g))
                (groupby (field userPseudoId) (rows df3)))
      as [classified [-> Hrows]].
    { intros g. apply journey_frame_rows. reflexivity. }
    cbn [bind]. eexists. split; [reflexivity|]. cbn [rows]. rewrite Hrows.
    unfold Classifier.classify_user_events.
    assert (Hann : rows df3
                   = map (fun ie =>
                            {| name := fst ie; event := snd ie;
                               funnel_stage := "UNKNOWN"; stage_confidence := 0;
                               page_category :=
                                 Config.get_page_category (config self)
                                   (pagePath (snd ie)) |})
                         (enumerate (e :: events))).
    { unfold df3, df2, setitem_frame, relation_frame. cbn [rows].
      rewrite !map_map. apply map_ext. intros ie. reflexivity. }
    now rewrite Hann.
Qed.

End RunFacts.

(* ================================================================== *)
(** ** Concrete event relations *)

Module Examples.
Import Pandas Classifier Calculator.

Definition mk_event (user name path source timestamp : string) : Event :=
  {| userPseudoId := user; sessionId := "s1"; eventName := name;
     pagePath := path; sessionSource := source; sessionMedium := "organic";
     deviceCategory := "desktop"; country := "KR";
     eventTimestamp := timestamp; engagementTimeMsec := None |}.

Definition default_classifier : Classifier.t :=
  Classifier.init Config._get_default_config.

(** What the stage columns of a classified frame say about each event. *)
Definition stages (classified : list Row) : list (string * string * float) :=
  map (fun r => (field eventName r, funnel_stage r, stage_confidence r)) classified.

(** User A: a session start from google, a blog post view, the sign-up
    event; user B: a session start only. *)
Definition two_users : list Event :=
  [ mk_event "A" "session_start" "/" "google" "2024-01-01 10:00:00";
    mk_event "A" "page_view" "/posts/5" "google" "2024-01-01 10:05:00";
    mk_event "A" conversion_event_name "/provider-join" "google" "2024-01-01 10:10:00";
    mk_event "B" "session_start" "/" "google" "2024-01-01 10:00:00" ].

(** One user who reads a post, the fee and provider pages and then signs
    up: five distinct pages, an earlier engagement event. *)
Definition long_journey : list Event :=
  [ mk_event "A" "session_start" "/" "google" "2024-01-01 10:00:00";
    mk_event "A" "user_engagement" "/posts/1" "google" "2024-01-01 10:01:00";
    mk_event "A" "page_view" "/fee-information" "google" "2024-01-01 10:02:00";
    mk_event "A" "page_view" "/providers" "google" "2024-01-01 10:03:00";
    mk_event "A" conversion_event_name "/provider-join" "google" "2024-01-01 10:04:00" ].

(** The sign-up event of [long_journey] as the classifier meets it, and
    the frame of its user. *)
Definition long_journey_frame : list Row :=
  ClassifierFacts.annotated Config._get_default_config long_journey.

Definition signup_row : Row :=
  {| name := 4;
     event := mk_event "A" conversion_event_name "/provider-join" "google"
                       "2024-01-01 10:04:00";
     funnel_stage := "UNKNOWN"; stage_confidence := 0;
     page_category := "authentication" |}.

(** User A starts a session and engages; user B only engages. *)
Definition engaged_without_session : list Event :=
  [ mk_event "A" "session_start" "/" "google" "2024-01-01 10:00:00";
    mk_event "A" "user_engagement" "/x" "google" "2024-01-01 10:01:00";
    mk_event "B" "user_engagement" "/x" "(direct)" "2024-01-01 10:00:00" ].

End Examples.

(* ================================================================== *)
(** ** The specification's claims *)

Module Spec.
Import Pandas Classifier Scores ClassifierFacts Calculator CalculatorFacts Examples.

(** *** Page categories (C2) *)

Definition posts_table : Config.t :=
  {| Config.min_engagement_time := 15;
     Config.page_categories := [("content", ["/posts/*"])];
     Config.traffic_groups := [] |}.

(** C2, as stated, fails: with the table [{"content": ["/posts/*"]}] the
    path "/posts" is not in category "content".  The prefix kept after the
    star is dropped is "/posts/", which "/posts" does not start with. *)
Lemma posts_without_slash_is_other :
  Config.get_page_category posts_table "/posts" = "other"
  /\ Config.get_page_category posts_table "/posts" <> "content".
Proof. split; [reflexivity | discriminate]. Qed.

(** C2, amended: with the table [{"content": ["/posts/*"]}], "/posts/123"
    is "content" while "/posts" and "/other" are "other"; a pattern ending
    in a star matches the paths that start with the pattern minus the star,
    any other pattern matches by equality, the first matching pattern in
    iteration order gives the category and no match gives "other" (for
    page categories and, on "source/medium", for traffic groups). *)
Theorem page_category_matching :
  Config.get_page_category posts_table "/posts/123" = "content"
  /\ Config.get_page_category posts_table "/posts" = "other"
  /\ Config.get_page_category posts_table "/other" = "other"
  /\ (forall subject pattern,
        Config.pattern_matches subject pattern = true <->
        (exists q rest, pattern = q ++ "*" /\ subject = q ++ rest)
        \/ ((forall q, pattern <> q ++ "*") /\ subject = pattern))
  /\ (forall cfg page_path,
        Config.get_page_category cfg page_path
        = Config.first_match_spec (Config.page_categories cfg) page_path)
  /\ (forall cfg source medium,
        Config.get_traffic_group cfg source medium
        = Config.first_match_spec (Config.traffic_groups cfg)
            (source ++ "/" ++ medium)).
Proof.
  repeat split; try reflexivity.
  - now apply Config.pattern_matches_spec.
  - now apply Config.pattern_matches_spec.
  - intros cfg page_path. apply Config.lookup_category_first_match.
  - intros cfg source medium. apply Config.lookup_category_first_match.
Qed.

(** *** The stage assigned to one event (C4, C1, C10, C5) *)

Section OneEvent.
Variable cfg : Config.t.
Variables (event_row : Row) (user_context : list Row).

Let a := _awareness_conditions event_row user_context.
Let b := _interest_conditions cfg event_row user_context.
Let c := _consideration_conditions event_row user_context.
Let d := _conversion_conditions event_row user_context.
Let r := _classify_single_event (init cfg) event_row user_context.

(** C4: the classifier assigns the stage with the highest score, the
    earliest of AWARENESS, INTEREST, CONSIDERATION, CONVERSION on a tie,
    with that score as confidence; when the four scores are 0 it assigns
    UNKNOWN with confidence 0. *)
Theorem classify_single_event_first_highest :
  ((a = 0 /\ b = 0 /\ c = 0 /\ d = 0 /\ r = ("UNKNOWN", 0))
   \/ ((0 <? a) = true /\ (b <=? a) = true /\ (c <=? a) = true
       /\ (d <=? a) = true /\ r = ("AWARENESS", a))
   \/ ((0 <? b) = true /\ (a <? b) = true /\ (c <=? b) = true
       /\ (d <=? b) = true /\ r = ("INTEREST", b))
   \/ ((0 <? c) = true /\ (a <? c) = true /\ (b <? c) = true
       /\ (d <=? c) = true /\ r = ("CONSIDERATION", c))
   \/ ((0 <? d) = true /\ (a <? d) = true /\ (b <? d) = true
       /\ (c <? d) = true /\ r = ("CONVERSION", d)))%float
  /\ (a = 0%float -> b = 0%float -> c = 0%float -> d = 0%float ->
      r = ("UNKNOWN", 0%float)).
Proof.
  destruct (classify_first_highest cfg event_row user_context) as [w [Hr Hw]].
  destruct (scores_listed cfg event_row user_context) as [Ha [Hb [Hc Hd]]].
  fold a b c d in Hr, Hw, Ha, Hb, Hc, Hd. fold r in Hr.
  assert (Hcases :
    ((a = 0 /\ b = 0 /\ c = 0 /\ d = 0 /\ r = ("UNKNOWN", 0))
     \/ ((0 <? a) = true /\ (b <=? a) = true /\ (c <=? a) = true
         /\ (d <=? a) = true /\ r = ("AWARENESS", a))
     \/ ((0 <? b) = true /\ (a <? b) = true /\ (c <=? b) = true
         /\ (d <=? b) = true /\ r = ("INTEREST", b))
     \/ ((0 <? c) = true /\ (a <? c) = true /\ (b <? c) = true
         /\ (d <=? c) = true /\ r = ("CONSIDERATION", c))
     \/ ((0 <? d) = true /\ (a <? d) = true /\ (b <? d) = true
         /\ (c <? d) = true /\ r = ("CONVERSION", d)))%float).
  { destruct w; simpl in Hw, Hr;
      repeat (apply andb_true_iff in Hw; destruct Hw as [Hw ?]).
    - left. repeat match goal with
                   | H : negb _ = true |- _ => apply negb_true_iff in H
                   end.
      repeat split; try (apply score_not_positive; assumption). exact Hr.
    - right; left. now repeat split.
    - right; right; left. now repeat split.
    - right; right; right; left. now repeat split.
    - right; right; right; right. now repeat split. }
  split; [exact Hcases|].
  intros Ea Eb Ec Ed.
  destruct Hcases as [H | [H | [H | [H | H]]]];
    [ now destruct H as [_ [_ [_ [_ H]]]] | | | | ];
    destruct H as [H _]; rewrite ?Ea, ?Eb, ?Ec, ?Ed in H;
    vm_compute in H; discriminate H.
Qed.

End OneEvent.

(** What holds of an event named as the conversion event: the CONVERSION
    score and the assigned confidence are 1.0, and the stage is CONVERSION
    unless an earlier stage scores 1.0 as well, in which case the first
    such stage is assigned. *)
Definition conversion_event_outcome (cfg : Config.t) (event_row : Row)
    (user_context : list Row) : Prop :=
  let a := _awareness_conditions event_row user_context in
  let b := _interest_conditions cfg event_row user_context in
  let c := _consideration_conditions event_row user_context in
  let r := _classify_single_event (init cfg) event_row user_context in
  _conversion_conditions event_row user_context = 1%float
  /\ snd r = 1%float
  /\ (fst r = "CONVERSION" <->
      (a <? 1)%float = true /\ (b <? 1)%float = true /\ (c <? 1)%float = true)
  /\ (a = 1%float -> fst r = "AWARENESS")
  /\ ((a <? 1)%float = true -> b = 1%float -> fst r = "INTEREST")
  /\ ((a <? 1)%float = true -> (b <? 1)%float = true -> c = 1%float ->
      fst r = "CONSIDERATION").

(** C1, as stated, fails: the sign-up event of a user who visited five
    pages after an engagement event scores 1.0 for CONSIDERATION as well
    as for CONVERSION, and is classified CONSIDERATION. *)
Lemma conversion_event_classified_consideration :
  field eventName signup_row = conversion_event_name
  /\ _classify_single_event default_classifier signup_row long_journey_frame
     = ("CONSIDERATION", 1%float)
  /\ stages (classify_user_events default_classifier long_journey)
     = [ ("session_start", "AWARENESS", 1%float);
         ("user_engagement", "INTEREST", 1%float);
         ("page_view", "CONSIDERATION", 1%float);
         ("page_view", "CONSIDERATION", 1%float);
         (conversion_event_name, "CONSIDERATION", 1%float) ].
Proof. repeat split; vm_compute; reflexivity. Qed.

Lemma conversion_score_one (event_row : Row) (user_context : list Row) :
  field eventName event_row = conversion_event_name ->
  _conversion_conditions event_row user_context = 1%float.
Proof.
  intros Hname. unfold _conversion_conditions.
  rewrite Hname, String.eqb_refl. reflexivity.
Qed.

Ltac float_absurd H := vm_compute in H; discriminate H.

(** C1, amended: an event named as the conversion event has CONVERSION
    score 1.0 and is assigned confidence 1.0 in every context; its stage is
    CONVERSION exactly when AWARENESS, INTEREST and CONSIDERATION all score
    below 1.0, and otherwise the first of these stages that scores 1.0. *)
Theorem conversion_event_confidence_one (cfg : Config.t) (event_row : Row)
    (user_context : list Row) :
  field eventName event_row = conversion_event_name ->
  conversion_event_outcome cfg event_row user_context.
Proof.
  intros Hname. unfold conversion_event_outcome.
  pose proof (conversion_score_one event_row user_context Hname) as Hd.
  destruct (classify_first_highest cfg event_row user_context) as [w [Hr Hw]].
  destruct (scores_listed cfg event_row user_context) as [Ha [Hb [Hc _]]].
  rewrite Hr, Hd in *. clear Hr Hd.
  set (a := _awareness_conditions event_row user_context) in *.
  set (b := _interest_conditions cfg event_row user_context) in *.
  set (c := _consideration_conditions event_row user_context) in *.
  split; [reflexivity|].
  destruct w; simpl in Hw |- *;
    repeat (apply andb_true_iff in Hw; destruct Hw as [Hw ?]).
  - float_absurd H.
  - assert (Ea : a = 1%float) by now apply score_at_least_one.
    rewrite Ea in *.
    repeat split; try reflexivity; try discriminate; intros;
      repeat match goal with
             | H : _ /\ _ |- _ => destruct H
             | H : (1 <? 1)%float = true |- _ => float_absurd H
             end.
  - assert (Eb : b = 1%float) by now apply score_at_least_one.
    rewrite Eb in *.
    repeat split; try reflexivity; try discriminate; intros;
      repeat match goal with
             | H : _ /\ _ |- _ => destruct H
             | H : ?x = 1%float |- _ => rewrite H in *; clear H
             | H : (1 <? 1)%float = true |- _ => float_absurd H
             end.
  - assert (Ec : c = 1%float) by now apply score_at_least_one.
    rewrite Ec in *.
    repeat split; try reflexivity; try discriminate; intros;
      repeat match goal with
             | H : _ /\ _ |- _ => destruct H
             | H : ?x = 1%float |- _ => rewrite H in *; clear H
             | H : (1 <? 1)%float = true |- _ => float_absurd H
             end.
  - repeat split; try reflexivity; try assumption; intros;
      repeat match goal with
             | H : ?x = 1%float |- _ => rewrite H in *; clear H
             | H : (1 <? 1)%float = true |- _ => float_absurd H
             end.
Qed.

(** The amended C1 at the sign-up event of [long_journey]. *)
Lemma conversion_event_confidence_one_witness :
  field eventName signup_row = conversion_event_name
  /\ conversion_event_outcome Config._get_default_config signup_row
       long_journey_frame.
Proof.
  split; [reflexivity|].
  apply (conversion_event_confidence_one Config._get_default_config signup_row
           long_journey_frame).
  reflexivity.
Defined.

Definition stage_names : list string :=
  ["AWARENESS"; "INTEREST"; "CONSIDERATION"; "CONVERSION"; "UNKNOWN"].

Lemma single_event_in_range (cfg : Config.t) (event_row : Row)
    (user_context : list Row) :
  In (fst (_classify_single_event (init cfg) event_row user_context)) stage_names
  /\ in_unit_interval
       (snd (_classify_single_event (init cfg) event_row user_context)) = true.
Proof.
  destruct (classify_first_highest cfg event_row user_context) as [w [-> _]].
  destruct (scores_listed cfg event_row user_context) as [Ha [Hb [Hc Hd]]].
  split.
  - destruct w; simpl; auto 10.
  - destruct w; simpl; try (now apply scores_in_unit_interval). reflexivity.
Qed.

(** C5: each of the four scoring functions returns a value in [0, 1]
    whatever signals fire, and every row [classify_user_events] returns
    carries a stage among AWARENESS, INTEREST, CONSIDERATION, CONVERSION,
    UNKNOWN and a confidence in [0, 1]. *)
Theorem classified_stage_and_confidence_range (cfg : Config.t) :
  (forall event_row user_context,
     in_unit_interval (_awareness_conditions event_row user_context) = true
     /\ in_unit_interval (_interest_conditions cfg event_row user_context) = true
     /\ in_unit_interval (_consideration_conditions event_row user_context) = true
     /\ in_unit_interval (_conversion_conditions event_row user_context) = true)
  /\ (forall events_df,
        Forall (fun r => In (funnel_stage r) stage_names
                         /\ in_unit_interval (stage_confidence r) = true)
               (classify_user_events (init cfg) events_df)).
Proof.
  split.
  - intros event_row user_context.
    destruct (scores_listed cfg event_row user_context) as [Ha [Hb [Hc Hd]]].
    repeat split; now apply scores_in_unit_interval.
  - intros events_df.
    apply (classify_user_events_lift (init cfg)
             (fun stage confidence =>
                In stage stage_names /\ in_unit_interval confidence = true)).
    intros row ctx. apply single_event_in_range.
Qed.

Lemma single_event_unknown_iff_zero (cfg : Config.t) (event_row : Row)
    (user_context : list Row) :
  fst (_classify_single_event (init cfg) event_row user_context) = "UNKNOWN"
  <-> snd (_classify_single_event (init cfg) event_row user_context) = 0%float.
Proof.
  destruct (classify_first_highest cfg event_row user_context) as [w [-> Hw]].
  destruct w; simpl in *;
    repeat (apply andb_true_iff in Hw; destruct Hw as [Hw ?]);
    (split; [try discriminate; try reflexivity | try reflexivity]);
    intros E; rewrite E in *; float_absurd Hw.
Qed.

(** C10: for one event, and for every row [classify_user_events] returns,
    the stage is UNKNOWN exactly when the confidence is 0.0. *)
Theorem unknown_iff_zero_confidence (cfg : Config.t) :
  (forall event_row user_context,
     fst (_classify_single_event (init cfg) event_row user_context) = "UNKNOWN"
     <-> snd (_classify_single_event (init cfg) event_row user_context) = 0%float)
  /\ (forall events_df,
        Forall (fun r => funnel_stage r = "UNKNOWN" <-> stage_confidence r = 0%float)
               (classify_user_events (init cfg) events_df)).
Proof.
  split.
  - intros event_row user_context. apply single_event_unknown_iff_zero.
  - intros events_df.
    apply (classify_user_events_lift (init cfg)
             (fun stage confidence => stage = "UNKNOWN" <-> confidence = 0%float)).
    intros row ctx. apply single_event_unknown_iff_zero.
Qed.

(** *** The classified frame (C8) *)

(** The frame is a sequence of blocks, one per user, in each of which
    every row has a timestamp at most that of every later row, relabelled
    0, 1, 2, ... *)
Definition grouped_by_user_sorted_by_time (out : list Row) : Prop :=
  exists groups : list (string * list Row),
    out = concat_ignore_index (map snd groups)
    /\ NoDup (map fst groups)
    /\ Forall (fun g => Forall (fun r => field userPseudoId r = fst g) (snd g)
                        /\ StronglySorted timestamp_le (snd g))
              groups.

Lemma annotated_In (cfg : Config.t) (events_df : list Event) (r : Row) :
  In r (annotated cfg events_df) ->
  page_category r = Config.get_page_category cfg (field pagePath r).
Proof.
  unfold annotated. intros Hr. apply in_map_iff in Hr as [ie [<- _]]. reflexivity.
Qed.

Lemma journey_block_In (cfg : Config.t) (events_df : list Event)
    (g : string * list Row) (r : Row) :
  In g (groupby (field userPseudoId) (annotated cfg events_df)) ->
  In r (_classify_user_journey (init cfg) (snd g)) ->
  field userPseudoId r = fst g
  /\ page_category r = Config.get_page_category cfg (field pagePath r).
Proof.
  intros Hg Hr.
  apply journey_In_skeleton in Hr as [r0 [Hr0 Hsk]].
  apply PandasFacts.groupby_In in Hg as [Hfilter [_ Hkey]].
  unfold skeleton in Hsk. injection Hsk as _ Hevent Hcat.
  unfold field. rewrite Hevent, Hcat. split.
  - rewrite Forall_forall in Hkey. exact (Hkey r0 Hr0).
  - rewrite Hfilter in Hr0. apply filter_In in Hr0 as [Hr0 _].
    exact (annotated_In cfg events_df r0 Hr0).
Qed.

(** C8: [classify_user_events] returns one row per input event with the
    event unchanged (the events of the output are a permutation of the
    input), labelled 0..n-1, annotated with the page category of its
    path, the rows of a user forming one block ordered by timestamp. *)
Theorem classify_user_events_frame (cfg : Config.t) (events_df : list Event) :
  let out := classify_user_events (init cfg) events_df in
  Permutation (map event out) events_df
  /\ List.length out = List.length events_df
  /\ map name out = seq 0 (List.length events_df)
  /\ Forall (fun r => page_category r
                      = Config.get_page_category cfg (field pagePath r)) out
  /\ grouped_by_user_sorted_by_time out.
Proof.
  intros out.
  pose proof (classify_user_events_perm cfg events_df) as Hperm. fold out in Hperm.
  assert (Hlen : List.length out = List.length events_df).
  { rewrite <- (Permutation_length Hperm). now rewrite length_map. }
  split; [exact Hperm|]. split; [exact Hlen|]. split; [|split].
  - unfold out in *. rewrite classify_user_events_blocks in *.
    rewrite concat_ignore_index_names.
    rewrite <- Hlen. unfold concat_ignore_index.
    rewrite length_map. unfold enumerate.
    rewrite length_combine, length_seq, Nat.min_id. reflexivity.
  - unfold out. rewrite classify_user_events_blocks.
    unfold concat_ignore_index. apply Forall_forall. intros r Hr.
    apply in_map_iff in Hr as [[i r0] [<- Hr0]].
    apply in_combine_r in Hr0. apply in_concat in Hr0 as [block [Hblock Hr0]].
    apply in_map_iff in Hblock as [g [<- Hg]].
    exact (proj2 (journey_block_In cfg events_df g r0 Hg Hr0)).
  - exists (map (fun g => (fst g, _classify_user_journey (init cfg) (snd g)))
                (groupby (field userPseudoId) (annotated cfg events_df))).
    split; [|split].
    + unfold out. rewrite classify_user_events_blocks. now rewrite map_map.
    + rewrite map_map. simpl.
      change (map (fun x : string * list Row => fst x)
                  (groupby (field userPseudoId) (annotated cfg events_df)))
        with (map fst (groupby (field userPseudoId) (annotated cfg events_df))).
      rewrite PandasFacts.groupby_keys. apply PandasFacts.unique_sorted_NoDup.
    + apply Forall_forall. intros g' Hg'.
      apply in_map_iff in Hg' as [g [<- Hg]]. simpl. split.
      * apply Forall_forall. intros r Hr.
        exact (proj1 (journey_block_In cfg events_df g r Hg Hr)).
      * apply journey_strongly_sorted.
Qed.

(** *** Two runs (C9) *)

(** C9: two runs of [classify_user_events] on the same event frame with
    the same classifier, the second in the heap the first one left, have
    the same outcome: the same exception, or result frames with the same
    contents, hence the same funnel_stage and stage_confidence for every
    event.  The object the caller passed, the classifier and every other
    object that existed before the first call are after each call what
    they were before it (all writes of the method go to copies made by
    the call), and the second call leaves the result of the first as it
    is.  On the frame of an event relation the call returns, and the
    rows of its result are those of the classification function. *)
Theorem classification_deterministic (h : Run.Heap) (events_df : Run.address) :
  (events_df < List.length (Run.frames h))%nat ->
  let first := Run.classify_user_events events_df h in
  let second := Run.classify_user_events events_df (snd first) in
  Run.same_outcome first second
  /\ Run.untouched h (snd first)
  /\ Run.untouched h (snd second)
  /\ (forall r1, fst first = Ok r1 ->
        Run.frame_at (snd second) r1 = Run.frame_at (snd first) r1)
  /\ (forall events, Run.frame_at h events_df = Run.relation_frame events ->
        exists r1, fst first = Ok r1
          /\ rows (Run.frame_at (snd first) r1)
             = classify_user_events (Run.classifier h) events).
Proof.
  intros Hin first second.
  pose proof (RunFacts.classify_spec events_df h Hin) as H1.
  fold first in H1. destruct H1 as [U1 R1].
  assert (Hin1 : (events_df < List.length (Run.frames (snd first)))%nat).
  { destruct U1 as [_ [Hlen _]]. lia. }
  pose proof (RunFacts.classify_spec events_df (snd first) Hin1) as H2.
  fold second in H2. destruct H2 as [U2 R2].
  assert (Hc : Run.classifier (snd first) = Run.classifier h)
    by exact (proj1 U1).
  assert (Hf : Run.frame_at (snd first) events_df = Run.frame_at h events_df)
    by exact (proj2 (proj2 U1) events_df Hin).
  rewrite Hc, Hf in R2.
  split; [|split; [exact U1|split; [|split]]].
  - unfold Run.same_outcome.
    destruct (RunFacts.classify_frame (Run.classifier h)
                (Run.frame_at h events_df)) as [df|e].
    + destruct R1 as [a1 [E1 [_ F1]]]. destruct R2 as [a2 [E2 [_ F2]]].
      rewrite E1, E2, F1, F2. split; reflexivity.
    + now rewrite R1, R2.
  - exact (RunFacts.untouched_trans _ _ _ U1 U2).
  - intros r1 E1.
    destruct (RunFacts.classify_frame (Run.classifier h)
                (Run.frame_at h events_df)) as [df|e].
    + destruct R1 as [a1 [E1' [L1 _]]]. rewrite E1 in E1'.
      injection E1' as <-. exact (proj2 (proj2 U2) r1 L1).
    + rewrite E1 in R1. discriminate R1.
  - intros events Hrel. rewrite Hrel in R1.
    destruct (RunFacts.classify_frame_relation (Run.classifier h) events)
      as [df [E Hrows]].
    rewrite E in R1. destruct R1 as [a1 [E1 [_ F1]]].
    exists a1. split; [exact E1|]. now rewrite F1.
Qed.

(** The two-user relation, in a heap that holds the default classifier
    and the frame of the relation. *)
Lemma classification_deterministic_witness :
  let h := {| Run.classifier := default_classifier;
              Run.frames := [Run.relation_frame two_users] |} in
  let first := Run.classify_user_events 0%nat h in
  let second := Run.classify_user_events 0%nat (snd first) in
  (0 < List.length (Run.frames h))%nat
  /\ Run.same_outcome first second
  /\ Run.untouched h (snd first)
  /\ Run.untouched h (snd second)
  /\ (forall r1, fst first = Ok r1 ->
        Run.frame_at (snd second) r1 = Run.frame_at (snd first) r1)
  /\ (forall events, Run.frame_at h 0%nat = Run.relation_frame events ->
        exists r1, fst first = Ok r1
          /\ rows (Run.frame_at (snd first) r1)
             = classify_user_events (Run.classifier h) events).
Proof.
  intros h first second. split.
  - simpl. lia.
  - apply (classification_deterministic h 0%nat). simpl. lia.
Defined.

(** *** The two-user scenario (C6) *)

(** C6: for user A with a session start from google, a view of
    "/posts/5" and the conversion event, and user B with a session start
    only, A's last event is CONVERSION with confidence 1.0, the stage
    funnel counts 2, 1, 0 and 1 users for AWARENESS, INTEREST,
    CONSIDERATION and CONVERSION, and the overall conversion rate is 50. *)
Theorem two_user_scenario :
  stages (classify_user_events default_classifier two_users)
  = [ ("session_start", "AWARENESS", 1%float);
      ("page_view", "INTEREST", 0.7%float);
      (conversion_event_name, "CONVERSION", 1%float);
      ("session_start", "AWARENESS", 1%float) ]
  /\ exists r,
       calculate_stage_conversions
         (classified_frame (classify_user_events default_classifier two_users))
       = Ok (StageConversions r)
       /\ total_users r = 2%nat
       /\ stage_counts r
          = {| awareness := 2; interest := 1; consideration := 0; conversion := 1 |}
       /\ (overall_conversion r == 50)%Q.
Proof.
  split; [vm_compute; reflexivity|].
  eexists. split; [vm_compute; reflexivity|].
  repeat split.
Qed.

(** *** Empty input (C3) *)

(** C3 fails for the source aggregate: on a classified frame without rows
    [calculate_source_conversions] raises, whatever columns the frame has,
    while [calculate_stage_conversions] returns its error dictionary and
    [calculate_content_conversions] an empty frame. *)
Theorem source_conversions_raise_on_empty (cfg : Config.t) :
  (forall cols,
     exists e,
       calculate_source_conversions cfg {| columns := cols; rows := [] |}
       = Raise e)
  /\ calculate_source_conversions cfg (classified_frame [])
     = Raise (KeyError "conversion_rate")
  /\ (forall cols,
        exists msg,
          calculate_stage_conversions {| columns := cols; rows := [] |}
          = Ok (StageError msg))
  /\ calculate_content_conversions (classified_frame []) = Ok [].
Proof.
  repeat split.
  - intros cols. unfold calculate_source_conversions, require. simpl.
    repeat match goal with
           | |- context [if ?t then _ else _] => destruct t; simpl; eauto
           end.
  - intros cols. eexists. unfold calculate_stage_conversions, empty. simpl.
    destruct cols; reflexivity.
Qed.

(** *** Conversion rates (C7) *)

(** C7, as stated, fails for step conversions: with one user reaching
    AWARENESS and two reaching INTEREST the step rate from AWARENESS to
    INTEREST is 200. *)
Lemma step_conversion_exceeds_100 :
  stages (classify_user_events default_classifier engaged_without_session)
  = [ ("session_start", "AWARENESS", 1%float);
      ("user_engagement", "INTEREST", (0.7 + 0.2)%float);
      ("user_engagement", "INTEREST", 0.7%float) ]
  /\ exists r,
       calculate_stage_conversions
         (classified_frame
            (classify_user_events default_classifier engaged_without_session))
       = Ok (StageConversions r)
       /\ stage_counts r
          = {| awareness := 1; interest := 2; consideration := 0; conversion := 0 |}
       /\ (awareness_to_interest (step_conversions r) == 200)%Q
       /\ (100 < awareness_to_interest (step_conversions r))%Q.
Proof.
  split; [vm_compute; reflexivity|].
  eexists. split; [vm_compute; reflexivity|].
  repeat split.
Qed.

(** What holds of the aggregates of a frame: the stage rates and the
    overall rate, and the rate of every source, content page, device,
    hour and weekday reported, lie in [0, 100]; the step conversions are
    non-negative; a step conversion or content rate is exactly 0 when
    its denominator is 0. *)
Definition rates_within_bounds (hour_of : string -> nat)
    (day_name_of : string -> string) (cfg : Config.t) (df : DataFrame) : Prop :=
  (exists r,
     calculate_stage_conversions df = Ok (StageConversions r)
     /\ stage_rates_in_range r /\ step_conversions_guarded r)
  /\ (exists source_df,
        calculate_source_conversions cfg df = Ok source_df
        /\ Forall (fun r => np_in_percent_range (SourceRow.conversion_rate r))
                  source_df)
  /\ (exists content_df,
        calculate_content_conversions df = Ok content_df
        /\ Forall content_rate_ok content_df)
  /\ (exists device_df,
        calculate_device_conversions df = Ok device_df
        /\ Forall (fun r => np_in_percent_range (DeviceRow.conversion_rate r))
                  device_df)
  /\ (exists hourly daily,
        calculate_time_based_conversions hour_of day_name_of df
        = Ok (TimeAnalysis hourly daily)
        /\ Forall (fun r => np_in_percent_range (TimeRow.conversion_rate r)) hourly
        /\ Forall (fun r => np_in_percent_range (TimeRow.conversion_rate r)) daily).

(** C7, amended: on a classified frame with at least one row, every
    aggregate is computed without an exception; the stage rates, the
    overall rate and the per-source, per-content, per-device and
    per-time-bucket rates lie in [0, 100]; the step conversions are
    non-negative; a step conversion or content rate whose denominator is
    0 is exactly 0. *)
Theorem conversion_rates_within_bounds (hour_of : string -> nat)
    (day_name_of : string -> string) (cfg : Config.t) (df : DataFrame) :
  has_columns df = true -> rows df <> [] ->
  rates_within_bounds hour_of day_name_of cfg df.
Proof.
  intros Hdf Hrows. unfold rates_within_bounds. repeat split.
  - now apply stage_conversions_bounded.
  - now apply source_conversions_bounded.
  - now apply content_conversions_bounded.
  - now apply device_conversions_bounded.
  - now apply time_conversions_bounded.
Qed.

(** The amended C7 at the classified frame of [two_users]. *)
Lemma conversion_rates_within_bounds_witness :
  has_columns
    (classified_frame (classify_user_events default_classifier two_users)) = true
  /\ rows (classified_frame (classify_user_events default_classifier two_users))
     <> []
  /\ rates_within_bounds (fun _ => 10%nat) (fun _ => "Monday")
       Config._get_default_config
       (classified_frame (classify_user_events default_classifier two_users)).
Proof.
  split; [reflexivity|]. split; [vm_compute; discriminate|].
  apply (conversion_rates_within_bounds (fun _ => 10%nat) (fun _ => "Monday")
           Config._get_default_config
           (classified_frame (classify_user_events default_classifier two_users))).
  - reflexivity.
  - vm_compute. discriminate.
Defined.

End Spec.

(* ================================================================== *)
(** ** More about the stage classifier *)

Module ClassifierMore.
Import Pandas Classifier Scores ClassifierFacts.

(** The AWARENESS scores of an event whose source is not "(direct)", and
    the CONSIDERATION scores of an event whose source is "(direct)". *)
Definition awareness_external_scores : list float :=
  clamp_all (reachable [0.4; 0.3]%float
               (map (fun c => (c + 0.3)%float)
                    (reachable [0.8; 0.9]%float [0%float]))).

Definition consideration_direct_scores : list float :=
  clamp_all (map (fun c => (c + 0.2)%float)
               (reachable [0.8; 0.3; 0.2; 0.2; 0.3]%float [0%float])).

Definition is_no_stage (w : Winner) : bool :=
  match w with
  | NoStage => true
  | _ => false
  end.

(** Some stage wins, with a score of 0.2 at least. *)
Definition some_stage_wins (a b c d : float) : bool :=
  negb (is_no_stage (fst (winner a b c d)))
  && (0.2 <=? snd (winner a b c d))%float.

Lemma bump_true (w c : float) : bump true w c = (c + w)%float.
Proof. reflexivity. Qed.

Lemma awareness_external_in event context :
  (field sessionSource event =? "(direct)") = false ->
  In (_awareness_conditions event context) awareness_external_scores.
Proof.
  intros E. unfold _awareness_conditions, awareness_external_scores, clamp_all.
  rewrite E. simpl negb. rewrite bump_true.
  apply (in_map (fun c => py_min c 1)). cbn [reachable].
  do 2 apply bump_reachable.
  apply (in_map (fun c => (c + 0.3)%float)). cbn [reachable].
  repeat apply bump_reachable. now left.
Qed.

Lemma consideration_direct_in event context :
  (field sessionSource event =? "(direct)") = true ->
  In (_consideration_conditions event context) consideration_direct_scores.
Proof.
  intros E. unfold _consideration_conditions, consideration_direct_scores, clamp_all.
  rewrite E. rewrite bump_true.
  apply (in_map (fun c => py_min c 1)).
  apply (in_map (fun c => (c + 0.2)%float)). cbn [reachable].
  repeat apply bump_reachable. now left.
Qed.

Lemma forallb4 (P : float -> float -> float -> float -> bool)
    (la lb lc ld : list float) :
  forallb (fun a => forallb (fun b => forallb (fun c => forallb (fun d =>
    P a b c d) ld) lc) lb) la = true ->
  forall a b c d, In a la -> In b lb -> In c lc -> In d ld -> P a b c d = true.
Proof.
  intros H a b c d Ha Hb Hc Hd.
  rewrite forallb_forall in H. specialize (H a Ha).
  rewrite forallb_forall in H. specialize (H b Hb).
  rewrite forallb_forall in H. specialize (H c Hc).
  rewrite forallb_forall in H. exact (H d Hd).
Qed.

Lemma external_source_wins a b c d :
  In a awareness_external_scores -> In b interest_scores ->
  In c consideration_scores -> In d conversion_scores ->
  some_stage_wins a b c d = true.
Proof.
  apply (forallb4 some_stage_wins). vm_compute. reflexivity.
Qed.

Lemma direct_source_wins a b c d :
  In a awareness_scores -> In b interest_scores ->
  In c consideration_direct_scores -> In d conversion_scores ->
  some_stage_wins a b c d = true.
Proof.
  apply (forallb4 some_stage_wins). vm_compute. reflexivity.
Qed.

Lemma winner_name_unknown (w : Winner) :
  winner_name w = "UNKNOWN" -> is_no_stage w = true.
Proof. destruct w; simpl; intros E; first [reflexivity | discriminate E]. Qed.

Lemma single_event_some_stage (cfg : Config.t) (event_row : Row)
    (user_context : list Row) :
  fst (_classify_single_event (init cfg) event_row user_context) <> "UNKNOWN"
  /\ (0.2 <=? snd (_classify_single_event (init cfg) event_row user_context))%float
     = true.
Proof.
  rewrite classify_winner. simpl.
  assert (H : some_stage_wins (_awareness_conditions event_row user_context)
                (_interest_conditions cfg event_row user_context)
                (_consideration_conditions event_row user_context)
                (_conversion_conditions event_row user_context) = true).
  { destruct (field sessionSource event_row =? "(direct)") eqn:E.
    - apply direct_source_wins;
        [ apply awareness_in | apply interest_in
        | now apply consideration_direct_in | apply conversion_in ].
    - apply external_source_wins;
        [ now apply awareness_external_in | apply interest_in
        | apply consideration_in | apply conversion_in ]. }
  unfold some_stage_wins in H. apply andb_true_iff in H as [Hw Hc].
  split; [|exact Hc].
  intros E. apply winner_name_unknown in E. rewrite E in Hw. discriminate Hw.
Qed.

Lemma score_not_above_one x :
  In x all_scores -> (1 <? x)%float = false.
Proof.
  revert x.
  assert (H : forallb (fun x => negb (1 <? x)%float) all_scores = true)
    by (vm_compute; reflexivity).
  rewrite forallb_forall in H. intros x Hx. apply negb_true_iff. now apply H.
Qed.

(** An AWARENESS score of 1.0 settles the stage: no later stage can be
    strictly higher. *)
Lemma awareness_one_wins (cfg : Config.t) (event_row : Row)
    (user_context : list Row) :
  _awareness_conditions event_row user_context = 1%float ->
  _classify_single_event (init cfg) event_row user_context
  = ("AWARENESS", 1%float).
Proof.
  intros Ea.
  destruct (classify_first_highest cfg event_row user_context) as [w [-> Hw]].
  destruct (scores_listed cfg event_row user_context) as [_ [Hb [Hc Hd]]].
  rewrite Ea in *.
  destruct w; simpl in Hw |- *;
    repeat (apply andb_true_iff in Hw; destruct Hw as [Hw ?]);
    try reflexivity;
    try (vm_compute in Hw; discriminate Hw);
    match goal with
    | H : (1 <? ?x)%float = true |- _ =>
        rewrite score_not_above_one in H by assumption; discriminate H
    end.
Qed.

(** What the loop of [_classify_user_journey] writes into a row is the
    classification of that row's own event in some context. *)
Lemma classified_rows_by_event (cfg : Config.t) (events_df : list Event) (r : Row) :
  In r (classify_user_events (init cfg) events_df) ->
  exists row ctx,
    event r = event row
    /\ In row ctx
    /\ (funnel_stage r, stage_confidence r)
       = _classify_single_event (init cfg) row ctx.
Proof.
  rewrite classify_user_events_two_pass. unfold two_pass_classify, concat_ignore_index.
  intros Hr. apply in_map_iff in Hr as [[i r0] [<- Hr0]].
  apply in_combine_r in Hr0. apply in_concat in Hr0 as [block [Hblock Hr0]].
  apply in_map_iff in Hblock as [g [<- _]].
  unfold two_pass_journey in Hr0. apply in_map_iff in Hr0 as [row [<- Hrow]].
  exists row, (sort_by timestamp_leb (snd g)). simpl.
  unfold classify_row.
  destruct (_classify_single_event (init cfg) row (sort_by timestamp_leb (snd g))).
  simpl. repeat split. exact Hrow.
Qed.

End ClassifierMore.

(* ================================================================== *)
(** ** stage_classifier.py: the reports over a classified frame *)

Module Reports.
Import Pandas Classifier Calculator.

(** [series.unique()]: the distinct values in order of first appearance.
    ([nodup] keeps the last occurrence of a value, hence the reversals.) *)
Definition unique (l : list string) : list string :=
  rev (nodup string_dec (rev l)).

Definition stage_order : list string :=
  ["AWARENESS"; "INTEREST"; "CONSIDERATION"; "CONVERSION"].

(** [_get_highest_stage]: the loop over [reversed(stage_order)] *)
Definition _get_highest_stage (stages : list string) : string :=
  match find (fun stage => PyStr.mem stage stages) (rev stage_order) with
  | Some stage => stage
  | None => "NONE"
  end.

Module Progression.
Record t := {
  user_id : string;
  total_events : nat;
  unique_pages : nat;
  sessions : nat;
  stages_reached : nat;
  reached_awareness : bool;
  reached_interest : bool;
  reached_consideration : bool;
  reached_conversion : bool;
  highest_stage : string;
  first_source : string;
  first_medium : string
}.
End Progression.

(** The body of the loop of [get_user_funnel_progression] *)
Definition user_progression (events_df : DataFrame) (g : string * list Row)
  : Result Progression.t :=
  let (user_id, user_events) := g in
  require "funnel_stage" events_df ;;
  let stages_reached := unique (map funnel_stage user_events) in
  let stages_reached :=
    filter (fun s => negb (s =? "UNKNOWN")) stages_reached in
  require "pagePath" events_df ;;
  require "sessionId" events_df ;;
  first <- iloc0 user_events ;;
  require "sessionSource" events_df ;;
  require "sessionMedium" events_df ;;
  Ok {| Progression.user_id := user_id;
        Progression.total_events := List.length user_events;
        Progression.unique_pages := nunique (field pagePath) user_events;
        Progression.sessions := nunique (field sessionId) user_events;
        Progression.stages_reached := List.length stages_reached;
        Progression.reached_awareness := PyStr.mem "AWARENESS" stages_reached;
        Progression.reached_interest := PyStr.mem "INTEREST" stages_reached;
        Progression.reached_consideration := PyStr.mem "CONSIDERATION" stages_reached;
        Progression.reached_conversion := PyStr.mem "CONVERSION" stages_reached;
        Progression.highest_stage := _get_highest_stage stages_reached;
        Progression.first_source := field sessionSource first;
        Progression.first_medium := field sessionMedium first |}.

(** [get_user_funnel_progression].  The statistics it prints divide numpy
    sums, which does not raise; reading [progression_df['reached_conversion']]
    for them does, when the frame was built from no record. *)
Definition get_user_funnel_progression (events_df : DataFrame)
  : Result (list Progression.t) :=
  require "userPseudoId" events_df ;;
  user_progressions <-
    mapM (user_progression events_df)
         (groupby (field userPseudoId) (rows events_df)) ;;
  records_column "reached_conversion" user_progressions ;;
  Ok user_progressions.

Module Transitions.
Record rates := {
  awareness_to_interest : Q;
  interest_to_consideration : Q;
  consideration_to_conversion : Q
}.
Record t := {
  AWARENESS_to_INTEREST : nat;
  INTEREST_to_CONSIDERATION : nat;
  CONSIDERATION_to_CONVERSION : nat;
  total_users : nat;
  conversion_rates : rates
}.
End Transitions.

(** [stage in stages and next_stage in stages] on [funnel_stage.tolist()] *)
Definition both_stages (stage next_stage : string) (stages : list string) : bool :=
  PyStr.mem stage stages && PyStr.mem next_stage stages.

(** [analyze_stage_transitions] *)
Definition analyze_stage_transitions (events_df : DataFrame)
  : Result Transitions.t :=
  require "userPseudoId" events_df ;;
  let total_users := nunique (field userPseudoId) (rows events_df) in
  user_stages <-
    mapM (fun g : string * list Row =>
            require "funnel_stage" events_df ;;
            Ok (map funnel_stage (snd g)))
         (groupby (field userPseudoId) (rows events_df)) ;;
  let awareness_to_interest :=
    count_true (both_stages "AWARENESS" "INTEREST") user_stages in
  let interest_to_consideration :=
    count_true (both_stages "INTEREST" "CONSIDERATION") user_stages in
  let consideration_to_conversion :=
    count_true (both_stages "CONSIDERATION" "CONVERSION") user_stages in
  let total := total_users in
  rate1 <- percent awareness_to_interest total ;;
  rate2 <- percent interest_to_consideration total ;;
  rate3 <- percent consideration_to_conversion total ;;
  Ok {| Transitions.AWARENESS_to_INTEREST := awareness_to_interest;
        Transitions.INTEREST_to_CONSIDERATION := interest_to_consideration;
        Transitions.CONSIDERATION_to_CONVERSION := consideration_to_conversion;
        Transitions.total_users := total_users;
        Transitions.conversion_rates :=
          {| Transitions.awareness_to_interest := rate1;
             Transitions.interest_to_consideration := rate2;
             Transitions.consideration_to_conversion := rate3 |} |}.

End Reports.

(* ================================================================== *)
(** ** Facts about the reports *)

Module ReportsFacts.
Import Pandas Classifier Calculator CalculatorFacts Reports.

Lemma unique_In (l : list string) (x : string) : In x (unique l) <-> In x l.
Proof.
  unfold unique. rewrite <- in_rev, nodup_In, <- in_rev. reflexivity.
Qed.

Lemma unique_NoDup (l : list string) : NoDup (unique l).
Proof. unfold unique. apply NoDup_rev, NoDup_nodup. Qed.

Lemma mem_iff_In (x : string) (l : list string) : PyStr.mem x l = true <-> In x l.
Proof.
  unfold PyStr.mem. rewrite existsb_exists. split.
  - intros [y [Hy E]]. apply String.eqb_eq in E. now subst.
  - intros Hx. exists x. split; [exact Hx | apply String.eqb_refl].
Qed.

Lemma mem_ext (x : string) (l l' : list string) :
  (forall s, In s l <-> In s l') -> PyStr.mem x l = PyStr.mem x l'.
Proof.
  intros H. destruct (PyStr.mem x l') eqn:E.
  - apply mem_iff_In. apply H. now apply mem_iff_In.
  - destruct (PyStr.mem x l) eqn:E'; [|reflexivity].
    apply mem_iff_In in E'. apply H in E'. apply mem_iff_In in E'. congruence.
Qed.

(** [_get_highest_stage] as a decision on the four membership tests *)
Lemma highest_stage_cases (stages : list string) :
  _get_highest_stage stages
  = if PyStr.mem "CONVERSION" stages then "CONVERSION"
    else if PyStr.mem "CONSIDERATION" stages then "CONSIDERATION"
    else if PyStr.mem "INTEREST" stages then "INTEREST"
    else if PyStr.mem "AWARENESS" stages then "AWARENESS"
    else "NONE".
Proof.
  unfold _get_highest_stage. simpl.
  destruct (PyStr.mem "CONVERSION" stages); [reflexivity|].
  destruct (PyStr.mem "CONSIDERATION" stages); [reflexivity|].
  destruct (PyStr.mem "INTEREST" stages); [reflexivity|].
  now destruct (PyStr.mem "AWARENESS" stages).
Qed.

(** A duplicate-free list of funnel stages is as long as the number of
    stages that occur in it. *)
Lemma stage_list_length (stages : list string) :
  NoDup stages -> (forall s, In s stages -> In s stage_order) ->
  List.length stages
  = (Nat.b2n (PyStr.mem "AWARENESS" stages) + Nat.b2n (PyStr.mem "INTEREST" stages)
     + Nat.b2n (PyStr.mem "CONSIDERATION" stages)
     + Nat.b2n (PyStr.mem "CONVERSION" stages))%nat.
Proof.
  intros Hnd Hin.
  assert (Hperm : Permutation stages
                    (filter (fun s => PyStr.mem s stages) stage_order)).
  { apply NoDup_Permutation; [exact Hnd | |].
    - apply NoDup_filter. unfold stage_order.
      repeat constructor; simpl; intuition discriminate.
    - intros s. rewrite filter_In, mem_iff_In. split; [|tauto].
      intros Hs. split; [now apply Hin | exact Hs]. }
  rewrite (Permutation_length Hperm). unfold stage_order. simpl.
  destruct (PyStr.mem "AWARENESS" stages), (PyStr.mem "INTEREST" stages),
    (PyStr.mem "CONSIDERATION" stages), (PyStr.mem "CONVERSION" stages);
    reflexivity.
Qed.

Lemma mapM_Forall2 {A B} (f : A -> Result B) (R : A -> B -> Prop) (l : list A) :
  (forall x, In x l -> exists y, f x = Ok y /\ R x y) ->
  exists ys, mapM f l = Ok ys /\ Forall2 R l ys.
Proof.
  induction l as [|x l IH]; intros Hf; simpl.
  - exists []. split; [reflexivity | constructor].
  - destruct (Hf x (or_introl eq_refl)) as [y [Ey Ry]].
    destruct IH as [ys [Eys HR]].
    { intros z Hz. apply Hf. now right. }
    exists (y :: ys). rewrite Ey, Eys. simpl. split; [reflexivity|].
    now constructor.
Qed.

Lemma mapM_ok_map {A B} (f : A -> Result B) (g : A -> B) (l : list A) :
  (forall x, In x l -> f x = Ok (g x)) -> mapM f l = Ok (map g l).
Proof.
  induction l as [|x l IH]; intros Hf; simpl; [reflexivity|].
  rewrite Hf by now left. simpl. rewrite IH; [reflexivity|].
  intros y Hy. apply Hf. now right.
Qed.

Lemma Forall2_map_eq {A B C} (f : A -> C) (g : B -> C) (l : list A) (l' : list B) :
  Forall2 (fun x y => g y = f x) l l' -> map g l' = map f l.
Proof. induction 1; simpl; congruence. Qed.

Lemma Forall2_Forall_r {A B} (R : A -> B -> Prop) (P : B -> Prop)
    (l : list A) (l' : list B) :
  Forall2 R l l' -> (forall x y, In x l -> R x y -> P y) -> Forall P l'.
Proof.
  induction 1 as [|x y l l' Hxy HF IH]; intros HP; constructor.
  - apply (HP x y); [now left | exact Hxy].
  - apply IH. intros a b Ha. apply HP. now right.
Qed.

Lemma Forall2_weaken {A B} (R R' : A -> B -> Prop) (l : list A) (l' : list B) :
  (forall x y, R x y -> R' x y) -> Forall2 R l l' -> Forall2 R' l l'.
Proof. intros H. induction 1; constructor; auto. Qed.

(** The stages a user reached: distinct, UNKNOWN left out. *)
Definition reached_stages (user_events : list Row) : list string :=
  filter (fun s => negb (s =? "UNKNOWN")) (unique (map funnel_stage user_events)).

Lemma reached_stages_In (user_events : list Row) (s : string) :
  In s (reached_stages user_events) <->
  s <> "UNKNOWN" /\ exists r, In r user_events /\ funnel_stage r = s.
Proof.
  unfold reached_stages. rewrite filter_In, unique_In, in_map_iff, negb_true_iff.
  rewrite String.eqb_neq. split.
  - intros [[r [E Hr]] Hs]. split; [exact Hs | now exists r].
  - intros [Hs [r [Hr E]]]. split; [now exists r | exact Hs].
Qed.

Lemma reached_stages_NoDup (user_events : list Row) :
  NoDup (reached_stages user_events).
Proof. unfold reached_stages. apply NoDup_filter, unique_NoDup. Qed.

(** What a row of the progression report says about its user. *)
Definition progression_of (g : string * list Row) (p : Progression.t) : Prop :=
  Progression.user_id p = fst g
  /\ Progression.total_events p = List.length (snd g)
  /\ Progression.stages_reached p = List.length (reached_stages (snd g))
  /\ Progression.reached_awareness p = PyStr.mem "AWARENESS" (reached_stages (snd g))
  /\ Progression.reached_interest p = PyStr.mem "INTEREST" (reached_stages (snd g))
  /\ Progression.reached_consideration p
     = PyStr.mem "CONSIDERATION" (reached_stages (snd g))
  /\ Progression.reached_conversion p = PyStr.mem "CONVERSION" (reached_stages (snd g))
  /\ Progression.highest_stage p = _get_highest_stage (reached_stages (snd g)).

Lemma user_progression_of (df : DataFrame) (g : string * list Row) :
  has_columns df = true -> snd g <> [] ->
  exists p, user_progression df g = Ok p /\ progression_of g p.
Proof.
  intros Hdf Hne. destruct g as [user_id user_events]. simpl in Hne.
  unfold user_progression. column_present_only Hdf.
  do 2 column_present_only Hdf.
  destruct user_events as [|first rest]; [now destruct Hne|].
  cbn [iloc0 bind]. do 2 column_present_only Hdf.
  eexists. split; [reflexivity|]. unfold progression_of. simpl. repeat split.
Qed.

Lemma funnel_progression_rows (df : DataFrame) :
  has_columns df = true -> rows df <> [] ->
  exists ps,
    get_user_funnel_progression df = Ok ps
    /\ Forall2 progression_of (groupby (field userPseudoId) (rows df)) ps.
Proof.
  intros Hdf Hrows. unfold get_user_funnel_progression. column_present_only Hdf.
  destruct (mapM_Forall2 (user_progression df) progression_of
              (groupby (field userPseudoId) (rows df))) as [ps [-> HF]].
  { intros g Hg. apply user_progression_of; [exact Hdf|].
    now apply PandasFacts.groupby_In in Hg as [_ [Hne _]]. }
  cbn [bind].
  pose proof (groupby_not_nil (field userPseudoId) (rows df) Hrows) as Hg.
  destruct ps as [|p ps].
  - inversion HF as [E|]. now rewrite <- E in Hg.
  - simpl. eexists. split; [reflexivity | exact HF].
Qed.

Lemma list_sum_lengths {A} (l : list (list A)) :
  list_sum (map (@List.length A) l) = List.length (List.concat l).
Proof.
  induction l as [|x l IH]; simpl; [reflexivity|].
  now rewrite length_app, IH.
Qed.

End ReportsFacts.

(* ================================================================== *)
(** ** conversion_calculator.py: the summary *)

Module Summary.
Import Pandas Classifier Calculator.

Module Opportunity.
Record t := {
  type : string;
  description : string;
  priority : string;
  recommended_action : string
}.
End Opportunity.

Record BySource := {
  source_top_performers : list SourceRow.t;
  total_sources : nat;
  source_avg_conversion_rate : np_float
}.

Record ByContent := {
  content_top_performers : list ContentRow.t;
  total_content : nat;
  content_avg_conversion_rate : Q
}.

(** The dictionary [generate_conversion_summary] returns; [None] stands
    for the [{}] a key is initialised with. *)
Record t := {
  overview : StageOutput;
  by_source : option BySource;
  by_content : option ByContent;
  by_device : option (list DeviceRow.t);
  by_time : TimeOutput;
  optimization_opportunities : list Opportunity.t
}.

(** [x > threshold] on a numpy float; comparisons with [nan] are false *)
Definition np_gtb (x : np_float) (threshold : Q) : bool :=
  match x with
  | Finite q => Qgtb q threshold
  | NaN => false
  | PosInf => true
  end.

(** [a < b] on rationals *)
Definition Qltb (a b : Q) : bool := negb (Qle_bool b a).

Fixpoint Qsum (l : list Q) : Q :=
  match l with
  | [] => 0
  | q :: l' => q + Qsum l'
  end.

(** [series.mean()] on a column of numpy floats: [nan] entries are
    skipped, an infinite entry makes the mean infinite. *)
Definition np_mean (l : list np_float) : np_float :=
  let values := filter (fun x => match x with NaN => false | _ => true end) l in
  match values with
  | [] => NaN
  | _ =>
      if existsb (fun x => match x with PosInf => true | _ => false end) values
      then PosInf
      else Finite (Qsum (flat_map (fun x => match x with
                                            | Finite q => [q]
                                            | _ => []
                                            end) values)
                   / Qnat (List.length values))
  end.

(** [series.mean()] on a non-empty column of Python numbers *)
Definition Qmean (l : list Q) : Q := Qsum l / Qnat (List.length l).

(** [min(items, key=key)]: the first item with the least key *)
Definition min_by {A} (key : A -> Q) (items : list A) : option A :=
  match items with
  | [] => None
  | x :: rest =>
      Some (fold_left (fun best y => if Qltb (key y) (key best) then y else best)
                      rest x)
  end.

(** [step_rates.items()]; the dictionary of an error result has no
    ['step_conversions'] key and [get] returns [{}]. *)
Definition step_items (stage_conversions : StageOutput) : list (string * Q) :=
  match stage_conversions with
  | StageError _ => []
  | StageConversions r =>
      [ ("awareness_to_interest", awareness_to_interest (step_conversions r));
        ("interest_to_consideration",
         interest_to_consideration (step_conversions r));
        ("consideration_to_conversion",
         consideration_to_conversion (step_conversions r)) ]
  end.

Section Formatting.
(** The format specification [:.1f] of an f-string, on a Python number
    and on a numpy float; and the two pandas timestamp accessors. *)
Variable format_1f : Q -> string.
Variable np_format_1f : np_float -> string.
Variable hour_of : string -> nat.
Variable day_name_of : string -> string.

Definition _identify_optimization_opportunities (stage_conversions : StageOutput)
    (source_conversions : list SourceRow.t)
    (content_conversions : list ContentRow.t) : list Opportunity.t :=
  let step_rates := step_items stage_conversions in
  let bottleneck := min_by snd step_rates in
  let opportunities :=
    match bottleneck with
    | Some b =>
        if Qltb (snd b) 50 then
          [ {| Opportunity.type := "Funnel Bottleneck";
               Opportunity.description :=
                 "주요 병목: " ++ fst b ++ " (" ++ format_1f (snd b) ++ "%)";
               Opportunity.priority := "High";
               Opportunity.recommended_action := fst b ++ " 단계 최적화 필요" |} ]
        else []
    | None => []
    end in
  let opportunities :=
    match source_conversions with
    | [] => opportunities
    | _ =>
        let high_performers :=
          filter (fun source =>
                    np_gtb (SourceRow.conversion_rate source) 15
                    && Nat.ltb (SourceRow.total_users source) 100)
                 source_conversions in
        (opportunities ++
         map (fun source =>
                {| Opportunity.type := "Scale High Performer";
                   Opportunity.description :=
                     SourceRow.source_medium source ++ " 확장 기회 ("
                     ++ np_format_1f (SourceRow.conversion_rate source)
                     ++ "% 전환율)";
                   Opportunity.priority := "Medium";
                   Opportunity.recommended_action :=
                     SourceRow.source_medium source ++ " 예산/노력 증대" |})
             high_performers)%list
    end in
  let opportunities :=
    match content_conversions with
    | [] => opportunities
    | _ =>
        let low_performers :=
          filter (fun content =>
                    Qltb (ContentRow.conversion_rate content) 5
                    && Nat.ltb 50 (ContentRow.total_users content))
                 content_conversions in
        (opportunities ++
         map (fun content =>
                {| Opportunity.type := "Content Optimization";
                   Opportunity.description :=
                     ContentRow.page_path content ++ " 개선 필요 ("
                     ++ format_1f (ContentRow.conversion_rate content)
                     ++ "% 전환율)";
                   Opportunity.priority := "Medium";
                   Opportunity.recommended_action :=
                     "콘텐츠 품질 개선 또는 CTA 강화" |})
             low_performers)%list
    end in
  firstn 10 opportunities.

(** (The second parameter of the source, [conversion_events], is only
    handed to [calculate_stage_conversions], which never reads it.) *)
Definition generate_conversion_summary (config : Config.t)
    (classified_df : DataFrame) : Result t :=
  stage_conversions <- calculate_stage_conversions classified_df ;;
  source_conversions <- calculate_source_conversions config classified_df ;;
  let by_source :=
    match source_conversions with
    | [] => None
    | _ =>
        Some {| source_top_performers := firstn 5 source_conversions;
                total_sources := List.length source_conversions;
                source_avg_conversion_rate :=
                  np_mean (map SourceRow.conversion_rate source_conversions) |}
    end in
  content_conversions <- calculate_content_conversions classified_df ;;
  let by_content :=
    match content_conversions with
    | [] => None
    | _ =>
        Some {| content_top_performers := firstn 5 content_conversions;
                total_content := List.length content_conversions;
                content_avg_conversion_rate :=
                  Qmean (map ContentRow.conversion_rate content_conversions) |}
    end in
  device_conversions <- calculate_device_conversions classified_df ;;
  let by_device :=
    match device_conversions with
    | [] => None
    | _ => Some device_conversions
    end in
  time_conversions <-
    calculate_time_based_conversions hour_of day_name_of classified_df ;;
  Ok {| overview := stage_conversions;
        by_source := by_source;
        by_content := by_content;
        by_device := by_device;
        by_time := time_conversions;
        optimization_opportunities :=
          _identify_optimization_opportunities stage_conversions
            source_conversions content_conversions |}.

End Formatting.

End Summary.

(* ================================================================== *)
(** ** pattern_analyzer.py: the analyses of the classified frame *)

Module Patterns.
Import Pandas Classifier Calculator.

(** [df.iloc[-1]] *)
Definition iloc_last {A} (records : list A) : Result A :=
  match rev records with
  | [] => Raise IndexError
  | r :: _ => Ok r
  end.

(** *** _calculate_engagement_score *)

(** The score is a Python float; every term is a multiple of 0.5, which
    floats add exactly. *)
Definition _calculate_engagement_score (df : DataFrame) (user_events : list Row)
  : Result Q :=
  let score := 0%Q in
  require "eventName" df ;;
  let unique_events := nunique (field eventName) user_events in
  let score := (score + Qnat unique_events * 2)%Q in
  require "pagePath" df ;;
  let unique_pages := nunique (field pagePath) user_events in
  let score := (score + Qnat unique_pages * (3 # 2))%Q in
  let engagement_events :=
    filter (fun r => PyStr.mem (field eventName r) ["user_engagement"; "visit_blog"])
           user_events in
  let score := (score + Qnat (List.length engagement_events) * 3)%Q in
  let score :=
    if PyStr.mem "sessionId" (columns df) then
      let unique_sessions := nunique (field sessionId) user_events in
      (score + Qnat unique_sessions * 5)%Q
    else score in
  Ok score.

(** *** _identify_drop_off_points *)

Module LastStage.
Record t := {
  user_id : string;
  last_stage : string;
  last_page : string;
  last_source : string;
  total_events : nat
}.
End LastStage.

Module DropOff.
Record page := {
  page_path : string;
  count : nat;
  percentage : np_float
}.
Record t := {
  stage : string;
  total_dropoffs : nat;
  dropoff_rate : Q;
  top_dropoff_pages : list page
}.
End DropOff.

Definition stage_order : list string :=
  ["AWARENESS"; "INTEREST"; "CONSIDERATION"; "CONVERSION"].

(** The body of the first loop: the record appended for a user, if any. *)
Definition user_last_stage (classified_df : DataFrame) (g : string * list Row)
  : Result (option LastStage.t) :=
  let (user_id, user_events) := g in
  require "funnel_stage" classified_df ;;
  let stages := map funnel_stage user_events in
  let valid_stages := filter (fun s => negb (s =? "UNKNOWN")) stages in
  match valid_stages with
  | [] => Ok None
  | _ =>
      match find (fun stage => PyStr.mem stage valid_stages) (rev stage_order) with
      | Some last_stage =>
          if negb (last_stage =? "CONVERSION") then
            last <- iloc_last user_events ;;
            require "pagePath" classified_df ;;
            first <- iloc0 user_events ;;
            require "sessionSource" classified_df ;;
            Ok (Some {| LastStage.user_id := user_id;
                        LastStage.last_stage := last_stage;
                        LastStage.last_page := field pagePath last;
                        LastStage.last_source := field sessionSource first;
                        LastStage.total_events := List.length user_events |})
          else Ok None
      | None => Ok None
      end
  end.

Definition somes {A} (l : list (option A)) : list A :=
  flat_map (fun o => match o with Some x => [x] | None => [] end) l.

Section ValueCounts.
(** [series.value_counts().items()], which belongs to pandas: the distinct
    values with their counts, most frequent first. *)
Variable value_counts : list string -> list (string * nat).

(** The body of the second loop: the record appended for a stage, if any. *)
Definition stage_drop_off (user_last_stages : list LastStage.t) (stage : string)
  : Result (option DropOff.t) :=
  let stage_dropoffs :=
    filter (fun u => LastStage.last_stage u =? stage) user_last_stages in
  match stage_dropoffs with
  | [] => Ok None
  | _ =>
      let top_dropoff_pages :=
        firstn 5 (value_counts (map LastStage.last_page stage_dropoffs)) in
      dropoff_rate <-
        percent (List.length stage_dropoffs) (List.length user_last_stages) ;;
      Ok (Some {| DropOff.stage := stage;
                  DropOff.total_dropoffs := List.length stage_dropoffs;
                  DropOff.dropoff_rate := dropoff_rate;
                  DropOff.top_dropoff_pages :=
                    map (fun pc : string * nat =>
                           {| DropOff.page_path := fst pc;
                              DropOff.count := snd pc;
                              DropOff.percentage :=
                                np_percent (snd pc) (List.length stage_dropoffs) |})
                        top_dropoff_pages |})
  end.

Definition _identify_drop_off_points (classified_df : DataFrame)
  : Result (list DropOff.t) :=
  require "userPseudoId" classified_df ;;
  user_last_stages <-
    mapM (user_last_stage classified_df)
         (groupby (field userPseudoId) (rows classified_df)) ;;
  let user_last_stages := somes user_last_stages in
  match user_last_stages with
  | [] => Ok []
  | _ =>
      drop_off_points <-
        mapM (stage_drop_off user_last_stages)
             ["AWARENESS"; "INTEREST"; "CONSIDERATION"] ;;
      Ok (somes drop_off_points)
  end.

End ValueCounts.

(** *** _identify_high_value_segments *)

Module Features.
Record t := {
  user_id : string;
  converted : bool;
  total_events : nat;
  unique_pages : nat;
  sessions : nat;
  source : string;
  medium : string;
  traffic_group : string;
  stages_reached : nat;
  has_content_engagement : bool;
  has_service_exploration : bool
}.
End Features.

Module Segment.
Record t := {
  segment_name : string;
  description : string;
  users_count : nat;
  conversions : nat;
  conversion_rate : np_float;
  avg_events : np_float;
  avg_pages : np_float;
  segment_value : np_float
}.
End Segment.

(** A segment definition; [column] is the first column of [users_df] its
    condition reads. *)
Record SegmentDef := {
  def_name : string;
  def_column : string;
  def_condition : Features.t -> bool;
  def_description : string
}.

Definition segment_definitions : list SegmentDef :=
  [ {| def_name := "High Engagement + Content Lovers";
       def_column := "total_events";
       def_condition := fun u =>
         (10 <=? Features.total_events u)%nat && Features.has_content_engagement u;
       def_description := "높은 참여도 + 콘텐츠 소비" |};
    {| def_name := "Multi-Session Explorers";
       def_column := "sessions";
       def_condition := fun u => (2 <=? Features.sessions u)%nat;
       def_description := "다중 세션 탐색자" |};
    {| def_name := "Paid Traffic High Intent";
       def_column := "traffic_group";
       def_condition := fun u =>
         (Features.traffic_group u =? "paid_search")
         && (3 <=? Features.stages_reached u)%nat;
       def_description := "유료 트래픽 고의도 사용자" |};
    {| def_name := "Content to Service Path";
       def_column := "has_content_engagement";
       def_condition := fun u =>
         Features.has_content_engagement u && Features.has_service_exploration u;
       def_description := "콘텐츠→서비스 탐색 경로" |} ].

(** [len(set(stages) - {'UNKNOWN'})] *)
Definition distinct_stages (stages : list string) : nat :=
  List.length (filter (fun s => negb (s =? "UNKNOWN")) (nodup string_dec stages)).

Definition user_features (config : Config.t) (classified_df : DataFrame)
    (g : string * list Row) : Result Features.t :=
  let (user_id, user_events) := g in
  require "funnel_stage" classified_df ;;
  let converted := has_stage "CONVERSION" user_events in
  require "pagePath" classified_df ;;
  let sessions :=
    if PyStr.mem "sessionId" (columns classified_df)
    then nunique (field sessionId) user_events else 1%nat in
  first <- iloc0 user_events ;;
  require "sessionSource" classified_df ;;
  require "sessionMedium" classified_df ;;
  Ok {| Features.user_id := user_id;
        Features.converted := converted;
        Features.total_events := List.length user_events;
        Features.unique_pages := nunique (field pagePath) user_events;
        Features.sessions := sessions;
        Features.source := field sessionSource first;
        Features.medium := field sessionMedium first;
        Features.traffic_group :=
          Config.get_traffic_group config (field sessionSource first)
            (field sessionMedium first);
        Features.stages_reached := distinct_stages (map funnel_stage user_events);
        Features.has_content_engagement := has_stage "INTEREST" user_events;
        Features.has_service_exploration := has_stage "CONSIDERATION" user_events |}.

(** [rate * n] on a numpy float *)
Definition np_scale (x : np_float) (n : nat) : np_float :=
  match x with
  | Finite q => Finite (q * Qnat n)
  | other => other
  end.

(** The body of the loop over the segment definitions *)
Definition segment_of (users_df : list Features.t) (segment_def : SegmentDef)
  : Result (option Segment.t) :=
  records_column (def_column segment_def) users_df ;;
  let segment_users := filter (def_condition segment_def) users_df in
  if (20 <=? List.length segment_users)%nat then
    let conversion_rate :=
      np_percent (count_true Features.converted segment_users)
                 (List.length segment_users) in
    Ok (Some {| Segment.segment_name := def_name segment_def;
                Segment.description := def_description segment_def;
                Segment.users_count := List.length segment_users;
                Segment.conversions :=
                  count_true Features.converted segment_users;
                Segment.conversion_rate := conversion_rate;
                Segment.avg_events :=
                  mean (map Features.total_events segment_users);
                Segment.avg_pages :=
                  mean (map Features.unique_pages segment_users);
                Segment.segment_value :=
                  np_scale conversion_rate (List.length segment_users) |})
  else Ok None.

Definition _identify_high_value_segments (config : Config.t)
    (classified_df : DataFrame) : Result (list Segment.t) :=
  require "userPseudoId" classified_df ;;
  users_df <-
    mapM (user_features config classified_df)
         (groupby (field userPseudoId) (rows classified_df)) ;;
  segments <- mapM (segment_of users_df) segment_definitions ;;
  let segments := somes segments in
  (* [segments.sort(key=..., reverse=True)] is stable *)
  let segments :=
    sort_by (fun x y => np_desc (Segment.segment_value x) (Segment.segment_value y))
            segments in
  Ok (firstn 5 segments).

End Patterns.

(* ================================================================== *)
(** ** Further properties of the code *)

Module Extra.
Import Pandas Classifier Scores ClassifierFacts ClassifierMore Calculator
  CalculatorFacts Examples.

(** *** Stage classifier *)

(** X1: since AWARENESS gains 0.3 when the source is not "(direct)" and
    CONSIDERATION gains 0.2 when it is, some stage always scores: no event
    is classified UNKNOWN and every assigned confidence is at least 0.2,
    for one event and for every row of a classified frame. *)
Theorem every_event_gets_a_stage (cfg : Config.t) :
  (forall event_row user_context,
     fst (_classify_single_event (init cfg) event_row user_context) <> "UNKNOWN"
     /\ (0.2 <=? snd (_classify_single_event (init cfg) event_row user_context))%float
        = true)
  /\ (forall events_df,
        Forall (fun r => funnel_stage r <> "UNKNOWN"
                         /\ (0.2 <=? stage_confidence r)%float = true)
               (classify_user_events (init cfg) events_df)).
Proof.
  split.
  - intros event_row user_context. apply single_event_some_stage.
  - intros events_df.
    apply (classify_user_events_lift (init cfg)
             (fun stage confidence =>
                stage <> "UNKNOWN" /\ (0.2 <=? confidence)%float = true)).
    intros row ctx. apply single_event_some_stage.
Qed.

Lemma mem_In (x : string) (l : list string) : PyStr.mem x l = true <-> In x l.
Proof.
  unfold PyStr.mem. rewrite existsb_exists. split.
  - intros [y [Hy E]]. apply String.eqb_eq in E. now subst.
  - intros Hx. exists x. split; [exact Hx | apply String.eqb_refl].
Qed.

(** The event is the first row of its context. *)
Definition first_of (event_row : Row) (user_context : list Row) : Prop :=
  exists first_event rest,
    user_context = first_event :: rest /\ name event_row = name first_event.

(** X2: a session_start or first_visit event that comes from a source
    other than "(direct)", or lies on a landing page, or is the first row
    of its user's frame, is classified AWARENESS with confidence 1.0,
    whatever the other stages score. *)
Theorem session_start_is_awareness (cfg : Config.t) (event_row : Row)
    (user_context : list Row) :
  In (field eventName event_row) ["session_start"; "first_visit"] ->
  (field sessionSource event_row <> "(direct)"
   \/ In (field pagePath event_row) ["/"; "/skill-guide/one-click"]
   \/ first_of event_row user_context) ->
  _classify_single_event (init cfg) event_row user_context
  = ("AWARENESS", 1%float).
Proof.
  intros Hname Hsignal. apply awareness_one_wins.
  unfold _awareness_conditions.
  set (external := negb (field sessionSource event_row =? "(direct)")).
  set (landing := PyStr.mem (field pagePath event_row) ["/"; "/skill-guide/one-click"]).
  set (is_first := match user_context with
                   | [] => false
                   | first_event :: _ => Nat.eqb (name event_row) (name first_event)
                   end).
  assert (Hs : external || landing || is_first = true).
  { destruct Hsignal as [Hsrc | [Hland | [first_event [rest [-> Hn]]]]].
    - unfold external. apply String.eqb_neq in Hsrc. now rewrite Hsrc.
    - unfold landing. apply mem_In in Hland. rewrite Hland.
      now destruct external.
    - unfold is_first. rewrite Hn, Nat.eqb_refl. apply orb_true_r. }
  destruct Hname as [<- | [<- | []]];
    destruct external, landing, is_first; try discriminate Hs;
    vm_compute; reflexivity.
Qed.

(** X2 at a session start from google on the home page. *)
Lemma session_start_is_awareness_witness :
  In (field eventName (hd signup_row long_journey_frame))
     ["session_start"; "first_visit"]
  /\ _classify_single_event default_classifier
       (hd signup_row long_journey_frame) long_journey_frame
     = ("AWARENESS", 1%float).
Proof.
  split; [now left|].
  apply (session_start_is_awareness Config._get_default_config
           (hd signup_row long_journey_frame) long_journey_frame).
  - now left.
  - left. discriminate.
Defined.

(** What an event must be to score for CONVERSION: the conversion event,
    or a page view or engagement on the sign-up page. *)
Definition conversion_signal (e : Event) : Prop :=
  eventName e = conversion_event_name
  \/ (pagePath e = "/provider-join"
      /\ (eventName e = "page_view" \/ eventName e = "user_engagement")).

Lemma conversion_stage_signal (cfg : Config.t) (event_row : Row)
    (user_context : list Row) :
  fst (_classify_single_event (init cfg) event_row user_context) = "CONVERSION" ->
  conversion_signal (event event_row).
Proof.
  destruct (classify_first_highest cfg event_row user_context) as [w [-> Hw]].
  simpl. intros Hname.
  destruct w; try discriminate Hname. simpl in Hw.
  repeat (apply andb_true_iff in Hw; destruct Hw as [Hw ?]).
  revert Hw. unfold _conversion_conditions, conversion_signal, field.
  destruct (eventName (event event_row) =? conversion_event_name) eqn:E1;
    [apply String.eqb_eq in E1; now left|].
  destruct (pagePath (event event_row) =? "/provider-join") eqn:E2;
    [apply String.eqb_eq in E2 | vm_compute; discriminate].
  destruct (eventName (event event_row) =? "page_view") eqn:E3;
    [apply String.eqb_eq in E3; now right; split; [|left]|].
  destruct (eventName (event event_row) =? "user_engagement") eqn:E4;
    [apply String.eqb_eq in E4; now right; split; [|right]|].
  vm_compute; discriminate.
Qed.

(** A user who opens the sign-up page directly after a session start and
    never signs up. *)
Definition signup_page_visitor : list Event :=
  [ mk_event "A" "session_start" "/" "(direct)" "2024-01-01 10:00:00";
    mk_event "A" "page_view" "/provider-join" "(direct)" "2024-01-01 10:01:00" ].

(** A user whose only event is a view of the sign-up page. *)
Definition signup_page_only : list Event :=
  [ mk_event "A" "page_view" "/provider-join" "(direct)" "2024-01-01 10:00:00" ].

(** X3: an event is classified CONVERSION only if it is the conversion
    event or a page view or engagement on "/provider-join", for one event
    and for every row of a classified frame.  The second case happens: for
    a "(direct)" visitor with two events, a session start on "/" and then
    a page view of "/provider-join", the page view is a CONVERSION row
    with confidence 0.3 and the visitor is counted as converted in the
    stage funnel.  The page view alone is not enough: when it is the
    visitor's only event it is an AWARENESS row with confidence 0.3 (the
    score of a user's first event ties with it, and AWARENESS is met
    first), and the funnel counts no converted user. *)
Theorem conversion_stage_needs_signal (cfg : Config.t) :
  (forall event_row user_context,
     fst (_classify_single_event (init cfg) event_row user_context) = "CONVERSION" ->
     conversion_signal (event event_row))
  /\ (forall events_df,
        Forall (fun r => funnel_stage r = "CONVERSION" -> conversion_signal (event r))
               (classify_user_events (init cfg) events_df))
  /\ stages (classify_user_events default_classifier signup_page_visitor)
     = [ ("session_start", "AWARENESS", 1%float);
         ("page_view", "CONVERSION", (0 + 0.3)%float) ]
  /\ (exists r,
       calculate_stage_conversions
         (classified_frame (classify_user_events default_classifier signup_page_visitor))
       = Ok (StageConversions r)
       /\ conversion (stage_counts r) = 1%nat)
  /\ stages (classify_user_events default_classifier signup_page_only)
     = [ ("page_view", "AWARENESS", (0 + 0.3)%float) ]
  /\ exists r,
       calculate_stage_conversions
         (classified_frame (classify_user_events default_classifier signup_page_only))
       = Ok (StageConversions r)
       /\ conversion (stage_counts r) = 0%nat.
Proof.
  split; [|split; [|split; [|split; [|split]]]].
  - intros event_row user_context. apply conversion_stage_signal.
  - intros events_df. apply Forall_forall. intros r Hr Hstage.
    apply classified_rows_by_event in Hr as [row [ctx [He [_ Hc]]]].
    rewrite He. apply (conversion_stage_signal cfg row ctx).
    rewrite <- Hc. exact Hstage.
  - vm_compute. reflexivity.
  - eexists. split; [vm_compute; reflexivity | reflexivity].
  - vm_compute. reflexivity.
  - eexists. split; [vm_compute; reflexivity | reflexivity].
Qed.

(** *** Reports over a classified frame *)

Import Reports ReportsFacts.

(** X4: [_get_highest_stage] returns "NONE" exactly when none of the four
    stages is in the list; otherwise it returns a stage of the list, and
    CONVERSION whenever CONVERSION is in it; other labels, order and
    repetition do not matter. *)
Theorem highest_stage_by_membership (stages : list string) :
  (_get_highest_stage stages = "NONE" <->
   forall s, In s stage_order -> ~ In s stages)
  /\ (_get_highest_stage stages <> "NONE" ->
      In (_get_highest_stage stages) stages
      /\ In (_get_highest_stage stages) stage_order)
  /\ (In "CONVERSION" stages <-> _get_highest_stage stages = "CONVERSION")
  /\ (forall stages',
        (forall s, In s stages <-> In s stages') ->
        _get_highest_stage stages = _get_highest_stage stages').
Proof.
  assert (Hnone : _get_highest_stage stages = "NONE" <->
                  PyStr.mem "AWARENESS" stages = false
                  /\ PyStr.mem "INTEREST" stages = false
                  /\ PyStr.mem "CONSIDERATION" stages = false
                  /\ PyStr.mem "CONVERSION" stages = false).
  { rewrite highest_stage_cases.
    destruct (PyStr.mem "CONVERSION" stages), (PyStr.mem "CONSIDERATION" stages),
      (PyStr.mem "INTEREST" stages), (PyStr.mem "AWARENESS" stages);
      split; intros H; try discriminate H; try reflexivity;
      try (repeat split; reflexivity);
      destruct H as [H1 [H2 [H3 H4]]]; discriminate. }
  split; [|split; [|split]].
  - rewrite Hnone. unfold stage_order. split.
    + intros [Ha [Hi [Hc Hv]]] s Hs Hin. apply mem_iff_In in Hin.
      simpl in Hs. destruct Hs as [<- | [<- | [<- | [<- | []]]]]; congruence.
    + intros H. repeat split;
        match goal with
        | |- PyStr.mem ?x stages = false =>
            destruct (PyStr.mem x stages) eqn:E; [|reflexivity];
            apply mem_iff_In in E; exfalso; apply (H x); [simpl; tauto | exact E]
        end.
  - intros Hn. rewrite highest_stage_cases in *. unfold stage_order.
    destruct (PyStr.mem "CONVERSION" stages) eqn:Ev;
      [apply mem_iff_In in Ev; split; [exact Ev | simpl; tauto]|].
    destruct (PyStr.mem "CONSIDERATION" stages) eqn:Ec;
      [apply mem_iff_In in Ec; split; [exact Ec | simpl; tauto]|].
    destruct (PyStr.mem "INTEREST" stages) eqn:Ei;
      [apply mem_iff_In in Ei; split; [exact Ei | simpl; tauto]|].
    destruct (PyStr.mem "AWARENESS" stages) eqn:Ea;
      [apply mem_iff_In in Ea; split; [exact Ea | simpl; tauto]|].
    now destruct Hn.
  - rewrite <- mem_iff_In, highest_stage_cases.
    destruct (PyStr.mem "CONVERSION" stages), (PyStr.mem "CONSIDERATION" stages),
      (PyStr.mem "INTEREST" stages), (PyStr.mem "AWARENESS" stages);
      split; intros H; first [reflexivity | discriminate H].
  - intros stages' Hext. rewrite !highest_stage_cases.
    now rewrite !(mem_ext _ stages stages' Hext).
Qed.

Definition stage_labels : list string := (stage_order ++ ["UNKNOWN"])%list.

(** What a progression row satisfies when the stage column holds stage
    labels only. *)
Definition progression_consistent (p : Progression.t) : Prop :=
  Progression.stages_reached p
  = (Nat.b2n (Progression.reached_awareness p)
     + Nat.b2n (Progression.reached_interest p)
     + Nat.b2n (Progression.reached_consideration p)
     + Nat.b2n (Progression.reached_conversion p))%nat
  /\ (Progression.stages_reached p <= 4)%nat
  /\ (Progression.highest_stage p = "NONE" <-> Progression.stages_reached p = 0%nat)
  /\ (Progression.highest_stage p = "CONVERSION"
      <-> Progression.reached_conversion p = true)
  /\ (1 <= Progression.total_events p)%nat.

Lemma progression_of_consistent (g : string * list Row) (p : Progression.t) :
  progression_of g p -> snd g <> [] ->
  Forall (fun r => In (funnel_stage r) stage_labels) (snd g) ->
  progression_consistent p.
Proof.
  intros [_ [Ht [Hs [Ha [Hi [Hc [Hv Hh]]]]]]] Hne Hlabels.
  unfold progression_consistent. rewrite Ht, Hs, Ha, Hi, Hc, Hv, Hh.
  assert (Hlen := stage_list_length (reached_stages (snd g))
                    (reached_stages_NoDup (snd g))).
  rewrite Hlen.
  2:{ intros s Hin. apply reached_stages_In in Hin as [Hs' [r [Hr E]]].
      rewrite Forall_forall in Hlabels. specialize (Hlabels r Hr).
      rewrite E in Hlabels. unfold stage_labels in Hlabels.
      apply in_app_or in Hlabels as [Hin | [Hu | []]]; [exact Hin | congruence]. }
  rewrite highest_stage_cases.
  destruct (PyStr.mem "CONVERSION" (reached_stages (snd g))),
    (PyStr.mem "CONSIDERATION" (reached_stages (snd g))),
    (PyStr.mem "INTEREST" (reached_stages (snd g))),
    (PyStr.mem "AWARENESS" (reached_stages (snd g))); simpl;
    (repeat split; try lia; try discriminate; try reflexivity;
     try (destruct (snd g); [now destruct Hne | simpl; lia])).
Qed.

Lemma funnel_progression_general (df : DataFrame) :
  has_columns df = true -> rows df <> [] ->
  Forall (fun r => In (funnel_stage r) stage_labels) (rows df) ->
  exists ps,
    get_user_funnel_progression df = Ok ps
    /\ Forall2 progression_of (groupby (field userPseudoId) (rows df)) ps
    /\ NoDup (map Progression.user_id ps)
    /\ (forall u, In u (map Progression.user_id ps)
                  <-> In u (map (field userPseudoId) (rows df)))
    /\ Forall progression_consistent ps
    /\ list_sum (map Progression.total_events ps) = List.length (rows df).
Proof.
  intros Hdf Hrows Hlabels.
  destruct (funnel_progression_rows df Hdf Hrows) as [ps [E HF]].
  exists ps. split; [exact E|]. split; [exact HF|].
  assert (Hids : map Progression.user_id ps
                 = map fst (groupby (field userPseudoId) (rows df))).
  { apply Forall2_map_eq. eapply Forall2_weaken; [|exact HF].
    intros g p' Hp. exact (proj1 Hp). }
  assert (Htot : map Progression.total_events ps
                 = map (fun g => List.length (snd g))
                       (groupby (field userPseudoId) (rows df))).
  { apply Forall2_map_eq. eapply Forall2_weaken; [|exact HF].
    intros g p' Hp. exact (proj1 (proj2 Hp)). }
  split; [|split; [|split]].
  - rewrite Hids, PandasFacts.groupby_keys. apply PandasFacts.unique_sorted_NoDup.
  - intros u. rewrite Hids, PandasFacts.groupby_keys.
    apply PandasFacts.unique_sorted_In.
  - apply (Forall2_Forall_r _ _ _ _ HF). intros g p' Hg Hp.
    apply PandasFacts.groupby_In in Hg as [Hfilter [Hne _]].
    apply (progression_of_consistent g p' Hp Hne).
    rewrite Hfilter. apply incl_Forall with (l1 := rows df); [|exact Hlabels].
    intros r Hr. now apply filter_In in Hr.
  - rewrite Htot, <- (map_map snd (@List.length Row)), list_sum_lengths.
    apply Permutation_length, PandasFacts.groupby_concat_perm.
Qed.

(** X5: on a frame with rows whose stage column holds stage labels,
    [get_user_funnel_progression] returns one row per distinct user, whose
    event counts add up to the number of rows; in every row
    [stages_reached] is the number of reached flags set (at most 4),
    [highest_stage] is "NONE" exactly when it is 0 and "CONVERSION"
    exactly when [reached_conversion] is set. *)
Theorem funnel_progression_consistent (df : DataFrame) :
  has_columns df = true -> rows df <> [] ->
  Forall (fun r => In (funnel_stage r) stage_labels) (rows df) ->
  exists ps,
    get_user_funnel_progression df = Ok ps
    /\ NoDup (map Progression.user_id ps)
    /\ (forall u, In u (map Progression.user_id ps)
                  <-> In u (map (field userPseudoId) (rows df)))
    /\ Forall progression_consistent ps
    /\ list_sum (map Progression.total_events ps) = List.length (rows df).
Proof.
  intros Hdf Hrows Hlabels.
  destruct (funnel_progression_general df Hdf Hrows Hlabels)
    as [ps [E [_ H]]].
  exists ps. split; [exact E | exact H].
Qed.

(** A hand-written frame: one user with an UNKNOWN row and an INTEREST
    row, one user with an UNKNOWN row only. *)
Definition labelled_frame : DataFrame :=
  classified_frame
    [ {| name := 0; event := mk_event "A" "scroll" "/x" "(direct)" "t0";
         funnel_stage := "UNKNOWN"; stage_confidence := 0;
         page_category := "other" |};
      {| name := 1; event := mk_event "A" "scroll" "/posts/1" "(direct)" "t1";
         funnel_stage := "INTEREST"; stage_confidence := 0.5;
         page_category := "content" |};
      {| name := 2; event := mk_event "B" "scroll" "/x" "(direct)" "t0";
         funnel_stage := "UNKNOWN"; stage_confidence := 0;
         page_category := "other" |} ].

(** X5 at [labelled_frame]. *)
Lemma funnel_progression_consistent_witness :
  has_columns labelled_frame = true
  /\ exists ps,
       get_user_funnel_progression labelled_frame = Ok ps
       /\ NoDup (map Progression.user_id ps)
       /\ (forall u, In u (map Progression.user_id ps)
                     <-> In u (map (field userPseudoId) (rows labelled_frame)))
       /\ Forall progression_consistent ps
       /\ list_sum (map Progression.total_events ps)
          = List.length (rows labelled_frame).
Proof.
  split; [reflexivity|].
  apply (funnel_progression_consistent labelled_frame).
  - reflexivity.
  - discriminate.
  - repeat constructor; simpl; tauto.
Defined.

Lemma classified_labels (cfg : Config.t) (events_df : list Event) :
  Forall (fun r => In (funnel_stage r) stage_labels /\ funnel_stage r <> "UNKNOWN")
         (classify_user_events (init cfg) events_df).
Proof.
  apply (classify_user_events_lift (init cfg)
           (fun stage _ => In stage stage_labels /\ stage <> "UNKNOWN")).
  intros row ctx. split; [|apply single_event_some_stage].
  destruct (classify_first_highest cfg row ctx) as [w [-> _]].
  destruct w; simpl; tauto.
Qed.

Lemma classified_length (cfg : Config.t) (events_df : list Event) :
  List.length (classify_user_events (init cfg) events_df) = List.length events_df.
Proof.
  rewrite <- (Permutation_length (classify_user_events_perm cfg events_df)).
  now rewrite length_map.
Qed.

(** X6: for a non-empty event relation, the progression report of the
    classified frame has one row per user of the relation, and every user
    has reached at least one stage: [stages_reached] lies between 1 and 4
    and [highest_stage] is never "NONE". *)
Theorem classified_users_reach_a_stage (cfg : Config.t) (events_df : list Event) :
  events_df <> [] ->
  exists ps,
    get_user_funnel_progression
      (classified_frame (classify_user_events (init cfg) events_df)) = Ok ps
    /\ NoDup (map Progression.user_id ps)
    /\ (forall u, In u (map Progression.user_id ps)
                  <-> In u (map userPseudoId events_df))
    /\ Forall (fun p => (1 <= Progression.stages_reached p <= 4)%nat
                        /\ Progression.highest_stage p <> "NONE") ps
    /\ list_sum (map Progression.total_events ps) = List.length events_df.
Proof.
  intros Hne.
  set (out := classify_user_events (init cfg) events_df).
  pose proof (classified_labels cfg events_df) as Hlab. fold out in Hlab.
  assert (Hout : out <> []).
  { intros E. apply Hne. apply length_zero_iff_nil.
    rewrite <- (classified_length cfg events_df). fold out. now rewrite E. }
  destruct (funnel_progression_general (classified_frame out)) as
    [ps [E [HF [Hnd [Hcover [Hcons Hsum]]]]]].
  { reflexivity. }
  { exact Hout. }
  { eapply Forall_impl; [|exact Hlab]. intros r Hr. exact (proj1 Hr). }
  exists ps. simpl in *. split; [exact E|]. split; [exact Hnd|].
  split; [|split].
  - intros u. rewrite Hcover. unfold field.
    rewrite <- (map_map event userPseudoId). split; intros Hin.
    + eapply Permutation_in; [|exact Hin].
      apply Permutation_map, classify_user_events_perm.
    + eapply Permutation_in; [|exact Hin].
      symmetry. apply Permutation_map, classify_user_events_perm.
  - apply (Forall2_Forall_r _ _ _ _ HF). intros g p Hg Hp.
    apply PandasFacts.groupby_In in Hg as [Hfilter [Hgne _]].
    assert (Hsub : forall r, In r (snd g) -> In r out).
    { intros r Hin. rewrite Hfilter in Hin. now apply filter_In in Hin. }
    assert (Hcons' : progression_consistent p).
    { apply (progression_of_consistent g p Hp Hgne).
      apply Forall_forall. intros r Hr.
      rewrite Forall_forall in Hlab. exact (proj1 (Hlab r (Hsub r Hr))). }
    assert (Hpos : (1 <= Progression.stages_reached p)%nat).
    { destruct Hp as [_ [_ [-> _]]].
      destruct (snd g) as [|r rest] eqn:Eg; [now destruct Hgne|].
      rewrite Forall_forall in Hlab.
      destruct (Hlab r (Hsub r (or_introl eq_refl))) as [_ Hknown].
      assert (Hin : In (funnel_stage r) (reached_stages (r :: rest))).
      { apply reached_stages_In. split; [exact Hknown|].
        exists r. split; [now left | reflexivity]. }
      destruct (reached_stages (r :: rest)); [destruct Hin | simpl; lia]. }
    destruct Hcons' as [_ [Hle [Hnone _]]].
    split; [lia|]. intros Hn. apply Hnone in Hn. lia.
  - rewrite Hsum. apply classified_length.
Qed.

(** X6 at the two-user relation. *)
Lemma classified_users_reach_a_stage_witness :
  two_users <> []
  /\ exists ps,
       get_user_funnel_progression
         (classified_frame (classify_user_events default_classifier two_users))
       = Ok ps
       /\ NoDup (map Progression.user_id ps)
       /\ (forall u, In u (map Progression.user_id ps)
                     <-> In u (map userPseudoId two_users))
       /\ Forall (fun p => (1 <= Progression.stages_reached p <= 4)%nat
                           /\ Progression.highest_stage p <> "NONE") ps
       /\ list_sum (map Progression.total_events ps) = List.length two_users.
Proof.
  split; [discriminate|].
  apply (classified_users_reach_a_stage Config._get_default_config two_users).
  discriminate.
Defined.

(** X7: on a frame without rows both reports of the classifier raise,
    whatever columns the frame has: [get_user_funnel_progression] when it
    reads the column 'reached_conversion' of a frame built from no record
    (KeyError), [analyze_stage_transitions] when it divides by the number
    of users, 0 (ZeroDivisionError). *)
Theorem reports_raise_on_empty_frame :
  (forall cols,
     exists e,
       get_user_funnel_progression {| columns := cols; rows := [] |} = Raise e)
  /\ (forall cols,
        exists e,
          analyze_stage_transitions {| columns := cols; rows := [] |} = Raise e)
  /\ get_user_funnel_progression (classified_frame [])
     = Raise (KeyError "reached_conversion")
  /\ analyze_stage_transitions (classified_frame []) = Raise ZeroDivisionError.
Proof.
  split; [|split; [|split]]; try reflexivity.
  - intros cols. unfold get_user_funnel_progression, require. simpl.
    destruct (PyStr.mem "userPseudoId" cols); simpl; eauto.
  - intros cols. unfold analyze_stage_transitions, require. simpl.
    destruct (PyStr.mem "userPseudoId" cols); simpl; eauto.
Qed.

(** What holds of the transition report of a frame. *)
Definition transitions_bounded (df : DataFrame) (t : Transitions.t) : Prop :=
  Transitions.total_users t = nunique (field userPseudoId) (rows df)
  /\ (1 <= Transitions.total_users t)%nat
  /\ (Transitions.AWARENESS_to_INTEREST t <= Transitions.total_users t)%nat
  /\ (Transitions.INTEREST_to_CONSIDERATION t <= Transitions.total_users t)%nat
  /\ (Transitions.CONSIDERATION_to_CONVERSION t <= Transitions.total_users t)%nat
  /\ in_percent_range
       (Transitions.awareness_to_interest (Transitions.conversion_rates t))
  /\ in_percent_range
       (Transitions.interest_to_consideration (Transitions.conversion_rates t))
  /\ in_percent_range
       (Transitions.consideration_to_conversion (Transitions.conversion_rates t)).

Lemma unique_sorted_length {K} `{PyKey K} (keys : list K) :
  List.length (unique_sorted keys) = List.length (nodup key_eq_dec keys).
Proof.
  unfold unique_sorted. apply Permutation_length, PandasFacts.sort_by_perm.
Qed.

Lemma groupby_length {A K} `{PyKey K} (key : A -> K) (df : list A) :
  List.length (groupby key df) = nunique key df.
Proof.
  unfold groupby, nunique. now rewrite length_map, unique_sorted_length.
Qed.

(** X8: on a frame with rows, [analyze_stage_transitions] returns; each
    transition count is at most the number of users and each of its three
    rates, taken over all users, lies in [0, 100] (unlike the step
    conversions of the calculator, taken over the users of the earlier
    stage). *)
Theorem stage_transitions_bounded (df : DataFrame) :
  has_columns df = true -> rows df <> [] ->
  exists t, analyze_stage_transitions df = Ok t /\ transitions_bounded df t.
Proof.
  intros Hdf Hrows. unfold analyze_stage_transitions. column_present_only Hdf.
  set (groups := groupby (field userPseudoId) (rows df)).
  rewrite (mapM_ok_map _ (fun g : string * list Row => map funnel_stage (snd g))).
  2:{ intros g _. now column_present_only Hdf. }
  cbn [bind].
  set (user_stages := map (fun g : string * list Row => map funnel_stage (snd g)) groups).
  assert (Hlen : List.length user_stages = nunique (field userPseudoId) (rows df)).
  { unfold user_stages. rewrite length_map. apply groupby_length. }
  assert (Hpos : (0 < nunique (field userPseudoId) (rows df))%nat).
  { rewrite <- Hlen. unfold user_stages. rewrite length_map.
    pose proof (groupby_not_nil (field userPseudoId) (rows df) Hrows) as Hg.
    fold groups in Hg. destruct groups; [now destruct Hg | simpl; lia]. }
  rewrite !(percent_ok _ _ Hpos). cbn [bind].
  eexists. split; [reflexivity|]. unfold transitions_bounded. simpl.
  assert (Hle : forall f, (count_true f user_stages
                           <= nunique (field userPseudoId) (rows df))%nat)
    by (intros f; rewrite <- Hlen; apply count_true_le).
  repeat split; try apply Hle; try lia;
    try (apply ratio_percent_range; [apply Hle | exact Hpos]);
    apply ratio_percent_range; first [apply Hle | exact Hpos].
Qed.

(** X8 at the classified frame of the two-user relation. *)
Lemma stage_transitions_bounded_witness :
  has_columns
    (classified_frame (classify_user_events default_classifier two_users)) = true
  /\ exists t,
       analyze_stage_transitions
         (classified_frame (classify_user_events default_classifier two_users))
       = Ok t
       /\ transitions_bounded
            (classified_frame (classify_user_events default_classifier two_users)) t.
Proof.
  split; [reflexivity|].
  apply (stage_transitions_bounded
           (classified_frame (classify_user_events default_classifier two_users))).
  - reflexivity.
  - vm_compute. discriminate.
Defined.

(** *** Quality tiers *)

(** The tiers of [_assess_traffic_quality] and
    [_assess_content_effectiveness], lowest first. *)
Definition tier_rank (tier : string) : nat :=
  if (tier =? "Premium") || (tier =? "Excellent") then 4
  else if (tier =? "High") || (tier =? "Good") then 3
  else if (tier =? "Medium") || (tier =? "Average") then 2
  else if (tier =? "Low") || (tier =? "Below Average") then 1
  else 0.

Definition rank_of (top upper middle low : bool) : nat :=
  if top then 4 else if upper then 3 else if middle then 2 else if low then 1 else 0.

Lemma rank_of_monotone (a1 a2 a3 a4 b1 b2 b3 b4 : bool) :
  (a1 = true -> b1 = true) -> (a2 = true -> b2 = true) ->
  (a3 = true -> b3 = true) -> (a4 = true -> b4 = true) ->
  (rank_of a1 a2 a3 a4 <= rank_of b1 b2 b3 b4)%nat.
Proof.
  intros H1 H2 H3 H4.
  destruct a1; [rewrite (H1 eq_refl); simpl; lia|].
  destruct a2; [rewrite (H2 eq_refl); destruct b1; simpl; lia|].
  destruct a3; [rewrite (H3 eq_refl); destruct b1, b2; simpl; lia|].
  destruct a4; [rewrite (H4 eq_refl); destruct b1, b2, b3; simpl; lia|].
  simpl. lia.
Qed.

Lemma traffic_quality_rank (x : np_float) (volume : nat) :
  tier_rank (_assess_traffic_quality x volume)
  = rank_of (np_geb x 20 && (50 <=? volume)%nat)
            (np_geb x 10 && (100 <=? volume)%nat)
            (np_geb x 5 && (200 <=? volume)%nat)
            (np_geb x 2).
Proof.
  unfold _assess_traffic_quality, rank_of.
  destruct (np_geb x 20 && (50 <=? volume)%nat); [reflexivity|].
  destruct (np_geb x 10 && (100 <=? volume)%nat); [reflexivity|].
  destruct (np_geb x 5 && (200 <=? volume)%nat); [reflexivity|].
  now destruct (np_geb x 2).
Qed.

Lemma content_effectiveness_rank (q : Q) (volume : nat) :
  tier_rank (_assess_content_effectiveness q volume)
  = rank_of (Qle_bool 30 q && (20 <=? volume)%nat)
            (Qle_bool 15 q && (50 <=? volume)%nat)
            (Qle_bool 8 q && (100 <=? volume)%nat)
            (Qle_bool 3 q).
Proof.
  unfold _assess_content_effectiveness, rank_of.
  destruct (Qle_bool 30 q && (20 <=? volume)%nat); [reflexivity|].
  destruct (Qle_bool 15 q && (50 <=? volume)%nat); [reflexivity|].
  destruct (Qle_bool 8 q && (100 <=? volume)%nat); [reflexivity|].
  now destruct (Qle_bool 3 q).
Qed.

Lemma Qle_bool_mono (t p q : Q) :
  (p <= q)%Q -> Qle_bool t p = true -> Qle_bool t q = true.
Proof.
  intros Hpq Ht. apply Qle_bool_iff. apply Qle_bool_iff in Ht.
  now apply Qle_trans with p.
Qed.

Lemma Qle_bool_mono_l (s t q : Q) :
  (s <= t)%Q -> Qle_bool t q = true -> Qle_bool s q = true.
Proof.
  intros Hst Ht. apply Qle_bool_iff. apply Qle_bool_iff in Ht.
  now apply Qle_trans with t.
Qed.

Lemma threshold_mono (t p q : Q) (n v v' : nat) :
  (p <= q)%Q -> (v <= v')%nat ->
  Qle_bool t p && (n <=? v)%nat = true -> Qle_bool t q && (n <=? v')%nat = true.
Proof.
  intros Hpq Hv H. apply andb_true_iff in H as [Ht Hn].
  apply andb_true_iff. split; [now apply (Qle_bool_mono t p q)|].
  apply Nat.leb_le. apply Nat.leb_le in Hn. lia.
Qed.

(** X9: the traffic-quality tier never drops when the conversion rate
    and the volume grow (Poor < Low < Medium < High < Premium), and it is
    "Poor" exactly when the rate is below 2 (or not a number), whatever
    the volume. *)
Theorem traffic_quality_monotone (p q : Q) (v v' : nat) :
  (p <= q)%Q -> (v <= v')%nat ->
  (tier_rank (_assess_traffic_quality (Finite p) v)
   <= tier_rank (_assess_traffic_quality (Finite q) v'))%nat
  /\ (forall x volume,
        _assess_traffic_quality x volume = "Poor" <-> np_geb x 2 = false).
Proof.
  intros Hpq Hv. split.
  - rewrite !traffic_quality_rank. simpl np_geb.
    apply rank_of_monotone;
      first [ now apply threshold_mono | now apply Qle_bool_mono ].
  - intros x volume. unfold _assess_traffic_quality.
    assert (H20 : np_geb x 20 = true -> np_geb x 2 = true).
    { destruct x; simpl; try tauto. apply Qle_bool_mono_l. discriminate. }
    assert (H10 : np_geb x 10 = true -> np_geb x 2 = true).
    { destruct x; simpl; try tauto. apply Qle_bool_mono_l. discriminate. }
    assert (H5 : np_geb x 5 = true -> np_geb x 2 = true).
    { destruct x; simpl; try tauto. apply Qle_bool_mono_l. discriminate. }
    destruct (np_geb x 2) eqn:E2.
    + destruct (np_geb x 20 && (50 <=? volume)%nat);
        [split; discriminate|].
      destruct (np_geb x 10 && (100 <=? volume)%nat);
        [split; discriminate|].
      destruct (np_geb x 5 && (200 <=? volume)%nat);
        split; discriminate.
    + destruct (np_geb x 20) eqn:E20; [now specialize (H20 eq_refl)|].
      destruct (np_geb x 10) eqn:E10; [now specialize (H10 eq_refl)|].
      destruct (np_geb x 5) eqn:E5; [now specialize (H5 eq_refl)|].
      simpl. split; reflexivity.
Qed.

Lemma traffic_quality_monotone_witness :
  (tier_rank (_assess_traffic_quality (Finite 6) 150)
   <= tier_rank (_assess_traffic_quality (Finite 12) 150))%nat
  /\ (forall x volume,
        _assess_traffic_quality x volume = "Poor" <-> np_geb x 2 = false).
Proof.
  apply (traffic_quality_monotone 6 12 150 150).
  - discriminate.
  - lia.
Defined.

(** X10: the content-effectiveness tier never drops when the conversion
    rate and the number of users grow (Poor < Below Average < Average <
    Good < Excellent); it is "Poor" exactly below a rate of 3, and a
    page with fewer than 20 users is never "Excellent" however high its
    rate. *)
Theorem content_effectiveness_monotone (p q : Q) (v v' : nat) :
  (p <= q)%Q -> (v <= v')%nat ->
  (tier_rank (_assess_content_effectiveness p v)
   <= tier_rank (_assess_content_effectiveness q v'))%nat
  /\ (forall x volume,
        _assess_content_effectiveness x volume = "Poor" <-> Qle_bool 3 x = false)
  /\ (forall x volume,
        (volume < 20)%nat -> _assess_content_effectiveness x volume <> "Excellent").
Proof.
  intros Hpq Hv. split; [|split].
  - rewrite !content_effectiveness_rank.
    apply rank_of_monotone;
      first [ now apply threshold_mono | now apply Qle_bool_mono ].
  - intros x volume. unfold _assess_content_effectiveness.
    assert (H30 : Qle_bool 30 x = true -> Qle_bool 3 x = true)
      by (apply Qle_bool_mono_l; discriminate).
    assert (H15 : Qle_bool 15 x = true -> Qle_bool 3 x = true)
      by (apply Qle_bool_mono_l; discriminate).
    assert (H8 : Qle_bool 8 x = true -> Qle_bool 3 x = true)
      by (apply Qle_bool_mono_l; discriminate).
    destruct (Qle_bool 3 x) eqn:E3.
    + destruct (Qle_bool 30 x && (20 <=? volume)%nat);
        [split; discriminate|].
      destruct (Qle_bool 15 x && (50 <=? volume)%nat);
        [split; discriminate|].
      destruct (Qle_bool 8 x && (100 <=? volume)%nat);
        split; discriminate.
    + destruct (Qle_bool 30 x) eqn:E30; [now specialize (H30 eq_refl)|].
      destruct (Qle_bool 15 x) eqn:E15; [now specialize (H15 eq_refl)|].
      destruct (Qle_bool 8 x) eqn:E8; [now specialize (H8 eq_refl)|].
      simpl. split; reflexivity.
  - intros x volume Hvol. unfold _assess_content_effectiveness.
    assert (E : (20 <=? volume)%nat = false) by (apply Nat.leb_gt; lia).
    rewrite E, andb_false_r.
    destruct (Qle_bool 15 x && (50 <=? volume)%nat); [discriminate|].
    destruct (Qle_bool 8 x && (100 <=? volume)%nat); [discriminate|].
    destruct (Qle_bool 3 x); discriminate.
Qed.

Lemma content_effectiveness_monotone_witness :
  (tier_rank (_assess_content_effectiveness 10 60)
   <= tier_rank (_assess_content_effectiveness 16 60))%nat
  /\ (forall x volume,
        _assess_content_effectiveness x volume = "Poor" <-> Qle_bool 3 x = false)
  /\ (forall x volume,
        (volume < 20)%nat -> _assess_content_effectiveness x volume <> "Excellent").
Proof.
  apply (content_effectiveness_monotone 10 16 60 60).
  - discriminate.
  - lia.
Defined.

(** *** The aggregates of the calculator *)

Lemma count_true_app {A} (f : A -> bool) (l l' : list A) :
  count_true f (l ++ l')%list = (count_true f l + count_true f l')%nat.
Proof. unfold count_true. now rewrite filter_app, length_app. Qed.

Lemma count_true_concat {A} (f : A -> bool) (l : list (list A)) :
  count_true f (List.concat l) = list_sum (map (count_true f) l).
Proof.
  induction l as [|x l IH]; simpl; [reflexivity|].
  now rewrite count_true_app, IH.
Qed.

Lemma count_true_map {A B} (f : B -> bool) (g : A -> B) (l : list A) :
  count_true f (map g l) = count_true (fun x => f (g x)) l.
Proof.
  unfold count_true. induction l as [|x l IH]; simpl; [reflexivity|].
  destruct (f (g x)); simpl; now rewrite IH.
Qed.

Lemma count_true_perm {A} (f : A -> bool) (l l' : list A) :
  Permutation l l' -> count_true f l = count_true f l'.
Proof.
  intros Hp. unfold count_true. apply Permutation_length.
  induction Hp as [|x l l' Hp IH|x y l|l l' l'' _ IH1 _ IH2]; simpl.
  - constructor.
  - destruct (f x); [now constructor | exact IH].
  - destruct (f x), (f y); try reflexivity. apply perm_swap.
  - now transitivity (filter f l').
Qed.

Lemma list_sum_perm (l l' : list nat) :
  Permutation l l' -> list_sum l = list_sum l'.
Proof. induction 1; simpl; lia. Qed.

Lemma count_true_Forall2 {A B} (f : B -> bool) (h : A -> bool)
    (l : list A) (l' : list B) :
  Forall2 (fun g u => f u = h g) l l' -> count_true f l' = count_true h l.
Proof.
  unfold count_true. induction 1 as [|x y l l' E _ IH]; simpl; [reflexivity|].
  rewrite E. destruct (h x); simpl; now rewrite IH.
Qed.

(** What a row of [_get_user_progression] says about its user. *)
Definition calc_progression_of (g : string * list Row)
    (u : Calculator.Progression) : Prop :=
  user_id u = fst g
  /\ reached_awareness u = has_stage "AWARENESS" (snd g)
  /\ reached_interest u = has_stage "INTEREST" (snd g)
  /\ reached_consideration u = has_stage "CONSIDERATION" (snd g)
  /\ reached_conversion u = has_stage "CONVERSION" (snd g)
  /\ total_events u = List.length (snd g)
  /\ unique_pages u = nunique (field pagePath) (snd g)
  /\ first_source u = first (field sessionSource) "" (snd g)
  /\ first_medium u = first (field sessionMedium) "" (snd g).

Lemma calc_progression_rows (df : DataFrame) :
  has_columns df = true ->
  exists ups,
    _get_user_progression df = Ok ups
    /\ Forall2 calc_progression_of (groupby (field userPseudoId) (rows df)) ups.
Proof.
  intros Hdf. unfold _get_user_progression. column_present_only Hdf.
  match goal with
  | |- context [mapM ?f ?groups] =>
      destruct (mapM_Forall2 f calc_progression_of groups) as [ups [E HF]]
  end.
  - intros [user user_events] Hg.
    apply PandasFacts.groupby_In in Hg as [_ [Hne _]]. simpl in Hne.
    do 2 column_present_only Hdf.
    destruct user_events as [|first rest]; [now destruct Hne|].
    cbn [iloc0 bind]. do 2 column_present_only Hdf.
    eexists. split; [reflexivity|]. unfold calc_progression_of. simpl.
    repeat split.
  - exists ups. split; [exact E | exact HF].
Qed.

(** The counts of the stage funnel, read off the groups of users. *)
Definition funnel_counts (df : DataFrame) (r : ConversionRates) : Prop :=
  let groups := groupby (field userPseudoId) (rows df) in
  let users_at stage :=
    count_true (fun g : string * list Row => has_stage stage (snd g)) groups in
  total_users r = nunique (field userPseudoId) (rows df)
  /\ awareness (stage_counts r) = users_at "AWARENESS"
  /\ interest (stage_counts r) = users_at "INTEREST"
  /\ consideration (stage_counts r) = users_at "CONSIDERATION"
  /\ conversion (stage_counts r) = users_at "CONVERSION".

Lemma stage_conversions_counts (df : DataFrame) :
  has_columns df = true -> rows df <> [] ->
  exists r, calculate_stage_conversions df = Ok (StageConversions r)
            /\ funnel_counts df r.
Proof.
  intros Hdf Hrows. unfold calculate_stage_conversions.
  rewrite (has_columns_not_empty df Hdf Hrows).
  destruct (calc_progression_rows df Hdf) as [ups [-> HF]]. cbn [bind].
  assert (Hlen : List.length ups = nunique (field userPseudoId) (rows df)).
  { rewrite <- (Forall2_length HF). apply groupby_length. }
  assert (Hne : ups <> []).
  { intros ->. inversion HF as [E|].
    now apply (groupby_not_nil (field userPseudoId) (rows df) Hrows). }
  destruct ups as [|u ups]; [now destruct Hne|].
  set (l := u :: ups) in *. simpl records_column. cbn [bind].
  assert (Hpos : (0 < List.length l)%nat) by (simpl; lia).
  rewrite !(percent_ok _ _ Hpos).
  cbn [bind awareness interest consideration conversion].
  destruct (percent_or_zero_ok (count_true reached_interest l)
              (count_true reached_awareness l)) as [q1 [-> _]].
  destruct (percent_or_zero_ok (count_true reached_consideration l)
              (count_true reached_interest l)) as [q2 [-> _]].
  destruct (percent_or_zero_ok (count_true reached_conversion l)
              (count_true reached_consideration l)) as [q3 [-> _]].
  cbn [bind]. eexists. split; [reflexivity|].
  unfold funnel_counts. cbn [total_users stage_counts awareness interest
                             consideration conversion].
  split; [exact Hlen|].
  repeat split; apply count_true_Forall2;
    (eapply Forall2_weaken; [|exact HF]);
    intros g p Hp; unfold calc_progression_of in Hp; tauto.
Qed.

Lemma count_true_cover {A} (f1 f2 f3 f4 : A -> bool) (l : list A) :
  Forall (fun x => f1 x || f2 x || f3 x || f4 x = true) l ->
  (List.length l
   <= count_true f1 l + count_true f2 l + count_true f3 l + count_true f4 l)%nat.
Proof.
  unfold count_true. induction 1 as [|x l Hx _ IH]; simpl; [lia|].
  destruct (f1 x), (f2 x), (f3 x), (f4 x); simpl in *; try lia; discriminate Hx.
Qed.

Lemma has_stage_In (stage : string) (user_events : list Row) :
  has_stage stage user_events = true
  <-> exists r, In r user_events /\ funnel_stage r = stage.
Proof.
  unfold has_stage. rewrite existsb_exists. split.
  - intros [r [Hr E]]. exists r. split; [exact Hr | now apply String.eqb_eq].
  - intros [r [Hr E]]. exists r. split; [exact Hr | now apply String.eqb_eq].
Qed.

(** What the stage funnel says about a frame: the users are the distinct
    user identifiers, a stage counts the users with an event of that
    stage, no count exceeds the number of users, and when no event is
    left without a stage every user is counted at least once. *)
Definition funnel_accounts (df : DataFrame) (r : ConversionRates) : Prop :=
  funnel_counts df r
  /\ (awareness (stage_counts r) <= total_users r)%nat
  /\ (interest (stage_counts r) <= total_users r)%nat
  /\ (consideration (stage_counts r) <= total_users r)%nat
  /\ (conversion (stage_counts r) <= total_users r)%nat
  /\ (1 <= total_users r)%nat
  /\ (overall_conversion r == conversion_rate (stage_rates r))%Q
  /\ (Forall (fun row => In (funnel_stage row) stage_order) (rows df) ->
      (total_users r
       <= awareness (stage_counts r) + interest (stage_counts r)
          + consideration (stage_counts r) + conversion (stage_counts r))%nat).

(** X11: on a frame with rows the stage funnel counts users, not events:
    [total_users] is the number of distinct user identifiers, each stage
    count is the number of users with at least one event of that stage
    (so at most [total_users]), the overall conversion equals the
    conversion stage rate, and when every event carries one of the four
    stages the stage counts add up to at least [total_users]. *)
Theorem stage_funnel_counts_users (df : DataFrame) :
  has_columns df = true -> rows df <> [] ->
  exists r, calculate_stage_conversions df = Ok (StageConversions r)
            /\ funnel_accounts df r.
Proof.
  intros Hdf Hrows.
  destruct (stage_conversions_counts df Hdf Hrows) as [r [E Hc]].
  exists r. split; [exact E|]. unfold funnel_accounts. split; [exact Hc|].
  pose proof Hc as [Ht [Ha [Hi [Hco Hcv]]]].
  pose proof (groupby_length (field userPseudoId) (rows df)) as Hlen.
  assert (Hle : forall f : string * list Row -> bool,
             (count_true f (groupby (field userPseudoId) (rows df))
              <= total_users r)%nat).
  { intros f. rewrite Ht, <- Hlen. apply count_true_le. }
  rewrite Ha, Hi, Hco, Hcv.
  repeat (split; [apply Hle|]).
  split; [|split].
  - rewrite Ht, <- Hlen.
    pose proof (groupby_not_nil (field userPseudoId) (rows df) Hrows) as Hg.
    destruct (groupby (field userPseudoId) (rows df)); [now destruct Hg | simpl; lia].
  - revert E. unfold calculate_stage_conversions.
    rewrite (has_columns_not_empty df Hdf Hrows).
    destruct (_get_user_progression df) as [ups|e]; [|discriminate].
    cbn [bind]. destruct (records_column _ ups); [|discriminate]. cbn [bind].
    repeat match goal with
           | |- context [bind ?c _] =>
               destruct c; cbn [bind]; [|discriminate]
           end.
    intros E. injection E as <-. simpl.
    repeat match goal with
           | H : percent ?a ?b = Ok _, H' : percent ?a ?b = Ok _ |- _ =>
               rewrite H in H'; injection H' as <-
           end.
    reflexivity.
  - intros Hstages. rewrite Ht, <- Hlen. apply count_true_cover.
    apply Forall_forall. intros g Hg.
    apply PandasFacts.groupby_In in Hg as [Hfilter [Hne _]].
    destruct (snd g) as [|row rest] eqn:Eg; [now destruct Hne|].
    assert (Hin : In row (rows df)).
    { assert (Hr : In row (row :: rest)) by now left.
      rewrite Hfilter in Hr. now apply filter_In in Hr. }
    rewrite Forall_forall in Hstages. specialize (Hstages row Hin).
    assert (Hhas : has_stage (funnel_stage row) (row :: rest) = true).
    { apply has_stage_In. exists row. split; [now left | reflexivity]. }
    destruct Hstages as [S | [S | [S | [S | []]]]]; rewrite <- S in Hhas;
      rewrite Hhas; rewrite ?orb_true_r; reflexivity.
Qed.

(** X11 at the classified frame of the two-user relation. *)
Lemma stage_funnel_counts_users_witness :
  has_columns
    (classified_frame (classify_user_events default_classifier two_users)) = true
  /\ exists r,
       calculate_stage_conversions
         (classified_frame (classify_user_events default_classifier two_users))
       = Ok (StageConversions r)
       /\ funnel_accounts
            (classified_frame (classify_user_events default_classifier two_users)) r.
Proof.
  split; [reflexivity|].
  apply (stage_funnel_counts_users
           (classified_frame (classify_user_events default_classifier two_users))).
  - reflexivity.
  - vm_compute. discriminate.
Defined.

Lemma np_desc_total (x y : np_float) : np_desc x y = true \/ np_desc y x = true.
Proof.
  destruct x as [p| |], y as [q| |]; simpl; auto.
  destruct (Qlt_le_dec p q) as [Hlt | Hle].
  - right. apply Qle_bool_iff. now apply Qlt_le_weak.
  - left. now apply Qle_bool_iff.
Qed.

Definition source_key (s : SourceRow.t) : string * string :=
  (SourceRow.source s, SourceRow.medium s).

(** The users behind the source report: first source and medium and the
    conversion flag of every user. *)
Definition user_sources (classified : list Row) : list UserSource :=
  map (fun g : string * list Row =>
         {| us_sessionSource := first (field sessionSource) "" (snd g);
            us_sessionMedium := first (field sessionMedium) "" (snd g);
            us_converted := has_stage "CONVERSION" (snd g) |})
      (groupby (field userPseudoId) classified).

Lemma source_rows_totals (config : Config.t) (classified : list Row) :
  let groups :=
    groupby (fun u => (us_sessionSource u, us_sessionMedium u))
            (user_sources classified) in
  map source_key (source_rows config classified) = map fst groups
  /\ map SourceRow.total_users (source_rows config classified)
     = map (fun g => List.length (snd g)) groups
  /\ map SourceRow.conversions (source_rows config classified)
     = map (fun g => count_true us_converted (snd g)) groups.
Proof.
  unfold source_rows. fold (user_sources classified). cbv zeta.
  rewrite !map_map.
  repeat split; apply map_ext; intros [[source medium] group]; reflexivity.
Qed.

(** What the source report says about a frame. *)
Definition source_report_accounts (df : DataFrame)
    (source_df : list SourceRow.t) : Prop :=
  let groups := groupby (field userPseudoId) (rows df) in
  list_sum (map SourceRow.total_users source_df)
  = nunique (field userPseudoId) (rows df)
  /\ list_sum (map SourceRow.conversions source_df)
     = count_true (fun g : string * list Row => has_stage "CONVERSION" (snd g))
                  groups
  /\ NoDup (map source_key source_df)
  /\ (forall source medium,
        In (source, medium) (map source_key source_df)
        <-> exists g, In g groups
                      /\ first (field sessionSource) "" (snd g) = source
                      /\ first (field sessionMedium) "" (snd g) = medium)
  /\ Forall (fun s => (1 <= SourceRow.total_users s)%nat
                      /\ (SourceRow.conversions s <= SourceRow.total_users s)%nat)
            source_df
  /\ Sorted (fun x y => np_desc (SourceRow.conversion_rate x)
                                (SourceRow.conversion_rate y) = true)
            source_df.

Lemma source_rows_account (config : Config.t) (df : DataFrame) (l : list SourceRow.t) :
  Permutation l (source_rows config (rows df)) ->
  Sorted (fun x y => np_desc (SourceRow.conversion_rate x)
                             (SourceRow.conversion_rate y) = true) l ->
  source_report_accounts df l.
Proof.
  intros Hperm Hsorted. unfold source_report_accounts. cbv zeta.
  destruct (source_rows_totals config (rows df)) as [Hkeys [Htot Hconv]].
  cbv zeta in Hkeys, Htot, Hconv.
  set (groups := groupby (fun u => (us_sessionSource u, us_sessionMedium u))
                         (user_sources (rows df))) in *.
  assert (Hcover : Permutation (List.concat (map snd groups)) (user_sources (rows df)))
    by apply PandasFacts.groupby_concat_perm.
  split; [|split; [|split; [|split; [|split]]]].
  - rewrite (list_sum_perm _ _ (Permutation_map SourceRow.total_users Hperm)).
    rewrite Htot, <- (map_map snd (@List.length UserSource)), list_sum_lengths.
    rewrite (Permutation_length Hcover). unfold user_sources.
    rewrite length_map. apply groupby_length.
  - rewrite (list_sum_perm _ _ (Permutation_map SourceRow.conversions Hperm)).
    rewrite Hconv, <- (map_map snd (count_true us_converted)), <- count_true_concat.
    rewrite (count_true_perm _ _ _ Hcover). unfold user_sources.
    now rewrite count_true_map.
  - eapply Permutation_NoDup; [symmetry; apply (Permutation_map source_key Hperm)|].
    rewrite Hkeys. unfold groups. rewrite PandasFacts.groupby_keys.
    apply PandasFacts.unique_sorted_NoDup.
  - intros source medium.
    assert (Hin : In (source, medium) (map source_key l)
                  <-> In (source, medium) (map fst groups)).
    { rewrite <- Hkeys. split; apply Permutation_in;
        [|symmetry]; apply (Permutation_map source_key Hperm). }
    rewrite Hin. unfold groups.
    rewrite PandasFacts.groupby_keys, PandasFacts.unique_sorted_In.
    unfold user_sources. rewrite map_map, in_map_iff. simpl.
    split; intros [g [Hg1 Hg2]]; exists g.
    + injection Hg1 as <- <-. auto.
    + destruct Hg2 as [<- <-]. auto.
  - eapply Permutation_Forall; [symmetry; exact Hperm|].
    unfold source_rows. apply Forall_forall. intros r Hr.
    apply in_map_iff in Hr as [[[source medium] group] [<- Hg]].
    apply PandasFacts.groupby_In in Hg as [_ [Hne _]]. simpl in Hne. simpl.
    split; [destruct group; [now destruct Hne | simpl; lia] | apply count_true_le].
  - exact Hsorted.
Qed.

(** X12: on a frame with rows the source report accounts for every user
    exactly once: its [total_users] add up to the number of distinct
    users, its [conversions] add up to the conversion count of the stage
    funnel, there is one row per (first source, first medium) pair of a
    user, every row has at least one user and no more conversions than
    users, and the rows come in descending order of conversion rate. *)
Theorem source_report_partitions_users (config : Config.t) (df : DataFrame) :
  has_columns df = true -> rows df <> [] ->
  exists source_df r,
    calculate_source_conversions config df = Ok source_df
    /\ calculate_stage_conversions df = Ok (StageConversions r)
    /\ source_report_accounts df source_df
    /\ list_sum (map SourceRow.total_users source_df) = total_users r
    /\ list_sum (map SourceRow.conversions source_df) = conversion (stage_counts r).
Proof.
  intros Hdf Hrows.
  destruct (stage_conversions_counts df Hdf Hrows) as [r [Er Hc]].
  destruct Hc as [Ht [_ [_ [_ Hcv]]]].
  unfold calculate_source_conversions. do 4 column_present Hdf.
  pose proof (source_rows_not_nil config (rows df) Hrows) as Hne.
  destruct (source_rows config (rows df)) as [|r0 rs] eqn:E; [now destruct Hne|].
  remember (sort_by (fun x y : SourceRow.t =>
                       np_desc (SourceRow.conversion_rate x)
                               (SourceRow.conversion_rate y))
                    (r0 :: rs)) as source_df eqn:Es.
  assert (Hacc : source_report_accounts df source_df).
  { apply (source_rows_account config).
    - rewrite E, Es. apply PandasFacts.sort_by_perm.
    - rewrite Es. apply PandasFacts.sort_by_sorted.
      intros x y. apply np_desc_total. }
  assert (Hs : source_df <> [])
    by (rewrite Es; apply sort_by_not_nil; discriminate).
  destruct source_df as [|s0 ss]; [now destruct Hs|].
  cbn [records_column iloc0 bind].
  exists (s0 :: ss), r. split; [reflexivity|]. split; [exact Er|].
  split; [exact Hacc|].
  destruct Hacc as [H1 [H2 _]]. split; [now rewrite Ht | now rewrite Hcv].
Qed.

(** X12 at the classified frame of the two-user relation. *)
Lemma source_report_partitions_users_witness :
  has_columns
    (classified_frame (classify_user_events default_classifier two_users)) = true
  /\ exists source_df r,
       calculate_source_conversions Config._get_default_config
         (classified_frame (classify_user_events default_classifier two_users))
       = Ok source_df
       /\ calculate_stage_conversions
            (classified_frame (classify_user_events default_classifier two_users))
          = Ok (StageConversions r)
       /\ source_report_accounts
            (classified_frame (classify_user_events default_classifier two_users))
            source_df
       /\ list_sum (map SourceRow.total_users source_df) = total_users r
       /\ list_sum (map SourceRow.conversions source_df)
          = conversion (stage_counts r).
Proof.
  split; [reflexivity|].
  apply (source_report_partitions_users Config._get_default_config
           (classified_frame (classify_user_events default_classifier two_users))).
  - reflexivity.
  - vm_compute. discriminate.
Defined.

(** *** The content report *)

Definition content_path (page : string) : bool :=
  PyStr.contains page "/posts/" || PyStr.contains page "/skill-guide/".

Lemma content_type_known (page : string) :
  content_path page = true -> _classify_content_type page <> "Other Content".
Proof.
  unfold content_path, _classify_content_type. intros H.
  destruct (PyStr.contains page "/posts/"); [discriminate|].
  simpl in H. rewrite H.
  destruct (PyStr.contains page "one-click"); [discriminate|].
  destruct (PyStr.contains page "market-management"); discriminate.
Qed.

Definition content_row_of (g : string * list ((string * string) * nat))
    (c : ContentRow.t) : Prop :=
  ContentRow.page_path c = fst g
  /\ ContentRow.content_type c = _classify_content_type (fst g)
  /\ ContentRow.total_users c
     = List.length (nodup string_dec (map (fun uc => fst (fst uc)) (snd g)))
  /\ (ContentRow.conversions c <= ContentRow.total_users c)%nat.

Lemma content_row_fields (converted_users : list string)
    (g : string * list ((string * string) * nat)) :
  exists c, content_row converted_users g = Ok c /\ content_row_of g c.
Proof.
  destruct g as [page_path page_group]. unfold content_row, content_row_of.
  destruct (percent_or_zero_ok
              (count_true (fun user => PyStr.mem user converted_users)
                 (nodup string_dec (map (fun uc => fst (fst uc)) page_group)))
              (List.length (nodup string_dec (map (fun uc => fst (fst uc)) page_group))))
    as [q [-> _]].
  cbn [bind]. eexists. split; [reflexivity|]. simpl.
  repeat split. apply count_true_le.
Qed.

(** What the content report says about a frame. *)
Definition content_report_accounts (df : DataFrame)
    (content_df : list ContentRow.t) : Prop :=
  NoDup (map ContentRow.page_path content_df)
  /\ (forall page,
        In page (map ContentRow.page_path content_df)
        <-> content_path page = true
            /\ exists r, In r (rows df) /\ field pagePath r = page)
  /\ Forall (fun c =>
               ContentRow.content_type c
               = _classify_content_type (ContentRow.page_path c)
               /\ ContentRow.content_type c <> "Other Content"
               /\ ContentRow.total_users c
                  = nunique (field userPseudoId)
                      (filter (fun r => field pagePath r =? ContentRow.page_path c)
                              (rows df))
               /\ (1 <= ContentRow.total_users c)%nat
               /\ (ContentRow.conversions c <= ContentRow.total_users c)%nat)
            content_df
  /\ Sorted (fun x y => Qle_bool (ContentRow.conversion_rate y)
                                 (ContentRow.conversion_rate x) = true)
            content_df.

Section ContentGroups.
Variable classified : list Row.

Let content_events := filter is_content_page classified.
Let user_content :=
  map (fun g : (string * string) * list Row => (fst g, List.length (snd g)))
      (groupby (fun r => (field userPseudoId r, field pagePath r)) content_events).
Let groups :=
  groupby (fun uc : (string * string) * nat => snd (fst uc)) user_content.

Lemma user_content_keys (user page : string) :
  In (user, page) (map fst user_content)
  <-> exists r, In r classified /\ is_content_page r = true
                /\ field userPseudoId r = user /\ field pagePath r = page.
Proof.
  unfold user_content. rewrite map_map. cbn [fst].
  change (map (fun x : (string * string) * list Row => fst x)
              (groupby (fun r => (field userPseudoId r, field pagePath r))
                       content_events))
    with (map fst (groupby (fun r => (field userPseudoId r, field pagePath r))
                           content_events)).
  rewrite PandasFacts.groupby_keys, PandasFacts.unique_sorted_In, in_map_iff.
  unfold content_events. split.
  - intros [r [E Hr]]. apply filter_In in Hr as [Hr Hc].
    injection E as <- <-. now exists r.
  - intros [r [Hr [Hc [<- <-]]]]. exists r. split; [reflexivity|].
    apply filter_In. now split.
Qed.

Lemma content_group_users (g : string * list ((string * string) * nat)) (user : string) :
  In g groups ->
  In user (map (fun uc => fst (fst uc)) (snd g))
  <-> In (user, fst g) (map fst user_content).
Proof.
  intros Hg. apply PandasFacts.groupby_In in Hg as [Hfilter _].
  rewrite Hfilter, !in_map_iff. split.
  - intros [[[u p] n] [E Hin]]. apply filter_In in Hin as [Hin Hk].
    simpl in E, Hk. apply String.eqb_eq in Hk. subst.
    exists (user, fst g, n). now split.
  - intros [[[u p] n] [E Hin]]. simpl in E. injection E as -> ->.
    exists (user, fst g, n). split; [reflexivity|].
    apply filter_In. split; [exact Hin|]. simpl. apply String.eqb_refl.
Qed.

Lemma content_group_pages (page : string) :
  In page (map fst groups)
  <-> content_path page = true
      /\ exists r, In r classified /\ field pagePath r = page.
Proof.
  unfold groups. rewrite PandasFacts.groupby_keys, PandasFacts.unique_sorted_In.
  rewrite in_map_iff. split.
  - intros [[[u p] n] [E Hin]]. simpl in E. subst p.
    assert (Hk : In (u, page) (map fst user_content))
      by (apply in_map_iff; now exists (u, page, n)).
    apply user_content_keys in Hk as [r [Hr [Hc [_ Hp]]]].
    split; [|now exists r].
    unfold is_content_page in Hc. now rewrite Hp in Hc.
  - intros [Hc [r [Hr Hp]]].
    assert (Hk : In (field userPseudoId r, page) (map fst user_content)).
    { apply user_content_keys. exists r. repeat split; try assumption.
      unfold is_content_page. now rewrite Hp. }
    apply in_map_iff in Hk as [[[u p] n] [E Hin]]. simpl in E.
    injection E as -> ->. now exists (field userPseudoId r, page, n).
Qed.

Lemma content_group_total (g : string * list ((string * string) * nat)) :
  In g groups ->
  List.length (nodup string_dec (map (fun uc => fst (fst uc)) (snd g)))
  = nunique (field userPseudoId)
      (filter (fun r => field pagePath r =? fst g) classified)
  /\ (1 <= List.length (nodup string_dec (map (fun uc => fst (fst uc)) (snd g))))%nat
  /\ content_path (fst g) = true.
Proof.
  intros Hg.
  assert (Hpage : In (fst g) (map fst groups)) by now apply in_map.
  apply content_group_pages in Hpage as [Hc [r0 [Hr0 Hp0]]].
  assert (Husers : forall user,
             In user (nodup string_dec (map (fun uc => fst (fst uc)) (snd g)))
             <-> In user (map (field userPseudoId)
                            (filter (fun r => field pagePath r =? fst g) classified))).
  { intros user. rewrite nodup_In, (content_group_users g user Hg).
    rewrite user_content_keys, in_map_iff. split.
    - intros [r [Hr [_ [Hu Hp]]]]. exists r. split; [exact Hu|].
      apply filter_In. split; [exact Hr | now apply String.eqb_eq].
    - intros [r [Hu Hr]]. apply filter_In in Hr as [Hr Hp].
      apply String.eqb_eq in Hp. exists r. repeat split; try assumption.
      unfold is_content_page. now rewrite Hp. }
  split; [|split; [|exact Hc]].
  - unfold nunique. apply Permutation_length. apply NoDup_Permutation.
    + apply NoDup_nodup.
    + apply NoDup_nodup.
    + intros user. rewrite Husers. symmetry. apply nodup_In.
  - assert (Hin : In (field userPseudoId r0)
                     (nodup string_dec (map (fun uc => fst (fst uc)) (snd g)))).
    { apply Husers. apply in_map. apply filter_In.
      split; [exact Hr0 | now apply String.eqb_eq]. }
    destruct (nodup string_dec (map (fun uc => fst (fst uc)) (snd g)));
      [destruct Hin | simpl; lia].
Qed.

Lemma content_groups_account (converted_users : list string) :
  exists content_conversions,
    mapM (content_row converted_users) groups = Ok content_conversions
    /\ List.length content_conversions = List.length groups
    /\ NoDup (map ContentRow.page_path content_conversions)
    /\ (forall page,
          In page (map ContentRow.page_path content_conversions)
          <-> content_path page = true
              /\ exists r, In r classified /\ field pagePath r = page)
    /\ Forall (fun c =>
                 ContentRow.content_type c
                 = _classify_content_type (ContentRow.page_path c)
                 /\ ContentRow.content_type c <> "Other Content"
                 /\ ContentRow.total_users c
                    = nunique (field userPseudoId)
                        (filter (fun r => field pagePath r =? ContentRow.page_path c)
                                classified)
                 /\ (1 <= ContentRow.total_users c)%nat
                 /\ (ContentRow.conversions c <= ContentRow.total_users c)%nat)
              content_conversions.
Proof.
  destruct (mapM_Forall2 (content_row converted_users) content_row_of groups)
    as [cs [E HF]].
  { intros g _. apply content_row_fields. }
  exists cs. split; [exact E|].
  assert (Hpages : map ContentRow.page_path cs = map fst groups).
  { apply Forall2_map_eq. eapply Forall2_weaken; [|exact HF].
    intros g c Hc. exact (proj1 Hc). }
  split; [symmetry; exact (Forall2_length HF)|].
  split; [|split].
  - rewrite Hpages. unfold groups. rewrite PandasFacts.groupby_keys.
    apply PandasFacts.unique_sorted_NoDup.
  - intros page. rewrite Hpages. apply content_group_pages.
  - apply (Forall2_Forall_r _ _ _ _ HF). intros g c Hg [Hp [Ht [Hn Hle]]].
    destruct (content_group_total g Hg) as [Htotal [Hpos Hc]].
    rewrite Hp, Ht, Hn. repeat split.
    + now apply content_type_known.
    + exact Htotal.
    + exact Hpos.
    + rewrite <- Hn. exact Hle.
Qed.

End ContentGroups.

Lemma Qle_bool_total (p q : Q) : Qle_bool q p = true \/ Qle_bool p q = true.
Proof.
  destruct (Qlt_le_dec p q) as [Hlt | Hle].
  - right. apply Qle_bool_iff. now apply Qlt_le_weak.
  - left. now apply Qle_bool_iff.
Qed.

(** X13: the content report has one row per page path of the frame that
    contains "/posts/" or "/skill-guide/" and no other row; a row counts
    the distinct users with an event on that page (at least one), never
    more conversions than users, its content type is never
    "Other Content", and the rows come in descending order of conversion
    rate.  It returns on every frame with the classified columns, with
    or without rows. *)
Theorem content_report_covers_content_pages (df : DataFrame) :
  has_columns df = true ->
  exists content_df,
    calculate_content_conversions df = Ok content_df
    /\ content_report_accounts df content_df.
Proof.
  intros Hdf. unfold calculate_content_conversions. column_present Hdf.
  destruct (filter is_content_page (rows df)) as [|c0 cs] eqn:Ec.
  - exists []. split; [reflexivity|]. unfold content_report_accounts.
    split; [constructor|]. split; [|split; constructor].
    intros page. split; [intros []|]. intros [Hc [r [Hr Hp]]].
    assert (Hin : In r (filter is_content_page (rows df))).
    { apply filter_In. split; [exact Hr|]. unfold is_content_page.
      now rewrite Hp. }
    now rewrite Ec in Hin.
  - column_present Hdf. column_present Hdf. rewrite <- Ec.
    set (converted_users := nodup string_dec _).
    destruct (content_groups_account (rows df) converted_users)
      as [content_conversions [E [Hlen [Hnd [Hpages HF]]]]].
    rewrite E. cbn [bind].
    assert (Hne : content_conversions <> []).
    { intros ->. simpl in Hlen. symmetry in Hlen.
      apply length_zero_iff_nil in Hlen. revert Hlen.
      apply groupby_not_nil. intros E'. apply map_eq_nil in E'.
      revert E'. apply groupby_not_nil. rewrite Ec. discriminate. }
    destruct content_conversions as [|r0 rs]; [now destruct Hne|].
    cbn [records_column bind]. eexists. split; [reflexivity|].
    set (sorted := sort_by _ (r0 :: rs)).
    assert (Hperm : Permutation sorted (r0 :: rs))
      by apply PandasFacts.sort_by_perm.
    unfold content_report_accounts. split; [|split; [|split]].
    + eapply Permutation_NoDup; [|exact Hnd].
      symmetry. now apply Permutation_map.
    + intros page. rewrite <- Hpages. split; apply Permutation_in;
        [|symmetry]; now apply Permutation_map.
    + eapply Permutation_Forall; [symmetry; exact Hperm | exact HF].
    + apply PandasFacts.sort_by_sorted. intros x y. apply Qle_bool_total.
Qed.

(** X13 at the classified frame of the two-user relation (one content
    page, "/posts/5"). *)
Lemma content_report_covers_content_pages_witness :
  has_columns
    (classified_frame (classify_user_events default_classifier two_users)) = true
  /\ exists content_df,
       calculate_content_conversions
         (classified_frame (classify_user_events default_classifier two_users))
       = Ok content_df
       /\ content_report_accounts
            (classified_frame (classify_user_events default_classifier two_users))
            content_df.
Proof.
  split; [reflexivity|].
  apply (content_report_covers_content_pages
           (classified_frame (classify_user_events default_classifier two_users))).
  reflexivity.
Defined.

(** *** The device report *)

Section Mode.
Context {K : Type} `{PyKey K}.

Let step (l : list K) (best : option K) (k : K) : option K :=
  match best with
  | None => Some k
  | Some b => if Nat.ltb (count_key b l) (count_key k l) then Some k else Some b
  end.

Lemma mode_fold_In (l ks : list K) (acc : option K) (k : K) :
  fold_left (step l) ks acc = Some k -> acc = Some k \/ In k ks.
Proof.
  revert acc. induction ks as [|x ks IH]; intros acc E; simpl in *; [now left|].
  apply IH in E as [E | Hin]; [|now right; right].
  destruct acc as [b|]; simpl in E.
  - destruct (Nat.ltb (count_key b l) (count_key x l)).
    + injection E as <-. right. now left.
    + now left.
  - injection E as <-. right. now left.
Qed.

Lemma mode_fold_some (l ks : list K) (b : K) :
  exists k, fold_left (step l) ks (Some b) = Some k.
Proof.
  revert b. induction ks as [|x ks IH]; intros b; simpl; [now exists b|].
  destruct (Nat.ltb (count_key b l) (count_key x l)); apply IH.
Qed.

Lemma mode_or_In (default : K) (l : list K) :
  l <> [] -> In (mode_or default l) l.
Proof.
  intros Hne. unfold mode_or, mode. fold (step l).
  destruct (unique_sorted l) as [|x ks] eqn:Eu.
  - destruct l as [|y l]; [now destruct Hne|].
    assert (Hin : In y (unique_sorted (y :: l)))
      by (apply PandasFacts.unique_sorted_In; now left).
    now rewrite Eu in Hin.
  - simpl. destruct (mode_fold_some l ks x) as [k E]. rewrite E.
    apply mode_fold_In in E as [E | Hin].
    + injection E as <-. apply (proj1 (PandasFacts.unique_sorted_In l x)).
      rewrite Eu. now left.
    + apply (proj1 (PandasFacts.unique_sorted_In l k)). rewrite Eu. now right.
Qed.

End Mode.

Lemma groupby_sums {A K} `{PyKey K} (key : A -> K) (f : A -> bool) (l : list A) :
  list_sum (map (fun g => List.length (snd g)) (groupby key l)) = List.length l
  /\ list_sum (map (fun g => count_true f (snd g)) (groupby key l)) = count_true f l.
Proof.
  pose proof (PandasFacts.groupby_concat_perm key l) as Hcover. split.
  - rewrite <- (map_map snd (@List.length A)), list_sum_lengths.
    now apply Permutation_length.
  - rewrite <- (map_map snd (count_true f)), <- count_true_concat.
    now apply count_true_perm.
Qed.

Definition device_row_of (g : string * list (string * bool)) (d : DeviceRow.t) : Prop :=
  DeviceRow.device_category d = fst g
  /\ DeviceRow.total_users d = List.length (snd g)
  /\ DeviceRow.conversions d = count_true snd (snd g).

(** What the device report says about a frame. *)
Definition device_report_accounts (df : DataFrame)
    (device_df : list DeviceRow.t) : Prop :=
  list_sum (map DeviceRow.total_users device_df)
  = nunique (field userPseudoId) (rows df)
  /\ list_sum (map DeviceRow.conversions device_df)
     = count_true (fun g : string * list Row => has_stage "CONVERSION" (snd g))
                  (groupby (field userPseudoId) (rows df))
  /\ NoDup (map DeviceRow.device_category device_df)
  /\ Forall (fun d =>
               In (DeviceRow.device_category d)
                  (map (field deviceCategory) (rows df))
               /\ (1 <= DeviceRow.total_users d)%nat
               /\ (DeviceRow.conversions d <= DeviceRow.total_users d)%nat)
            device_df
  /\ Sorted (fun x y => np_desc (DeviceRow.conversion_rate x)
                                (DeviceRow.conversion_rate y) = true)
            device_df.

Lemma device_report_account (df : DataFrame) :
  has_columns df = true -> rows df <> [] ->
  exists device_df,
    calculate_device_conversions df = Ok device_df
    /\ device_report_accounts df device_df.
Proof.
  intros Hdf Hrows. unfold calculate_device_conversions.
  rewrite (has_columns_mem df "deviceCategory" Hdf) by (simpl; auto 20). simpl negb.
  cbv iota. do 2 column_present Hdf.
  set (user_devices := map _ (groupby (field userPseudoId) (rows df))).
  assert (Hud : user_devices <> []).
  { intros E. apply map_eq_nil in E. revert E. now apply groupby_not_nil. }
  assert (Hpos : (0 < List.length user_devices)%nat).
  { destruct user_devices; [now destruct Hud | simpl; lia]. }
  set (groups := groupby fst user_devices).
  match goal with
  | |- context [mapM ?f groups] =>
      destruct (mapM_Forall2 f device_row_of groups) as [ds [-> HF]]
  end.
  { intros [device group] _. rewrite (percent_ok _ _ Hpos). cbn [bind].
    eexists. split; [reflexivity|]. unfold device_row_of. simpl. repeat split. }
  cbn [bind].
  assert (Hg : groups <> []) by now apply groupby_not_nil.
  destruct ds as [|d0 ds'] eqn:Eds.
  { inversion HF as [E|]. now destruct Hg. }
  rewrite <- Eds in *. clear Eds d0 ds'.
  assert (Hrec : records_column "conversion_rate" ds = Ok tt).
  { destruct ds; [inversion HF; subst; now destruct Hg | reflexivity]. }
  rewrite Hrec. cbn [bind]. eexists. split; [reflexivity|].
  set (sorted := sort_by _ ds).
  assert (Hperm : Permutation sorted ds) by apply PandasFacts.sort_by_perm.
  assert (Hcat : map DeviceRow.device_category ds = map fst groups).
  { apply Forall2_map_eq. eapply Forall2_weaken; [|exact HF].
    intros g d Hd. exact (proj1 Hd). }
  assert (Htot : map DeviceRow.total_users ds
                 = map (fun g => List.length (snd g)) groups).
  { apply Forall2_map_eq. eapply Forall2_weaken; [|exact HF].
    intros g d Hd. exact (proj1 (proj2 Hd)). }
  assert (Hconv : map DeviceRow.conversions ds
                  = map (fun g => count_true snd (snd g)) groups).
  { apply Forall2_map_eq. eapply Forall2_weaken; [|exact HF].
    intros g d Hd. exact (proj2 (proj2 Hd)). }
  destruct (groupby_sums fst snd user_devices) as [Hsum1 Hsum2].
  fold groups in Hsum1, Hsum2.
  unfold device_report_accounts. split; [|split; [|split; [|split]]].
  - rewrite (list_sum_perm _ _ (Permutation_map DeviceRow.total_users Hperm)).
    rewrite Htot, Hsum1. unfold user_devices. rewrite length_map.
    apply groupby_length.
  - rewrite (list_sum_perm _ _ (Permutation_map DeviceRow.conversions Hperm)).
    rewrite Hconv, Hsum2. unfold user_devices. now rewrite count_true_map.
  - eapply Permutation_NoDup;
      [symmetry; apply (Permutation_map DeviceRow.device_category Hperm)|].
    rewrite Hcat. unfold groups. rewrite PandasFacts.groupby_keys.
    apply PandasFacts.unique_sorted_NoDup.
  - eapply Permutation_Forall; [symmetry; exact Hperm|].
    apply (Forall2_Forall_r _ _ _ _ HF). intros g d Hin [Hc [Ht Hcv]].
    rewrite Hc, Ht, Hcv.
    assert (Hkey : In (fst g) (map fst groups)) by now apply in_map.
    unfold groups in Hkey.
    rewrite PandasFacts.groupby_keys, PandasFacts.unique_sorted_In in Hkey.
    unfold user_devices in Hkey. rewrite map_map in Hkey. cbn [fst] in Hkey.
    apply in_map_iff in Hkey as [ug [Eug Hug]].
    apply PandasFacts.groupby_In in Hin as [_ [Hne _]].
    apply PandasFacts.groupby_In in Hug as [Hfilter [Hune _]].
    split; [|split].
    + rewrite <- Eug.
      assert (Hmode : In (mode_or "unknown" (map (field deviceCategory) (snd ug)))
                         (map (field deviceCategory) (snd ug))).
      { apply mode_or_In. intros E. apply map_eq_nil in E. now apply Hune. }
      apply in_map_iff in Hmode as [r [Er Hr]]. rewrite <- Er.
      apply in_map. rewrite Hfilter in Hr. now apply filter_In in Hr.
    + destruct (snd g); [now destruct Hne | simpl; lia].
    + apply count_true_le.
  - apply PandasFacts.sort_by_sorted. intros x y. apply np_desc_total.
Qed.

(** X14: on a frame with rows the device report assigns every user to
    exactly one device category, one that occurs among the user's own
    events (the default "unknown" is never used): its [total_users] add
    up to the number of distinct users, its [conversions] to the number
    of users with a CONVERSION event, the categories are distinct, and
    the rows come in descending order of conversion rate. *)
Theorem device_report_partitions_users (df : DataFrame) :
  has_columns df = true -> rows df <> [] ->
  exists device_df,
    calculate_device_conversions df = Ok device_df
    /\ device_report_accounts df device_df.
Proof. exact (device_report_account df). Qed.

(** X14 at the classified frame of the two-user relation. *)
Lemma device_report_partitions_users_witness :
  has_columns
    (classified_frame (classify_user_events default_classifier two_users)) = true
  /\ exists device_df,
       calculate_device_conversions
         (classified_frame (classify_user_events default_classifier two_users))
       = Ok device_df
       /\ device_report_accounts
            (classified_frame (classify_user_events default_classifier two_users))
            device_df.
Proof.
  split; [reflexivity|].
  apply (device_report_partitions_users
           (classified_frame (classify_user_events default_classifier two_users))).
  - reflexivity.
  - vm_compute. discriminate.
Defined.

(** *** The time report *)

Definition week : list string :=
  ["Monday"; "Tuesday"; "Wednesday"; "Thursday"; "Friday"; "Saturday"; "Sunday"].

Section Buckets.
Context {K : Type} `{PyKey K}.
Variable users : list (K * bool).

Let in_bucket (b : K) (u : K * bool) : bool := key_eqb (fst u) b.

Lemma nonempty_filter {A} (f : A -> bool) (l : list A) :
  Nat.ltb 0 (List.length (filter f l)) = existsb f l.
Proof.
  induction l as [|x l IH]; simpl; [reflexivity|].
  destruct (f x); simpl; [reflexivity | exact IH].
Qed.

Lemma time_bucket_cases (b : K) :
  (existsb (in_bucket b) users = true
   /\ exists r, time_bucket b users = [r]
                /\ TimeRow.bucket r = b
                /\ TimeRow.total_users r = count_true (in_bucket b) users
                /\ TimeRow.conversions r
                   = count_true snd (filter (in_bucket b) users)
                /\ (1 <= TimeRow.total_users r)%nat)
  \/ (existsb (in_bucket b) users = false
      /\ time_bucket b users = []
      /\ count_true (in_bucket b) users = 0%nat
      /\ count_true snd (filter (in_bucket b) users) = 0%nat).
Proof.
  unfold time_bucket. fold (in_bucket b). rewrite nonempty_filter.
  destruct (existsb (in_bucket b) users) eqn:E.
  - left. split; [reflexivity|]. eexists. split; [reflexivity|]. simpl.
    repeat split. rewrite <- nonempty_filter in E.
    apply Nat.ltb_lt in E. unfold count_true. lia.
  - right. rewrite <- nonempty_filter in E. apply Nat.ltb_ge in E.
    assert (Hz : filter (in_bucket b) users = [])
      by (apply length_zero_iff_nil; lia).
    repeat split. + unfold count_true. now rewrite Hz. + now rewrite Hz.
Qed.

Lemma time_buckets_reported (buckets : list K) :
  let report := flat_map (fun b => time_bucket b users) buckets in
  map TimeRow.bucket report
  = filter (fun b => existsb (in_bucket b) users) buckets
  /\ list_sum (map TimeRow.total_users report)
     = list_sum (map (fun b => count_true (in_bucket b) users) buckets)
  /\ list_sum (map TimeRow.conversions report)
     = list_sum (map (fun b => count_true snd (filter (in_bucket b) users)) buckets)
  /\ Forall (fun r => (1 <= TimeRow.total_users r)%nat
                      /\ (TimeRow.conversions r <= TimeRow.total_users r)%nat)
            report.
Proof.
  cbv zeta. induction buckets as [|b bs [IH1 [IH2 [IH3 IH4]]]]; simpl.
  - repeat split. constructor.
  - rewrite !map_app, !list_sum_app, IH1, IH2, IH3.
    destruct (time_bucket_cases b)
      as [[E [r [-> [Hb [Ht [Hc Hpos]]]]]] | [E [-> [Ht Hc]]]]; rewrite E; simpl.
    + rewrite Hb, Ht, Hc. repeat split; try lia.
      constructor; [|exact IH4]. split; [lia|]. rewrite Hc, Ht.
      unfold count_true. rewrite <- (filter_length_le snd (filter (in_bucket b) users)).
      lia.
    + rewrite Ht, Hc. repeat split. exact IH4.
Qed.

Lemma one_bucket (k : K) (buckets : list K) :
  NoDup buckets ->
  list_sum (map (fun b => Nat.b2n (key_eqb k b)) buckets)
  = Nat.b2n (existsb (key_eqb k) buckets).
Proof.
  induction 1 as [|b bs Hb _ IH]; simpl; [reflexivity|].
  rewrite IH. destruct (key_eqb k b) eqn:E; simpl; [|reflexivity].
  apply key_eqb_eq in E. subst b.
  destruct (existsb (key_eqb k) bs) eqn:Ex; [|reflexivity].
  apply existsb_exists in Ex as [b' [Hin Eb]].
  apply key_eqb_eq in Eb. subst b'. now destruct Hb.
Qed.

Lemma list_sum_map_add {A} (f g : A -> nat) (l : list A) :
  list_sum (map (fun x => (f x + g x)%nat) l)
  = (list_sum (map f l) + list_sum (map g l))%nat.
Proof. induction l as [|x l IH]; simpl; lia. Qed.

End Buckets.

Lemma buckets_partition {K} `{PyKey K} (f : K * bool -> bool)
    (users : list (K * bool)) (buckets : list K) :
  NoDup buckets ->
  list_sum (map (fun b => count_true f (filter (fun u => key_eqb (fst u) b) users))
                buckets)
  = count_true (fun u => f u && existsb (key_eqb (fst u)) buckets) users.
Proof.
  intros Hnd. induction users as [|u us IH].
  - simpl. unfold count_true. simpl. induction buckets; simpl; auto.
    apply IHbuckets. now inversion Hnd.
  - assert (E : forall b,
               count_true f (filter (fun u => key_eqb (fst u) b) (u :: us))
               = (Nat.b2n (f u) * Nat.b2n (key_eqb (fst u) b)
                  + count_true f (filter (fun u => key_eqb (fst u) b) us))%nat).
    { intros b. unfold count_true. simpl.
      destruct (key_eqb (fst u) b); simpl; [|now rewrite Nat.mul_0_r].
      destruct (f u); simpl; lia. }
    rewrite (map_ext _ _ E), list_sum_map_add, IH.
    unfold count_true at 2. simpl. fold (count_true
      (fun u => f u && existsb (key_eqb (fst u)) buckets) us).
    assert (E' : list_sum (map (fun b => (Nat.b2n (f u) * Nat.b2n (key_eqb (fst u) b))%nat)
                              buckets)
                 = Nat.b2n (f u && existsb (key_eqb (fst u)) buckets)).
    { destruct (f u); simpl.
      - rewrite <- (one_bucket (fst u) buckets Hnd).
        apply f_equal, map_ext. intros b. lia.
      - clear. induction buckets; simpl; auto. }
    rewrite E'. destruct (f u && existsb (key_eqb (fst u)) buckets); simpl;
      unfold count_true; lia.
Qed.

Lemma seq_strongly_sorted (a n : nat) : StronglySorted lt (seq a n).
Proof.
  revert a. induction n as [|n IH]; intros a; simpl; constructor; [apply IH|].
  apply Forall_forall. intros x Hx. apply in_seq in Hx. lia.
Qed.

Lemma filter_strongly_sorted {A} (R : A -> A -> Prop) (f : A -> bool) (l : list A) :
  StronglySorted R l -> StronglySorted R (filter f l).
Proof.
  induction 1 as [|x l Hs IH Hx]; simpl; [constructor|].
  destruct (f x); [|exact IH]. constructor; [exact IH|].
  apply Forall_forall. intros y Hy. apply filter_In in Hy as [Hy _].
  rewrite Forall_forall in Hx. now apply Hx.
Qed.

(** What a list of time buckets says about the users of a frame. *)
Definition time_rows_account {K} (users converted : nat)
    (report : list (TimeRow.t K)) : Prop :=
  Forall (fun r => (1 <= TimeRow.total_users r)%nat
                   /\ (TimeRow.conversions r <= TimeRow.total_users r)%nat) report
  /\ (list_sum (map TimeRow.total_users report) <= users)%nat
  /\ (list_sum (map TimeRow.conversions report) <= converted)%nat.

Definition time_rows_complete {K} (users converted : nat)
    (report : list (TimeRow.t K)) : Prop :=
  list_sum (map TimeRow.total_users report) = users
  /\ list_sum (map TimeRow.conversions report) = converted.

Lemma time_report_accounts {K} `{PyKey K} (default : K) (stamp : Row -> K)
    (buckets : list K) (classified : list Row) :
  NoDup buckets ->
  let groups := groupby (field userPseudoId) classified in
  let converted (g : string * list Row) := has_stage "CONVERSION" (snd g) in
  let users := map (fun g => (mode_or default (map stamp (snd g)), converted g))
                   groups in
  let report := flat_map (fun b => time_bucket b users) buckets in
  map TimeRow.bucket report
  = filter (fun b => existsb (fun u => key_eqb (fst u) b) users) buckets
  /\ time_rows_account (nunique (field userPseudoId) classified)
       (count_true converted groups) report
  /\ ((forall r, In r classified -> In (stamp r) buckets) ->
      time_rows_complete (nunique (field userPseudoId) classified)
        (count_true converted groups) report).
Proof.
  intros Hnd groups converted users report.
  destruct (time_buckets_reported users buckets) as [Hb [Ht [Hc HF]]].
  fold report in Hb, Ht, Hc, HF.
  assert (Hlen : List.length users = nunique (field userPseudoId) classified).
  { unfold users. rewrite length_map. apply groupby_length. }
  assert (Hconv : count_true snd users = count_true converted groups).
  { unfold users. now rewrite count_true_map. }
  assert (Htot : list_sum (map TimeRow.total_users report)
                 = count_true (fun u => existsb (key_eqb (fst u)) buckets) users).
  { rewrite Ht.
    etransitivity;
      [|exact (buckets_partition (fun _ => true) users buckets Hnd)].
    apply f_equal, map_ext. intros b. unfold count_true.
    f_equal. clear. induction (filter (fun u => key_eqb (fst u) b) users); simpl;
      congruence. }
  assert (Hcv : list_sum (map TimeRow.conversions report)
                = count_true (fun u => snd u && existsb (key_eqb (fst u)) buckets)
                             users).
  { rewrite Hc. apply (buckets_partition snd users buckets Hnd). }
  split; [exact Hb|]. split.
  - split; [exact HF|]. split.
    + rewrite Htot, <- Hlen. apply count_true_le.
    + rewrite Hcv, <- Hconv. unfold count_true. clear.
      induction users as [|u us IH]; simpl; [lia|].
      destruct (snd u); simpl; [|exact IH].
      destruct (existsb (key_eqb (fst u)) buckets); simpl; lia.
  - intros Hstamp.
    assert (Hall : forall u, In u users -> existsb (key_eqb (fst u)) buckets = true).
    { intros u Hu. unfold users in Hu. apply in_map_iff in Hu as [g [<- Hg]].
      apply PandasFacts.groupby_In in Hg as [Hfilter [Hne _]]. cbn [fst].
      assert (Hmode : In (mode_or default (map stamp (snd g))) (map stamp (snd g))).
      { apply mode_or_In. intros E. apply map_eq_nil in E. now apply Hne. }
      apply in_map_iff in Hmode as [r [Er Hr]]. rewrite <- Er.
      apply existsb_exists. exists (stamp r). split; [|apply PandasFacts.key_eqb_refl].
      apply Hstamp. rewrite Hfilter in Hr. now apply filter_In in Hr. }
    split.
    + rewrite Htot, <- Hlen. unfold count_true. f_equal. clear - Hall.
      induction users as [|u us IH]; simpl; [reflexivity|].
      rewrite (Hall u) by now left. f_equal. apply IH.
      intros v Hv. apply Hall. now right.
    + rewrite Hcv, <- Hconv. unfold count_true. f_equal. clear - Hall.
      induction users as [|u us IH]; simpl; [reflexivity|].
      rewrite (Hall u) by now left. rewrite andb_true_r.
      destruct (snd u); [f_equal|]; apply IH; intros v Hv; apply Hall; now right.
Qed.

(** What the time report says about a frame, given the hour and the day
    name pandas reads off a timestamp. *)
Definition time_report_accounts_for (hour_of : string -> nat)
    (day_name_of : string -> string) (df : DataFrame)
    (hourly : list (TimeRow.t nat)) (daily : list (TimeRow.t string)) : Prop :=
  let users := nunique (field userPseudoId) (rows df) in
  let converted :=
    count_true (fun g : string * list Row => has_stage "CONVERSION" (snd g))
               (groupby (field userPseudoId) (rows df)) in
  StronglySorted lt (map TimeRow.bucket hourly)
  /\ Forall (fun hour => (hour < 24)%nat) (map TimeRow.bucket hourly)
  /\ (exists keep, map TimeRow.bucket daily = filter keep week)
  /\ time_rows_account users converted hourly
  /\ time_rows_account users converted daily
  /\ ((forall r, In r (rows df) -> (hour_of (field eventTimestamp r) < 24)%nat) ->
      time_rows_complete users converted hourly)
  /\ ((forall r, In r (rows df) -> In (day_name_of (field eventTimestamp r)) week) ->
      time_rows_complete users converted daily).

(** X15: the time report lists only buckets with at least one user, the
    hours in ascending order within 0..23 and the days in the order
    Monday..Sunday; a user is counted in at most one hour and at most one
    day (the most frequent of the user's own events), so the bucket
    totals never exceed the number of distinct users nor the bucket
    conversions the number of converted users, with equality when every
    timestamp has an hour below 24, respectively an English day name. *)
Theorem time_report_buckets (hour_of : string -> nat)
    (day_name_of : string -> string) (df : DataFrame) :
  has_columns df = true ->
  exists hourly daily,
    calculate_time_based_conversions hour_of day_name_of df
    = Ok (TimeAnalysis hourly daily)
    /\ time_report_accounts_for hour_of day_name_of df hourly daily.
Proof.
  intros Hdf. unfold calculate_time_based_conversions.
  rewrite (has_columns_mem df "eventTimestamp" Hdf) by (simpl; auto 20). simpl negb.
  cbv iota. do 2 column_present_only Hdf.
  eexists. eexists. split; [reflexivity|].
  destruct (time_report_accounts 12%nat
              (fun r => hour_of (field eventTimestamp r)) (seq 0 24) (rows df))
    as [Hh [Hha Hhc]]; [apply seq_NoDup|].
  destruct (time_report_accounts "Monday"
              (fun r => day_name_of (field eventTimestamp r)) week (rows df))
    as [Hd [Hda Hdc]].
  { unfold week. repeat constructor; simpl; intuition discriminate. }
  unfold time_report_accounts_for. cbv zeta.
  split; [|split; [|split; [|split; [|split; [|split]]]]].
  - rewrite Hh. apply filter_strongly_sorted, seq_strongly_sorted.
  - rewrite Hh. apply Forall_forall. intros hour Hin.
    apply filter_In in Hin as [Hin _]. apply in_seq in Hin. lia.
  - eexists. exact Hd.
  - exact Hha.
  - exact Hda.
  - intros Hhours. apply Hhc. intros r Hr. apply in_seq.
    specialize (Hhours r Hr). lia.
  - exact Hdc.
Qed.

(** X15 at the classified frame of the two-user relation, every
    timestamp read as 10 o'clock on a Monday. *)
Lemma time_report_buckets_witness :
  has_columns
    (classified_frame (classify_user_events default_classifier two_users)) = true
  /\ exists hourly daily,
       calculate_time_based_conversions (fun _ => 10%nat) (fun _ => "Monday")
         (classified_frame (classify_user_events default_classifier two_users))
       = Ok (TimeAnalysis hourly daily)
       /\ time_report_accounts_for (fun _ => 10%nat) (fun _ => "Monday")
            (classified_frame (classify_user_events default_classifier two_users))
            hourly daily.
Proof.
  split; [reflexivity|].
  apply (time_report_buckets (fun _ => 10%nat) (fun _ => "Monday")
           (classified_frame (classify_user_events default_classifier two_users))).
  reflexivity.
Defined.

(** *** The default configuration *)

Lemma startswith_first (s p q : string) (a b : ascii) :
  a <> b ->
  PyStr.startswith s (String a p) = true ->
  PyStr.startswith s (String b q) = false.
Proof.
  intros Hab. destruct s as [|c s]; simpl; [discriminate|].
  intros H. apply andb_true_iff in H as [H _]. apply Ascii.eqb_eq in H. subst c.
  destruct (Ascii.eqb_spec b a); [now subst | reflexivity].
Qed.

(** X16: with the default configuration no page path is ever put in the
    category "support": both of its patterns are already claimed by
    "content", which comes first.  The paths "/p-posts/qna" and every
    path under "/skill-guide/" are "content". *)
Theorem support_category_unreachable (page_path : string) :
  Config.get_page_category Config._get_default_config page_path <> "support"
  /\ Config.get_page_category Config._get_default_config "/p-posts/qna" = "content"
  /\ Config.get_page_category Config._get_default_config
       ("/skill-guide/" ++ page_path) = "content".
Proof.
  split; [|split; [reflexivity | now destruct page_path]].
  unfold Config.get_page_category.
  cbn -[PyStr.startswith String.eqb].
  repeat match goal with
         | |- context [if ?c then _ else _] => destruct c eqn:?
         end; try discriminate.
  exfalso.
  repeat match goal with
         | H : (_ || _)%bool = false |- _ => apply orb_false_iff in H as [? ?]
         end.
  match goal with
  | H : (_ || _)%bool = true |- _ => apply orb_true_iff in H as [Eqna | Eguide]
  end.
  - apply String.eqb_eq in Eqna. subst page_path. discriminate.
  - rewrite orb_false_r in Eguide. congruence.
Qed.

Lemma source_medium_has_slash (source medium : string) :
  source ++ "/" ++ medium <> "*referral".
Proof.
  intros E.
  repeat (destruct source as [|? source]; simpl in E;
          [discriminate E | injection E as ? E]).
  destruct source; discriminate E.
Qed.

Lemma startswith_eqb (s t p : string) :
  PyStr.startswith s p = true -> PyStr.startswith t p = false -> (s =? t) = false.
Proof.
  intros Hs Ht. apply String.eqb_neq. intros ->. congruence.
Qed.

Lemma blog_prefix (source rest : string) :
  PyStr.startswith (source ++ String "/" rest) "blog/" = true ->
  PyStr.startswith source "blog" = true.
Proof.
  intros H.
  destruct source as [|a [|b [|c [|d tail]]]];
    cbn [PyStr.startswith String.append] in *;
    repeat match goal with
           | E : (_ && _)%bool = true |- _ => apply andb_true_iff in E as [? ?]
           end;
    try discriminate;
    try match goal with
        | E : Ascii.eqb _ "/" = true |- _ => now vm_compute in E
        end.
  repeat match goal with
         | E : Ascii.eqb _ _ = true |- _ => rewrite E; clear E
         end.
  now destruct tail.
Qed.

(** X17: with the default configuration the traffic group "referral" is
    reached exactly by the source/medium strings that start with "blog/",
    "blog/sns" excepted (it is social media).  The pattern "*referral"
    has its wildcard in front, so it is compared literally and matches
    no source/medium string: a visit with medium "referral" from any
    source other than "blog" is not grouped as referral. *)
Theorem referral_group_is_blog_only (source medium : string) :
  (Config.get_traffic_group Config._get_default_config source medium = "referral"
   <-> PyStr.startswith (source ++ "/" ++ medium) "blog/" = true
       /\ source ++ "/" ++ medium <> "blog/sns")
  /\ (PyStr.startswith source "blog" = false ->
      Config.get_traffic_group Config._get_default_config source "referral"
      <> "referral").
Proof.
  assert (Hiff : forall sm,
             sm <> "*referral" ->
             Config.lookup_category
               (Config.traffic_groups Config._get_default_config) sm = "referral"
             <-> PyStr.startswith sm "blog/" = true /\ sm <> "blog/sns").
  { intros sm Hstar. cbn -[PyStr.startswith String.eqb]. split.
    - repeat match goal with
             | |- context [if ?c then _ else _] => destruct c eqn:?
             end; try discriminate.
      intros _.
      repeat match goal with
             | H : (_ || _)%bool = false |- _ => apply orb_false_iff in H as [? ?]
             end.
      match goal with
      | H : (_ || _)%bool = true |- _ =>
          apply orb_true_iff in H as [Estar | Eblog]
      end.
      + apply String.eqb_eq in Estar. now destruct Hstar.
      + rewrite orb_false_r in Eblog. split; [exact Eblog|].
        apply String.eqb_neq. assumption.
    - intros [Hblog Hsns].
      assert (Hnot : forall t, PyStr.startswith t "blog/" = false -> (sm =? t) = false)
        by (intros t; now apply startswith_eqb).
      rewrite !Hnot by reflexivity.
      rewrite !(startswith_first sm "log/" _ "b") by (assumption || discriminate).
      apply String.eqb_neq in Hsns. rewrite Hsns, Hblog.
      apply String.eqb_neq in Hstar. rewrite Hstar. reflexivity. }
  split.
  - unfold Config.get_traffic_group. apply Hiff, source_medium_has_slash.
  - intros Hsource Hgroup.
    apply (proj1 (Hiff _ (source_medium_has_slash source "referral"))) in Hgroup.
    destruct Hgroup as [Hblog _].
    apply blog_prefix in Hblog. congruence.
Qed.

(** *** The two progression tables *)

Lemma reached_stage_has_stage (stage : string) (user_events : list Row) :
  stage <> "UNKNOWN" ->
  PyStr.mem stage (reached_stages user_events) = has_stage stage user_events.
Proof.
  intros Hs. destruct (has_stage stage user_events) eqn:E.
  - apply mem_iff_In, reached_stages_In. split; [exact Hs|].
    now apply has_stage_In.
  - destruct (PyStr.mem stage (reached_stages user_events)) eqn:E'; [|reflexivity].
    apply mem_iff_In, reached_stages_In in E' as [_ Hex].
    apply has_stage_In in Hex. congruence.
Qed.

Lemma Forall2_join {A B C} (R1 : A -> B -> Prop) (R2 : A -> C -> Prop)
    (l : list A) (l1 : list B) (l2 : list C) :
  Forall2 R1 l l1 -> Forall2 R2 l l2 ->
  Forall2 (fun y z => exists x, R1 x y /\ R2 x z) l1 l2.
Proof.
  intros H1. revert l2. induction H1 as [|x y l l1 Hxy _ IH]; intros l2 H2;
    inversion H2; subst; constructor.
  - now exists x.
  - now apply IH.
Qed.

(** A row of the calculator's progression table and a row of the
    classifier's describe the same user in the same way. *)
Definition same_progression (u : Calculator.Progression) (p : Progression.t) : Prop :=
  user_id u = Progression.user_id p
  /\ total_events u = Progression.total_events p
  /\ reached_awareness u = Progression.reached_awareness p
  /\ reached_interest u = Progression.reached_interest p
  /\ reached_consideration u = Progression.reached_consideration p
  /\ reached_conversion u = Progression.reached_conversion p.

(** X18: on a frame with rows the progression table of the calculator
    ([_get_user_progression], which tests the stage column of a user for
    each stage) and that of the classifier ([get_user_funnel_progression],
    which tests the distinct stages with UNKNOWN removed) agree row by
    row: same user, same number of events, same four reached flags. *)
Theorem progression_tables_agree (df : DataFrame) :
  has_columns df = true -> rows df <> [] ->
  exists ups ps,
    _get_user_progression df = Ok ups
    /\ get_user_funnel_progression df = Ok ps
    /\ Forall2 same_progression ups ps.
Proof.
  intros Hdf Hrows.
  destruct (calc_progression_rows df Hdf) as [ups [Eu Hu]].
  destruct (funnel_progression_rows df Hdf Hrows) as [ps [Ep Hp]].
  exists ups, ps. split; [exact Eu|]. split; [exact Ep|].
  eapply Forall2_weaken; [|exact (Forall2_join _ _ _ _ _ Hu Hp)].
  intros u p [g [Hgu Hgp]].
  destruct Hgu as [U1 [U2 [U3 [U4 [U5 [U6 _]]]]]].
  destruct Hgp as [P1 [P2 [_ [P4 [P5 [P6 [P7 _]]]]]]].
  unfold same_progression.
  rewrite U1, U2, U3, U4, U5, U6, P1, P2, P4, P5, P6, P7.
  rewrite !reached_stage_has_stage by discriminate.
  repeat split.
Qed.

(** X18 at the classified frame of the two-user relation. *)
Lemma progression_tables_agree_witness :
  has_columns
    (classified_frame (classify_user_events default_classifier two_users)) = true
  /\ exists ups ps,
       _get_user_progression
         (classified_frame (classify_user_events default_classifier two_users))
       = Ok ups
       /\ get_user_funnel_progression
            (classified_frame (classify_user_events default_classifier two_users))
          = Ok ps
       /\ Forall2 same_progression ups ps.
Proof.
  split; [reflexivity|].
  apply (progression_tables_agree
           (classified_frame (classify_user_events default_classifier two_users))).
  - reflexivity.
  - vm_compute. discriminate.
Defined.

(** *** The summary *)

Import Summary.

Lemma Qltb_lt (a b : Q) : Qltb a b = true <-> (a < b)%Q.
Proof.
  unfold Qltb. rewrite negb_true_iff. split.
  - intros E. apply Qnot_le_lt. intros Hle. apply Qle_bool_iff in Hle. congruence.
  - intros Hlt. destruct (Qle_bool b a) eqn:E; [|reflexivity].
    apply Qle_bool_iff in E. now apply Qlt_not_le in Hlt.
Qed.

Lemma Qltb_ge (a b : Q) : Qltb a b = false <-> (b <= a)%Q.
Proof.
  unfold Qltb. rewrite negb_false_iff. apply Qle_bool_iff.
Qed.

Lemma min_by_fold {A} (key : A -> Q) (rest : list A) (x : A) :
  let best := fold_left (fun best y => if Qltb (key y) (key best) then y else best)
                        rest x in
  (key best <= key x)%Q
  /\ (forall y, In y rest -> (key best <= key y)%Q)
  /\ (best = x \/ In best rest).
Proof.
  cbv zeta. revert x. induction rest as [|y rest IH]; intros x; simpl.
  - split; [apply Qle_refl|]. split; [intros y []| now left].
  - destruct (Qltb (key y) (key x)) eqn:E.
    + destruct (IH y) as [H1 [H2 H3]]. apply Qltb_lt in E.
      split; [|split].
      * apply Qle_trans with (key y); [exact H1 | now apply Qlt_le_weak].
      * intros z [<- | Hz]; [exact H1 | now apply H2].
      * right. destruct H3 as [-> | H3]; [now left | now right].
    + destruct (IH x) as [H1 [H2 H3]]. apply Qltb_ge in E.
      split; [exact H1|]. split.
      * intros z [<- | Hz]; [|now apply H2].
        now apply Qle_trans with (key x).
      * destruct H3 as [-> | H3]; [now left | right; now right].
Qed.

Lemma min_by_least {A} (key : A -> Q) (items : list A) (b : A) :
  min_by key items = Some b ->
  In b items /\ forall x, In x items -> (key b <= key x)%Q.
Proof.
  destruct items as [|x rest]; [discriminate|]. simpl. intros E.
  injection E as <-. destruct (min_by_fold key rest x) as [H1 [H2 H3]]. split.
  - destruct H3 as [-> | H3]; [now left | now right].
  - intros z [<- | Hz]; [exact H1 | now apply H2].
Qed.

Lemma firstn_repeat {A} (a : A) (n k : nat) :
  firstn k (repeat a n) = repeat a (Nat.min n k).
Proof.
  revert k. induction n as [|n IH]; intros [|k]; simpl; try reflexivity.
  now rewrite IH.
Qed.

Lemma In_firstn {A} (x : A) (n : nat) (l : list A) :
  In x (firstn n l) -> In x l.
Proof.
  intros H. rewrite <- (firstn_skipn n l). apply in_or_app. now left.
Qed.

(** The types of a list of opportunities: bottlenecks, then sources,
    then contents. *)
Definition opportunity_types (bottlenecks sources contents : nat) : list string :=
  (repeat "Funnel Bottleneck" bottlenecks
   ++ repeat "Scale High Performer" sources
   ++ repeat "Content Optimization" contents)%list.

Lemma firstn_types (k b n c : nat) :
  firstn k (opportunity_types b n c)
  = opportunity_types (Nat.min b k) (Nat.min n (k - b)) (Nat.min c (k - b - n)).
Proof.
  unfold opportunity_types.
  rewrite !firstn_app, !firstn_repeat, !repeat_length. reflexivity.
Qed.

Section Opportunities.
Variable format_1f : Q -> string.
Variable np_format_1f : np_float -> string.

Definition high_performer (source : SourceRow.t) : bool :=
  np_gtb (SourceRow.conversion_rate source) 15
  && Nat.ltb (SourceRow.total_users source) 100.

Definition low_performer (content : ContentRow.t) : bool :=
  Qltb (ContentRow.conversion_rate content) 5
  && Nat.ltb 50 (ContentRow.total_users content).

(** What the list of opportunities looks like. *)
Definition opportunities_shape (stage_conversions : StageOutput)
    (source_conversions : list SourceRow.t)
    (content_conversions : list ContentRow.t)
    (opportunities : list Opportunity.t) : Prop :=
  (List.length opportunities <= 10)%nat
  /\ (exists bottlenecks sources contents,
        map Opportunity.type opportunities
        = opportunity_types bottlenecks sources contents
        /\ (bottlenecks <= 1)%nat
        /\ (bottlenecks = 1%nat
            <-> exists item, In item (step_items stage_conversions)
                             /\ (snd item < 50)%Q)
        /\ (sources <= count_true high_performer source_conversions)%nat
        /\ (contents <= count_true low_performer content_conversions)%nat
        /\ ((bottlenecks + count_true high_performer source_conversions
             + count_true low_performer content_conversions <= 10)%nat ->
            sources = count_true high_performer source_conversions
            /\ contents = count_true low_performer content_conversions))
  /\ Forall (fun o => Opportunity.priority o
                      = if Opportunity.type o =? "Funnel Bottleneck"
                        then "High" else "Medium")
            opportunities
  /\ (forall o rest,
        opportunities = o :: rest ->
        Opportunity.type o = "Funnel Bottleneck" ->
        exists b, In b (step_items stage_conversions)
                  /\ Opportunity.recommended_action o = fst b ++ " 단계 최적화 필요"
                  /\ forall x, In x (step_items stage_conversions) ->
                               (snd b <= snd x)%Q).

Lemma bottleneck_cases (stage_conversions : StageOutput) :
  let found :=
    match min_by snd (step_items stage_conversions) with
    | Some b =>
        if Qltb (snd b) 50 then
          [ {| Opportunity.type := "Funnel Bottleneck";
               Opportunity.description :=
                 "주요 병목: " ++ fst b ++ " (" ++ format_1f (snd b) ++ "%)";
               Opportunity.priority := "High";
               Opportunity.recommended_action := fst b ++ " 단계 최적화 필요" |} ]
        else []
    | None => []
    end in
  ((exists item, In item (step_items stage_conversions) /\ (snd item < 50)%Q)
   /\ exists b, In b (step_items stage_conversions)
                /\ (forall x, In x (step_items stage_conversions) ->
                              (snd b <= snd x)%Q)
                /\ found
                   = [ {| Opportunity.type := "Funnel Bottleneck";
                          Opportunity.description :=
                            "주요 병목: " ++ fst b ++ " (" ++ format_1f (snd b) ++ "%)";
                          Opportunity.priority := "High";
                          Opportunity.recommended_action :=
                            fst b ++ " 단계 최적화 필요" |} ])
  \/ (~ (exists item, In item (step_items stage_conversions) /\ (snd item < 50)%Q)
      /\ found = []).
Proof.
  cbv zeta. destruct (min_by snd (step_items stage_conversions)) as [b|] eqn:E.
  - apply min_by_least in E as [Hin Hleast].
    destruct (Qltb (snd b) 50) eqn:Eb.
    + left. apply Qltb_lt in Eb. split; [now exists b|]. now exists b.
    + right. apply Qltb_ge in Eb. split; [|reflexivity].
      intros [item [Hitem Hlt]]. specialize (Hleast item Hitem).
      apply (Qlt_not_le _ _ Hlt). now apply Qle_trans with (snd b).
  - right. split; [|reflexivity]. intros [item [Hitem _]].
    destruct (step_items stage_conversions); [destruct Hitem | discriminate E].
Qed.

Lemma map_type_const {A} (f : A -> Opportunity.t) (name : string) (l : list A) :
  (forall x, Opportunity.type (f x) = name) ->
  map Opportunity.type (map f l) = repeat name (List.length l).
Proof.
  intros Hf. induction l as [|x l IH]; simpl; [reflexivity|].
  now rewrite Hf, IH.
Qed.

(** X19: [_identify_optimization_opportunities] returns at most ten
    entries: first at most one "Funnel Bottleneck" (present exactly when
    some step conversion is below 50, and then naming a step with the
    least rate), then "Scale High Performer" entries for sources with a
    rate above 15 and fewer than 100 users, then "Content Optimization"
    entries for pages with a rate below 5 and more than 50 users; none
    of these is dropped unless the ten are exceeded; the bottleneck has
    priority "High", the others "Medium".  An error result of the stage
    funnel gives no bottleneck. *)
Theorem optimization_opportunities_shape (stage_conversions : StageOutput)
    (source_conversions : list SourceRow.t)
    (content_conversions : list ContentRow.t) :
  opportunities_shape stage_conversions source_conversions content_conversions
    (_identify_optimization_opportunities format_1f np_format_1f
       stage_conversions source_conversions content_conversions)
  /\ (forall error, step_items (StageError error) = []).
Proof.
  split; [|reflexivity].
  unfold _identify_optimization_opportunities. cbv zeta.
  set (found := match min_by snd (step_items stage_conversions) with
                | Some b => _
                | None => []
                end).
  set (from_source := fun source : SourceRow.t =>
         {| Opportunity.type := "Scale High Performer";
            Opportunity.description := _;
            Opportunity.priority := "Medium";
            Opportunity.recommended_action := _ |}).
  set (from_content := fun content : ContentRow.t =>
         {| Opportunity.type := "Content Optimization";
            Opportunity.description := _;
            Opportunity.priority := "Medium";
            Opportunity.recommended_action := _ |}).
  assert (Eall :
            match content_conversions with
            | [] =>
                match source_conversions with
                | [] => found
                | _ => (found ++ map from_source
                                   (filter high_performer source_conversions))%list
                end
            | _ =>
                (match source_conversions with
                 | [] => found
                 | _ => (found ++ map from_source
                                    (filter high_performer source_conversions))%list
                 end
                 ++ map from_content (filter low_performer content_conversions))%list
            end
            = (found ++ map from_source (filter high_performer source_conversions)
               ++ map from_content (filter low_performer content_conversions))%list).
  { destruct source_conversions, content_conversions; simpl;
      rewrite ?app_nil_r, <- ?app_assoc; reflexivity. }
  unfold high_performer, low_performer in Eall. fold from_source from_content.
  match goal with
  | |- opportunities_shape _ _ _ (firstn 10 ?l) =>
      replace l with
        (found ++ map from_source (filter high_performer source_conversions)
         ++ map from_content (filter low_performer content_conversions))%list
        by (symmetry; exact Eall)
  end.
  clear Eall.
  set (all := (found ++ _)%list).
  assert (Hprio : Forall (fun o => Opportunity.priority o
                                   = if Opportunity.type o =? "Funnel Bottleneck"
                                     then "High" else "Medium") all).
  { unfold all. apply Forall_app. split; [|apply Forall_app; split].
    - unfold found. destruct (min_by snd (step_items stage_conversions)) as [b|];
        [|constructor].
      destruct (Qltb (snd b) 50); repeat constructor.
    - apply Forall_forall. intros o Ho. apply in_map_iff in Ho as [x [<- _]].
      reflexivity.
    - apply Forall_forall. intros o Ho. apply in_map_iff in Ho as [x [<- _]].
      reflexivity. }
  assert (Htypes : forall nb,
             map Opportunity.type found = repeat "Funnel Bottleneck" nb ->
             map Opportunity.type (firstn 10 all)
             = opportunity_types
                 (Nat.min nb 10)
                 (Nat.min (count_true high_performer source_conversions) (10 - nb))
                 (Nat.min (count_true low_performer content_conversions)
                    (10 - nb - count_true high_performer source_conversions))).
  { intros nb Hnb. rewrite <- firstn_map. unfold all.
    rewrite !map_app, Hnb.
    rewrite (map_type_const from_source "Scale High Performer") by reflexivity.
    rewrite (map_type_const from_content "Content Optimization") by reflexivity.
    apply firstn_types. }
  unfold opportunities_shape.
  split; [apply firstn_le_length|].
  split; [|split].
  - destruct (bottleneck_cases stage_conversions)
      as [[Hex [b [Hb [Hleast Efound]]]] | [Hnone Efound]];
      fold found in Efound.
    + eexists _, _, _. split; [apply (Htypes 1%nat); now rewrite Efound|].
      change (Nat.min 1 10) with 1%nat.
      split; [lia|]. split; [tauto|]. lia.
    + eexists _, _, _. split; [apply (Htypes 0%nat); now rewrite Efound|].
      change (Nat.min 0 10) with 0%nat.
      split; [lia|]. split; [|lia].
      split; [discriminate | intros Hex; now destruct Hnone].
  - apply Forall_forall. intros o Ho. apply In_firstn in Ho.
    rewrite Forall_forall in Hprio. now apply Hprio.
  - intros o rest Eo Ho.
    destruct (bottleneck_cases stage_conversions)
      as [[Hex [b [Hb [Hleast Efound]]]] | [Hnone Efound]];
      fold found in Efound.
    + exists b. split; [exact Hb|]. split; [|exact Hleast].
      unfold all in Eo. rewrite Efound in Eo. simpl in Eo.
      injection Eo as <- _. reflexivity.
    + exfalso.
      assert (Hin : In o all) by (apply (In_firstn _ 10); rewrite Eo; now left).
      unfold all in Hin. rewrite Efound in Hin. cbn [app] in Hin.
      apply in_app_or in Hin as [Hin | Hin];
        apply in_map_iff in Hin as [x [<- _]]; discriminate Ho.
Qed.

End Opportunities.

Lemma Qnat_S (n : nat) : (Qnat (S n) == Qnat n + 1)%Q.
Proof.
  unfold Qnat. rewrite Nat2Z.inj_succ. unfold Z.succ.
  now rewrite inject_Z_plus.
Qed.

Lemma Qsum_range (l : list Q) :
  Forall in_percent_range l ->
  (0 <= Qsum l /\ Qsum l <= 100 * Qnat (List.length l))%Q.
Proof.
  induction 1 as [|q l [Hq0 Hq1] _ [IH0 IH1]]; simpl Qsum; simpl List.length.
  - split; [apply Qle_refl|]. unfold Qnat. simpl. discriminate.
  - split.
    + setoid_replace 0%Q with (0 + 0)%Q by reflexivity.
      now apply Qplus_le_compat.
    + rewrite Qnat_S.
      setoid_replace (100 * (Qnat (List.length l) + 1))%Q
        with (100 + 100 * Qnat (List.length l))%Q by ring.
      now apply Qplus_le_compat.
Qed.

Lemma Qmean_range (l : list Q) :
  l <> [] -> Forall in_percent_range l -> in_percent_range (Qmean l).
Proof.
  intros Hne HF. destruct (Qsum_range l HF) as [H0 H1].
  assert (Hpos : (0 < Qnat (List.length l))%Q).
  { apply Qnat_pos. destruct l; [now destruct Hne | simpl; lia]. }
  unfold Qmean, in_percent_range. split.
  - apply Qle_shift_div_l; [exact Hpos|]. now rewrite Qmult_0_l.
  - apply Qle_shift_div_r; [exact Hpos | exact H1].
Qed.

Lemma np_mean_finite (qs : list Q) :
  qs <> [] -> np_mean (map Finite qs) = Finite (Qmean qs).
Proof.
  intros Hne. unfold np_mean.
  assert (Hfilter : filter (fun x => match x with NaN => false | _ => true end)
                           (map Finite qs) = map Finite qs).
  { clear. induction qs as [|q qs IH]; simpl; [reflexivity | now rewrite IH]. }
  rewrite Hfilter.
  assert (Hinf : existsb (fun x => match x with PosInf => true | _ => false end)
                         (map Finite qs) = false).
  { clear. induction qs as [|q qs IH]; simpl; [reflexivity | exact IH]. }
  assert (Hvals : flat_map (fun x => match x with Finite q => [q] | _ => [] end)
                           (map Finite qs) = qs).
  { clear. induction qs as [|q qs IH]; simpl; [reflexivity | now rewrite IH]. }
  rewrite Hinf, Hvals, length_map.
  destruct qs as [|q qs]; [now destruct Hne | reflexivity].
Qed.

Lemma np_mean_range (l : list np_float) :
  l <> [] -> Forall np_in_percent_range l -> np_in_percent_range (np_mean l).
Proof.
  intros Hne HF.
  assert (Hqs : exists qs, l = map Finite qs /\ Forall in_percent_range qs).
  { clear Hne. induction HF as [|x l Hx _ [qs [-> Hqs]]].
    - now exists [].
    - destruct x as [q| |]; try now destruct Hx.
      exists (q :: qs). split; [reflexivity | now constructor]. }
  destruct Hqs as [qs [-> Hqs]].
  assert (Hqne : qs <> []) by (intros ->; now destruct Hne).
  rewrite (np_mean_finite qs Hqne). simpl. now apply Qmean_range.
Qed.

Lemma source_conversions_not_nil (config : Config.t) (df : DataFrame)
    (source_df : list SourceRow.t) :
  calculate_source_conversions config df = Ok source_df -> source_df <> [].
Proof.
  unfold calculate_source_conversions. cbv zeta.
  repeat (destruct (require _ df); cbn [bind]; [|discriminate]).
  destruct (records_column _ _); cbn [bind]; [|discriminate].
  destruct (sort_by _ _) as [|x l]; cbn [iloc0 bind]; [discriminate|].
  intros E. injection E as <-. discriminate.
Qed.

(** What the summary of a frame with rows holds. *)
Definition summary_consistent (config : Config.t) (df : DataFrame)
    (summary : Summary.t) : Prop :=
  exists r source_df content_df device_df,
    calculate_stage_conversions df = Ok (StageConversions r)
    /\ calculate_source_conversions config df = Ok source_df
    /\ calculate_content_conversions df = Ok content_df
    /\ calculate_device_conversions df = Ok device_df
    /\ overview summary = StageConversions r
    /\ (exists by_source,
          Summary.by_source summary = Some by_source
          /\ source_top_performers by_source = firstn 5 source_df
          /\ total_sources by_source = List.length source_df
          /\ (1 <= total_sources by_source)%nat
          /\ np_in_percent_range (source_avg_conversion_rate by_source))
    /\ match Summary.by_content summary with
       | None => content_df = []
       | Some by_content =>
           content_top_performers by_content = firstn 5 content_df
           /\ total_content by_content = List.length content_df
           /\ (1 <= total_content by_content)%nat
           /\ in_percent_range (content_avg_conversion_rate by_content)
       end
    /\ Summary.by_device summary = Some device_df
    /\ device_df <> []
    /\ (List.length (optimization_opportunities summary) <= 10)%nat.

Section SummaryFacts.
Variable format_1f : Q -> string.
Variable np_format_1f : np_float -> string.
Variable hour_of : string -> nat.
Variable day_name_of : string -> string.

(** X20: on a frame with rows [generate_conversion_summary] returns: the
    overview is the stage funnel, [by_source] and [by_device] are always
    filled, [by_content] is left empty exactly when the content report is
    empty; the top performers are the first five rows of the reports
    sorted by conversion rate, and the average conversion rates lie in
    [0, 100]; at most ten opportunities are listed. *)
Theorem summary_of_classified_frame (config : Config.t) (df : DataFrame) :
  has_columns df = true -> rows df <> [] ->
  exists summary,
    generate_conversion_summary format_1f np_format_1f hour_of day_name_of
      config df = Ok summary
    /\ summary_consistent config df summary.
Proof.
  intros Hdf Hrows. unfold generate_conversion_summary.
  destruct (stage_conversions_bounded df Hdf Hrows) as [r [Er _]].
  destruct (source_conversions_bounded config df Hdf Hrows) as [source_df [Es Hs]].
  destruct (content_conversions_bounded df Hdf) as [content_df [Ec Hc]].
  destruct (device_report_account df Hdf Hrows) as [device_df [Ed Hd]].
  destruct (time_conversions_bounded hour_of day_name_of df Hdf)
    as [hourly [daily [Et _]]].
  rewrite Er, Es, Ec, Ed, Et. cbn [bind].
  assert (Hsne : source_df <> [])
    by exact (source_conversions_not_nil config df source_df Es).
  assert (Hdne : device_df <> []).
  { intros ->. destruct Hd as [Hsum _]. simpl in Hsum.
    rewrite <- groupby_length in Hsum.
    pose proof (groupby_not_nil (field userPseudoId) (rows df) Hrows) as Hg.
    destruct (groupby (field userPseudoId) (rows df));
      [now destruct Hg | discriminate Hsum]. }
  eexists. split; [reflexivity|]. unfold summary_consistent.
  exists r, source_df, content_df, device_df.
  cbn [overview Summary.by_source Summary.by_content Summary.by_device
       optimization_opportunities].
  split; [exact Er|]. split; [exact Es|]. split; [exact Ec|].
  split; [exact Ed|]. split; [reflexivity|].
  split; [|split; [|split; [|split]]].
  - destruct source_df as [|s0 ss] eqn:E; [now destruct Hsne|]. cbv iota.
    rewrite <- E in *.
    eexists. split; [reflexivity|].
    cbn [source_top_performers total_sources source_avg_conversion_rate].
    split; [reflexivity|]. split; [reflexivity|].
    split; [rewrite E; simpl; lia|].
    apply np_mean_range.
    + rewrite E. discriminate.
    + apply Forall_forall. intros x Hx. apply in_map_iff in Hx as [s [<- Hin]].
      rewrite Forall_forall in Hs. now apply Hs.
  - destruct content_df as [|c0 cs] eqn:E; [reflexivity|]. cbv iota.
    rewrite <- E in *.
    cbn [content_top_performers total_content content_avg_conversion_rate].
    split; [reflexivity|]. split; [reflexivity|].
    split; [rewrite E; simpl; lia|].
    apply Qmean_range.
    + rewrite E. discriminate.
    + apply Forall_forall. intros x Hx. apply in_map_iff in Hx as [c [<- Hin]].
      rewrite Forall_forall in Hc. exact (proj1 (Hc c Hin)).
  - destruct device_df; [now destruct Hdne | reflexivity].
  - exact Hdne.
  - unfold _identify_optimization_opportunities. apply firstn_le_length.
Qed.

(** X21: on a frame without rows, whatever its columns,
    [generate_conversion_summary] raises a KeyError: the stage funnel
    answers with its error dictionary, but the source report that follows
    has no guard for the empty frame. *)
Theorem summary_raises_without_rows (config : Config.t) (df : DataFrame) :
  rows df = [] ->
  calculate_stage_conversions df = Ok (StageError "분류된 데이터가 없습니다")
  /\ exists key,
       generate_conversion_summary format_1f np_format_1f hour_of day_name_of
         config df = Raise (KeyError key).
Proof.
  intros Hrows.
  assert (Hstage : calculate_stage_conversions df
                   = Ok (StageError "분류된 데이터가 없습니다")).
  { unfold calculate_stage_conversions, empty. rewrite Hrows.
    now destruct (columns df). }
  split; [exact Hstage|].
  unfold generate_conversion_summary. rewrite Hstage. cbn [bind].
  unfold calculate_source_conversions, require. rewrite Hrows.
  repeat match goal with
         | |- context [if PyStr.mem ?c ?l then _ else _] =>
             destruct (PyStr.mem c l); cbn [bind]; [|eexists; reflexivity]
         end.
  eexists. reflexivity.
Qed.

End SummaryFacts.

(** X20 at the classified frame of the two-user relation. *)
Lemma summary_of_classified_frame_witness :
  has_columns
    (classified_frame (classify_user_events default_classifier two_users)) = true
  /\ exists summary,
       generate_conversion_summary (fun _ => "") (fun _ => "")
         (fun _ => 10%nat) (fun _ => "Monday") Config._get_default_config
         (classified_frame (classify_user_events default_classifier two_users))
       = Ok summary
       /\ summary_consistent Config._get_default_config
            (classified_frame (classify_user_events default_classifier two_users))
            summary.
Proof.
  split; [reflexivity|].
  apply (summary_of_classified_frame (fun _ => "") (fun _ => "")
           (fun _ => 10%nat) (fun _ => "Monday") Config._get_default_config
           (classified_frame (classify_user_events default_classifier two_users))).
  - reflexivity.
  - vm_compute. discriminate.
Defined.

(** X21 at the frame [pd.DataFrame()], without columns and rows. *)
Lemma summary_raises_without_rows_witness :
  calculate_stage_conversions {| columns := []; rows := [] |}
  = Ok (StageError "분류된 데이터가 없습니다")
  /\ exists key,
       generate_conversion_summary (fun _ => "") (fun _ => "")
         (fun _ => 10%nat) (fun _ => "Monday") Config._get_default_config
         {| columns := []; rows := [] |} = Raise (KeyError key).
Proof.
  apply (summary_raises_without_rows (fun _ => "") (fun _ => "")
           (fun _ => 10%nat) (fun _ => "Monday") Config._get_default_config
           {| columns := []; rows := [] |}).
  reflexivity.
Defined.

(** *** pattern_analyzer.py *)

Import Patterns.

Lemma nunique_app_le {A K} `{PyKey K} (key : A -> K) (l more : list A) :
  (nunique key l <= nunique key (l ++ more))%nat.
Proof.
  unfold nunique. apply NoDup_incl_length; [apply NoDup_nodup|].
  intros k Hk. apply nodup_In. apply nodup_In in Hk.
  rewrite map_app. apply in_or_app. now left.
Qed.

Lemma nunique_pos {A K} `{PyKey K} (key : A -> K) (l : list A) :
  l <> [] -> (1 <= nunique key l)%nat.
Proof.
  intros Hne. destruct l as [|x l]; [now destruct Hne|].
  unfold nunique.
  assert (Hin : In (key x) (nodup key_eq_dec (map key (x :: l))))
    by (apply nodup_In; now left).
  destruct (nodup key_eq_dec (map key (x :: l))); [destruct Hin | simpl; lia].
Qed.

(** The score as a function of the four counts it is made of. *)
Definition engagement_formula (unique_events unique_pages engagement_events
    unique_sessions : nat) : Q :=
  0 + Qnat unique_events * 2 + Qnat unique_pages * (3 # 2)
  + Qnat engagement_events * 3 + Qnat unique_sessions * 5.

Lemma engagement_formula_mono (a b c d a' b' c' d' : nat) :
  (a <= a')%nat -> (b <= b')%nat -> (c <= c')%nat -> (d <= d')%nat ->
  (engagement_formula a b c d <= engagement_formula a' b' c' d')%Q.
Proof.
  intros Ha Hb Hc Hd. unfold engagement_formula.
  repeat apply Qplus_le_compat; try apply Qle_refl;
    (apply Qmult_le_compat_r; [now apply Qnat_le | discriminate]).
Qed.

Lemma engagement_score_formula (df : DataFrame) (user_events : list Row) :
  has_columns df = true ->
  _calculate_engagement_score df user_events
  = Ok (engagement_formula
          (nunique (field eventName) user_events)
          (nunique (field pagePath) user_events)
          (List.length
             (filter (fun r => PyStr.mem (field eventName r)
                                 ["user_engagement"; "visit_blog"]) user_events))
          (nunique (field sessionId) user_events)).
Proof.
  intros Hdf. unfold _calculate_engagement_score.
  do 2 column_present_only Hdf.
  now rewrite (has_columns_mem df "sessionId" Hdf) by (simpl; auto 20).
Qed.

(** X22: on a frame with the classified columns the engagement score of
    a non-empty group of events is at least 8.5 (one event name, one
    page, one session), and it never decreases when further events are
    added to the group. *)
Theorem engagement_score_monotone (df : DataFrame) (user_events more : list Row) :
  has_columns df = true -> user_events <> [] ->
  exists score score',
    _calculate_engagement_score df user_events = Ok score
    /\ _calculate_engagement_score df (user_events ++ more) = Ok score'
    /\ (17 # 2 <= score)%Q
    /\ (score <= score')%Q.
Proof.
  intros Hdf Hne. rewrite !(engagement_score_formula df _ Hdf).
  eexists _, _. split; [reflexivity|]. split; [reflexivity|]. split.
  - apply Qle_trans with (engagement_formula 1 1 0 1); [discriminate|].
    apply engagement_formula_mono; try lia; now apply nunique_pos.
  - apply engagement_formula_mono; try apply nunique_app_le.
    rewrite filter_app, length_app. lia.
Qed.

(** X22 at the frame of [long_journey]: the first event, then all five. *)
Lemma engagement_score_monotone_witness :
  has_columns (classified_frame long_journey_frame) = true
  /\ exists score score',
       _calculate_engagement_score (classified_frame long_journey_frame)
         (firstn 1 long_journey_frame) = Ok score
       /\ _calculate_engagement_score (classified_frame long_journey_frame)
            (firstn 1 long_journey_frame ++ skipn 1 long_journey_frame) = Ok score'
       /\ (17 # 2 <= score)%Q
       /\ (score <= score')%Q.
Proof.
  split; [reflexivity|].
  apply (engagement_score_monotone (classified_frame long_journey_frame)
           (firstn 1 long_journey_frame) (skipn 1 long_journey_frame)).
  - reflexivity.
  - vm_compute. discriminate.
Defined.

(** The highest stage among the events of a user, as
    [_get_highest_stage] of the classifier computes it. *)
Definition highest (user_events : list Row) : string :=
  _get_highest_stage (map funnel_stage user_events).

Lemma mem_valid_stage (stage : string) (stages : list string) :
  stage <> "UNKNOWN" ->
  PyStr.mem stage (filter (fun s => negb (s =? "UNKNOWN")) stages)
  = PyStr.mem stage stages.
Proof.
  intros Hs.
  destruct (PyStr.mem stage stages) eqn:E.
  - apply mem_iff_In. apply filter_In. split; [now apply mem_iff_In|].
    apply negb_true_iff. now apply String.eqb_neq.
  - destruct (PyStr.mem stage (filter _ stages)) eqn:E'; [|reflexivity].
    apply mem_iff_In, filter_In in E' as [Hin _].
    apply mem_iff_In in Hin. congruence.
Qed.

Lemma find_valid_stage (stages : list string) :
  find (fun stage =>
          PyStr.mem stage (filter (fun s => negb (s =? "UNKNOWN")) stages))
       (rev Patterns.stage_order)
  = find (fun stage => PyStr.mem stage stages) (rev Patterns.stage_order).
Proof.
  simpl. rewrite !mem_valid_stage by discriminate. reflexivity.
Qed.

Definition drop_stages : list string := ["AWARENESS"; "INTEREST"; "CONSIDERATION"].

(** What the first loop appends for a user. *)
Definition last_stage_of (g : string * list Row) (o : option LastStage.t) : Prop :=
  match o with
  | Some u => LastStage.last_stage u = highest (snd g) /\ In (highest (snd g)) drop_stages
  | None => ~ In (highest (snd g)) drop_stages
  end.

Lemma iloc_last_ok {A} (l : list A) : l <> [] -> exists x, iloc_last l = Ok x.
Proof.
  intros Hne. unfold iloc_last. destruct (rev l) as [|x r] eqn:E.
  - apply (f_equal (@rev A)) in E. rewrite rev_involutive in E. now destruct Hne.
  - now exists x.
Qed.

Lemma user_last_stage_spec (df : DataFrame) (g : string * list Row) :
  has_columns df = true -> snd g <> [] ->
  exists o, user_last_stage df g = Ok o /\ last_stage_of g o.
Proof.
  intros Hdf Hne. destruct g as [user user_events]. simpl in Hne.
  unfold user_last_stage. column_present_only Hdf.
  unfold last_stage_of, highest. cbn [snd].
  set (stages := map funnel_stage user_events).
  assert (Hhigh : _get_highest_stage stages
                  = match find (fun stage => PyStr.mem stage stages)
                               (rev Patterns.stage_order) with
                    | Some stage => stage
                    | None => "NONE"
                    end) by reflexivity.
  rewrite <- (find_valid_stage stages) in Hhigh.
  destruct (filter (fun s => negb (s =? "UNKNOWN")) stages) as [|v vs] eqn:Ev.
  - exists None. split; [reflexivity|]. rewrite Hhigh. simpl.
    intros [H | [H | [H | []]]]; discriminate H.
  - destruct (find (fun stage => PyStr.mem stage (v :: vs))
                   (rev Patterns.stage_order)) as [last_stage|] eqn:Ef.
    + assert (Hin : In last_stage (rev Patterns.stage_order))
        by (apply find_some in Ef; tauto).
      destruct (last_stage =? "CONVERSION") eqn:Ec; cbn [negb].
      * exists None. split; [reflexivity|]. rewrite Hhigh.
        apply String.eqb_eq in Ec. rewrite Ec.
        intros [H | [H | [H | []]]]; discriminate H.
      * destruct (iloc_last_ok user_events Hne) as [last ->]. cbn [bind].
        column_present_only Hdf.
        destruct user_events as [|first rest]; [now destruct Hne|].
        cbn [iloc0 bind]. column_present_only Hdf.
        eexists. split; [reflexivity|]. cbn [LastStage.last_stage].
        split; [now rewrite Hhigh|]. rewrite Hhigh.
        apply String.eqb_neq in Ec. unfold drop_stages. simpl in Hin.
        destruct Hin as [H | [H | [H | [H | []]]]]; rewrite <- H in *;
          first [congruence | simpl; tauto].
    + exists None. split; [reflexivity|]. rewrite Hhigh.
      intros [H | [H | [H | []]]]; discriminate H.
Qed.

(** The number of users whose highest stage is [stage]. *)
Definition users_at (df : DataFrame) (stage : string) : nat :=
  count_true (fun g : string * list Row => highest (snd g) =? stage)
             (groupby (field userPseudoId) (rows df)).

Lemma somes_last_stage (groups : list (string * list Row))
    (os : list (option LastStage.t)) (stage : string) :
  Forall2 last_stage_of groups os -> In stage drop_stages ->
  List.length (filter (fun u => LastStage.last_stage u =? stage) (somes os))
  = count_true (fun g : string * list Row => highest (snd g) =? stage) groups.
Proof.
  intros HF Hs. unfold count_true, somes.
  induction HF as [|g o groups os Hgo _ IH]; [reflexivity|].
  cbn [flat_map filter]. destruct o as [u|]; cbn [last_stage_of] in Hgo.
  - destruct Hgo as [Hu _]. cbn [app filter]. rewrite Hu.
    destruct (highest (snd g) =? stage); cbn [List.length]; now rewrite IH.
  - cbn [app]. destruct (highest (snd g) =? stage) eqn:E; [|exact IH].
    apply String.eqb_eq in E. rewrite E in Hgo. now destruct Hgo.
Qed.

Lemma somes_length (groups : list (string * list Row))
    (os : list (option LastStage.t)) :
  Forall2 last_stage_of groups os ->
  List.length (somes os)
  = count_true (fun g : string * list Row =>
                  PyStr.mem (highest (snd g)) drop_stages) groups.
Proof.
  intros HF. unfold count_true, somes.
  induction HF as [|g o groups os Hgo _ IH]; [reflexivity|].
  cbn [flat_map filter]. destruct o as [u|]; cbn [last_stage_of] in Hgo.
  - destruct Hgo as [_ Hin]. apply mem_iff_In in Hin. rewrite Hin.
    cbn [app List.length]. now rewrite IH.
  - cbn [app].
    destruct (PyStr.mem (highest (snd g)) drop_stages) eqn:E; [|exact IH].
    apply mem_iff_In in E. now destruct Hgo.
Qed.

Lemma count_by_stage {A} (f : A -> string) (l : list A) :
  count_true (fun x => PyStr.mem (f x) drop_stages) l
  = (count_true (fun x => String.eqb (f x) "AWARENESS") l
     + count_true (fun x => String.eqb (f x) "INTEREST") l
     + count_true (fun x => String.eqb (f x) "CONSIDERATION") l)%nat.
Proof.
  unfold count_true, PyStr.mem. induction l as [|x l IH]; [reflexivity|].
  cbn [filter existsb drop_stages] in *.
  destruct (String.eqb (f x) "AWARENESS") eqn:E1,
    (String.eqb (f x) "INTEREST") eqn:E2,
    (String.eqb (f x) "CONSIDERATION") eqn:E3; cbn [orb List.length];
    try lia;
    exfalso;
    repeat match goal with
           | E : (_ =? _) = true |- _ => apply String.eqb_eq in E
           end;
    congruence.
Qed.

Lemma count_by_funnel_stage {A} (f : A -> string) (l : list A) :
  count_true (fun x => PyStr.mem (f x) Patterns.stage_order) l
  = (count_true (fun x => PyStr.mem (f x) drop_stages) l
     + count_true (fun x => String.eqb (f x) "CONVERSION") l)%nat.
Proof.
  unfold count_true, PyStr.mem. induction l as [|x l IH]; [reflexivity|].
  cbn [filter existsb drop_stages Patterns.stage_order] in *.
  destruct (String.eqb (f x) "AWARENESS") eqn:E1,
    (String.eqb (f x) "INTEREST") eqn:E2,
    (String.eqb (f x) "CONSIDERATION") eqn:E3,
    (String.eqb (f x) "CONVERSION") eqn:E4; cbn [orb List.length];
    try lia;
    exfalso;
    repeat match goal with
           | E : (_ =? _) = true |- _ => apply String.eqb_eq in E
           end;
    congruence.
Qed.

Lemma count_true_all {A} (f : A -> bool) (l : list A) :
  Forall (fun x => f x = true) l -> count_true f l = List.length l.
Proof.
  unfold count_true. induction 1 as [|x l Hx _ IH]; simpl; [reflexivity|].
  now rewrite Hx, <- IH.
Qed.

Lemma list_sum_cons (x : nat) (l : list nat) :
  list_sum (x :: l) = (x + list_sum l)%nat.
Proof. reflexivity. Qed.

Section DropOffs.
Variable value_counts : list string -> list (string * nat).
Variable df : DataFrame.

(** What the second loop appends for a stage. *)
Definition drop_off_of (stage : string) (o : option DropOff.t) : Prop :=
  match o with
  | Some p =>
      DropOff.stage p = stage
      /\ DropOff.total_dropoffs p = users_at df stage
      /\ (1 <= users_at df stage)%nat
      /\ in_percent_range (DropOff.dropoff_rate p)
      /\ (List.length (DropOff.top_dropoff_pages p) <= 5)%nat
  | None => users_at df stage = 0%nat
  end.

Lemma stage_drop_off_spec (os : list (option LastStage.t)) (stage : string) :
  Forall2 last_stage_of (groupby (field userPseudoId) (rows df)) os ->
  In stage drop_stages ->
  exists o, stage_drop_off value_counts (somes os) stage = Ok o
            /\ drop_off_of stage o.
Proof.
  intros HF Hs. unfold stage_drop_off.
  pose proof (somes_last_stage _ os stage HF Hs) as Hcount.
  fold (users_at df stage) in Hcount.
  assert (Hle : (List.length
                   (filter (fun u => String.eqb (LastStage.last_stage u) stage)
                           (somes os))
                 <= List.length (somes os))%nat) by apply filter_length_le.
  destruct (filter (fun u => LastStage.last_stage u =? stage) (somes os))
    as [|u us] eqn:Ef.
  - exists None. split; [reflexivity|]. cbn [drop_off_of].
    now rewrite <- Hcount.
  - rewrite <- Ef in *.
    assert (Hpos : (1 <= users_at df stage)%nat)
      by (rewrite <- Hcount, Ef; simpl; lia).
    rewrite percent_ok by lia. cbn [bind].
    eexists. split; [reflexivity|].
    cbn [drop_off_of DropOff.stage DropOff.total_dropoffs DropOff.dropoff_rate
         DropOff.top_dropoff_pages].
    split; [reflexivity|]. split; [exact Hcount|]. split; [exact Hpos|].
    split; [apply ratio_percent_range; lia|].
    rewrite length_map. apply firstn_le_length.
Qed.

Lemma drop_off_somes (stages : list string) (os : list (option DropOff.t)) :
  Forall2 drop_off_of stages os ->
  map DropOff.stage (somes os)
  = filter (fun stage => Nat.ltb 0 (users_at df stage)) stages
  /\ Forall (fun p => DropOff.total_dropoffs p = users_at df (DropOff.stage p)
                      /\ (1 <= DropOff.total_dropoffs p)%nat
                      /\ in_percent_range (DropOff.dropoff_rate p)
                      /\ (List.length (DropOff.top_dropoff_pages p) <= 5)%nat)
            (somes os)
  /\ list_sum (map DropOff.total_dropoffs (somes os))
     = list_sum (map (users_at df) stages).
Proof.
  unfold somes.
  induction 1 as [|stage o stages os Ho _ [IH1 [IH2 IH3]]]; cbn [flat_map map filter].
  - repeat split. constructor.
  - destruct o as [p|]; cbn [drop_off_of] in Ho; cbn [app map].
    + destruct Ho as [Hs [Ht [Hpos [Hr Hl]]]].
      assert (E : Nat.ltb 0 (users_at df stage) = true) by (apply Nat.ltb_lt; lia).
      rewrite E, IH1, Hs. split; [reflexivity|]. split.
      * constructor; [|exact IH2]. rewrite Hs, Ht. tauto.
      * rewrite !list_sum_cons, IH3, Ht. reflexivity.
    + assert (E : Nat.ltb 0 (users_at df stage) = false)
        by (apply Nat.ltb_ge; lia).
      rewrite E, list_sum_cons, Ho. split; [exact IH1|]. split; [exact IH2|].
      exact IH3.
Qed.

(** What the list of drop-off points says about a frame. *)
Definition drop_offs_account (points : list DropOff.t) : Prop :=
  map DropOff.stage points
  = filter (fun stage => Nat.ltb 0 (users_at df stage)) drop_stages
  /\ Forall (fun p => DropOff.total_dropoffs p = users_at df (DropOff.stage p)
                      /\ (1 <= DropOff.total_dropoffs p)%nat
                      /\ in_percent_range (DropOff.dropoff_rate p)
                      /\ (List.length (DropOff.top_dropoff_pages p) <= 5)%nat)
            points
  /\ (list_sum (map DropOff.total_dropoffs points) + users_at df "CONVERSION"
      <= nunique (field userPseudoId) (rows df))%nat
  /\ (Forall (fun r => In (funnel_stage r) Patterns.stage_order) (rows df) ->
      (list_sum (map DropOff.total_dropoffs points) + users_at df "CONVERSION"
       = nunique (field userPseudoId) (rows df))%nat).

Lemma drop_off_totals :
  (users_at df "AWARENESS" + users_at df "INTEREST" + users_at df "CONSIDERATION"
   + users_at df "CONVERSION" <= nunique (field userPseudoId) (rows df))%nat
  /\ (Forall (fun r => In (funnel_stage r) Patterns.stage_order) (rows df) ->
      (users_at df "AWARENESS" + users_at df "INTEREST"
       + users_at df "CONSIDERATION" + users_at df "CONVERSION"
       = nunique (field userPseudoId) (rows df))%nat).
Proof.
  unfold users_at.
  set (groups := groupby (field userPseudoId) (rows df)).
  pose proof (count_by_funnel_stage (fun g : string * list Row => highest (snd g))
                groups) as E4.
  pose proof (count_by_stage (fun g : string * list Row => highest (snd g))
                groups) as E3.
  rewrite <- (groupby_length (field userPseudoId) (rows df)). fold groups.
  split.
  - rewrite <- E3, <- E4. apply count_true_le.
  - intros Hstages. rewrite <- E3, <- E4. apply count_true_all.
    apply Forall_forall. intros g Hg.
    apply PandasFacts.groupby_In in Hg as [Hfilter [Hne _]].
    destruct (snd g) as [|row rest] eqn:Eg; [now destruct Hne|].
    assert (Hin : In row (rows df)).
    { assert (Hr : In row (row :: rest)) by now left.
      rewrite Hfilter in Hr. now apply filter_In in Hr. }
    rewrite Forall_forall in Hstages. specialize (Hstages row Hin).
    assert (Hmem : PyStr.mem (funnel_stage row) (map funnel_stage (row :: rest))
                   = true) by (apply mem_iff_In; now left).
    unfold highest. rewrite highest_stage_cases.
    destruct Hstages as [S | [S | [S | [S | []]]]]; rewrite <- S in Hmem;
      rewrite ?Hmem;
      repeat match goal with
             | |- context [if ?c then _ else _] => destruct c
             end; reflexivity.
Qed.

(** X23: on a frame with the classified columns, with or without rows,
    [_identify_drop_off_points] returns; it lists, in funnel order, the
    stages among AWARENESS, INTEREST and CONSIDERATION that are the
    highest stage of at least one user, each with the number of such
    users, a drop-off rate in [0, 100] and at most five pages.  No user is
    counted twice: the drop-offs and the users who reached CONVERSION
    never exceed the distinct users, and they are all the users when every
    event carries one of the four stages. *)
Theorem drop_off_points_account :
  has_columns df = true ->
  exists points,
    _identify_drop_off_points value_counts df = Ok points
    /\ drop_offs_account points.
Proof.
  intros Hdf. unfold _identify_drop_off_points. column_present_only Hdf.
  destruct (mapM_Forall2 (user_last_stage df) last_stage_of
              (groupby (field userPseudoId) (rows df))) as [os [-> HF]].
  { intros g Hg. apply PandasFacts.groupby_In in Hg as [_ [Hne _]].
    now apply user_last_stage_spec. }
  cbn [bind].
  pose proof (somes_length _ os HF) as Hlen.
  rewrite count_by_stage in Hlen. fold (users_at df "AWARENESS") in Hlen.
  fold (users_at df "INTEREST") in Hlen.
  fold (users_at df "CONSIDERATION") in Hlen.
  destruct drop_off_totals as [Hle Heq].
  assert (Hpoints : exists points,
             match somes os with
             | [] => Ok []
             | _ =>
                 drop_off_points <-
                   mapM (stage_drop_off value_counts (somes os)) drop_stages ;;
                 Ok (somes drop_off_points)
             end = Ok points
             /\ map DropOff.stage points
                = filter (fun stage => Nat.ltb 0 (users_at df stage)) drop_stages
             /\ Forall (fun p =>
                          DropOff.total_dropoffs p = users_at df (DropOff.stage p)
                          /\ (1 <= DropOff.total_dropoffs p)%nat
                          /\ in_percent_range (DropOff.dropoff_rate p)
                          /\ (List.length (DropOff.top_dropoff_pages p) <= 5)%nat)
                       points
             /\ list_sum (map DropOff.total_dropoffs points)
                = list_sum (map (users_at df) drop_stages)).
  { destruct (mapM_Forall2 (stage_drop_off value_counts (somes os)) drop_off_of
                drop_stages) as [ds [Eds HFd]].
    { intros stage Hs. now apply stage_drop_off_spec. }
    destruct (somes os) as [|u us] eqn:Eu.
    - exists []. split; [reflexivity|]. simpl in Hlen.
      assert (Ha : users_at df "AWARENESS" = 0%nat) by lia.
      assert (Hi : users_at df "INTEREST" = 0%nat) by lia.
      assert (Hc : users_at df "CONSIDERATION" = 0%nat) by lia.
      cbn [drop_stages filter map list_sum]. rewrite Ha, Hi, Hc.
      repeat split. constructor.
    - rewrite Eds. cbn [bind]. eexists. split; [reflexivity|].
      now apply drop_off_somes. }
  destruct Hpoints as [points [E [Hstages [HF' Hsum]]]].
  exists points. split; [exact E|]. unfold drop_offs_account.
  split; [exact Hstages|]. split; [exact HF'|].
  cbn [drop_stages map] in Hsum. rewrite !list_sum_cons in Hsum.
  cbn [list_sum fold_right] in Hsum. split.
  - rewrite Hsum. lia.
  - intros Hall. specialize (Heq Hall). rewrite Hsum. lia.
Qed.

End DropOffs.

(** X23 at the classified frame of the two-user relation, with a
    [value_counts] that lists every value once. *)
Lemma drop_off_points_account_witness :
  has_columns
    (classified_frame (classify_user_events default_classifier two_users)) = true
  /\ exists points,
       _identify_drop_off_points (map (fun page => (page, 1%nat)))
         (classified_frame (classify_user_events default_classifier two_users))
       = Ok points
       /\ drop_offs_account
            (classified_frame (classify_user_events default_classifier two_users))
            points.
Proof.
  split; [reflexivity|].
  apply (drop_off_points_account (map (fun page => (page, 1%nat)))
           (classified_frame (classify_user_events default_classifier two_users))).
  reflexivity.
Defined.

(** *** High-value segments *)

Lemma user_features_ok (config : Config.t) (df : DataFrame)
    (g : string * list Row) :
  has_columns df = true -> snd g <> [] ->
  exists u, user_features config df g = Ok u.
Proof.
  intros Hdf Hne. destruct g as [user user_events]. simpl in Hne.
  unfold user_features. do 2 column_present_only Hdf.
  destruct user_events as [|first rest]; [now destruct Hne|].
  cbn [iloc0 bind]. do 2 column_present_only Hdf. eexists. reflexivity.
Qed.

(** What the loop over the segment definitions appends for one of them. *)
Definition segment_ok (users_df : list Features.t) (segment_def : SegmentDef)
    (o : option Segment.t) : Prop :=
  match o with
  | Some s =>
      Segment.segment_name s = def_name segment_def
      /\ Segment.users_count s
         = List.length (filter (def_condition segment_def) users_df)
      /\ (20 <= Segment.users_count s <= List.length users_df)%nat
      /\ (Segment.conversions s <= Segment.users_count s)%nat
      /\ np_in_percent_range (Segment.conversion_rate s)
  | None => (List.length (filter (def_condition segment_def) users_df) < 20)%nat
  end.

Lemma segment_of_spec (users_df : list Features.t) (segment_def : SegmentDef) :
  users_df <> [] ->
  exists o, segment_of users_df segment_def = Ok o
            /\ segment_ok users_df segment_def o.
Proof.
  intros Hne. unfold segment_of.
  destruct users_df as [|u0 us] eqn:Eu; [now destruct Hne|]. rewrite <- Eu.
  replace (records_column (def_column segment_def) users_df) with (Ok tt)
    by now rewrite Eu.
  cbn [bind].
  destruct (Nat.leb_spec 20 (List.length (filter (def_condition segment_def) users_df)))
    as [Hle | Hlt].
  - eexists. split; [reflexivity|].
    cbn [segment_ok Segment.segment_name Segment.users_count Segment.conversions
         Segment.conversion_rate].
    split; [reflexivity|]. split; [reflexivity|].
    split; [split; [exact Hle | apply filter_length_le]|].
    split; [apply count_true_le|].
    apply np_percent_range; [apply count_true_le | lia].
  - exists None. split; [reflexivity | exact Hlt].
Qed.

Lemma segments_somes (users_df : list Features.t) (defs : list SegmentDef)
    (os : list (option Segment.t)) :
  Forall2 (segment_ok users_df) defs os ->
  (List.length (somes os) <= List.length defs)%nat
  /\ (forall name, In name (map Segment.segment_name (somes os)) ->
                   In name (map def_name defs))
  /\ (NoDup (map def_name defs) -> NoDup (map Segment.segment_name (somes os)))
  /\ Forall (fun s => (20 <= Segment.users_count s <= List.length users_df)%nat
                      /\ (Segment.conversions s <= Segment.users_count s)%nat
                      /\ np_in_percent_range (Segment.conversion_rate s))
            (somes os).
Proof.
  unfold somes.
  induction 1 as [|d o defs os Ho _ [IH1 [IH2 [IH3 IH4]]]]; cbn [flat_map map].
  - repeat split; try constructor. intros name [].
  - destruct o as [s|]; cbn [segment_ok] in Ho; cbn [app map List.length].
    + destruct Ho as [Hn [_ [Hu [Hc Hr]]]]. split; [lia|]. split; [|split].
      * intros name [<- | Hin]; [now left | right; now apply IH2].
      * intros Hnd. inversion Hnd as [|? ? Hnotin Hnd']; subst.
        constructor; [|now apply IH3].
        intros Hin. apply Hnotin. rewrite <- Hn. now apply IH2.
      * constructor; [tauto | exact IH4].
    + split; [lia|]. split; [|split].
      * intros name Hin. right. now apply IH2.
      * intros Hnd. inversion Hnd; subst. now apply IH3.
      * exact IH4.
Qed.

(** What the list of segments says about a frame. *)
Definition segments_account (df : DataFrame) (segments : list Segment.t) : Prop :=
  (List.length segments <= 4)%nat
  /\ NoDup (map Segment.segment_name segments)
  /\ Forall (fun s =>
               In (Segment.segment_name s) (map def_name segment_definitions)
               /\ (20 <= Segment.users_count s
                   <= nunique (field userPseudoId) (rows df))%nat
               /\ (Segment.conversions s <= Segment.users_count s)%nat
               /\ np_in_percent_range (Segment.conversion_rate s))
            segments
  /\ Sorted (fun x y => np_desc (Segment.segment_value x)
                                (Segment.segment_value y) = true)
            segments
  /\ ((nunique (field userPseudoId) (rows df) < 20)%nat -> segments = []).

(** X24: on a frame with rows [_identify_high_value_segments] returns at
    most four segments (the cut to five never drops one), each under the
    name of a different segment definition, each with at least 20 and at
    most all distinct users, no more conversions than users and a
    conversion rate in [0, 100], in descending order of segment value;
    with fewer than 20 distinct users it returns no segment. *)
Theorem high_value_segments_account (config : Config.t) (df : DataFrame) :
  has_columns df = true -> rows df <> [] ->
  exists segments,
    _identify_high_value_segments config df = Ok segments
    /\ segments_account df segments.
Proof.
  intros Hdf Hrows. unfold _identify_high_value_segments.
  column_present_only Hdf.
  destruct (mapM_total (user_features config df) (fun _ => True)
              (groupby (field userPseudoId) (rows df)))
    as [users_df [-> [Hlen _]]].
  { intros g Hg. apply PandasFacts.groupby_In in Hg as [_ [Hne _]].
    destruct (user_features_ok config df g Hdf Hne) as [u Eu].
    now exists u. }
  cbn [bind]. rewrite groupby_length in Hlen.
  assert (Hne : users_df <> []).
  { intros ->. simpl in Hlen.
    pose proof (nunique_pos (field userPseudoId) (rows df) Hrows). lia. }
  destruct (mapM_Forall2 (segment_of users_df) (segment_ok users_df)
              segment_definitions) as [os [-> HF]].
  { intros d _. now apply segment_of_spec. }
  cbn [bind].
  destruct (segments_somes users_df segment_definitions os HF)
    as [H4 [Hnames [Hnd Hall]]].
  set (sorted := sort_by _ (somes os)).
  assert (Hperm : Permutation sorted (somes os))
    by apply PandasFacts.sort_by_perm.
  assert (Hlen4 : (List.length sorted <= 4)%nat)
    by (rewrite (Permutation_length Hperm); exact H4).
  rewrite firstn_all2 by lia.
  eexists. split; [reflexivity|]. unfold segments_account.
  assert (HF' : Forall (fun s =>
                  In (Segment.segment_name s) (map def_name segment_definitions)
                  /\ (20 <= Segment.users_count s
                      <= nunique (field userPseudoId) (rows df))%nat
                  /\ (Segment.conversions s <= Segment.users_count s)%nat
                  /\ np_in_percent_range (Segment.conversion_rate s)) sorted).
  { eapply Permutation_Forall; [symmetry; exact Hperm|].
    apply Forall_forall. intros seg Hseg.
    rewrite Forall_forall in Hall. destruct (Hall seg Hseg) as [Hu [Hc Hr]].
    split; [|rewrite <- Hlen; tauto].
    apply Hnames. now apply in_map. }
  split; [exact Hlen4|]. split; [|split; [exact HF'|split]].
  - eapply Permutation_NoDup;
      [symmetry; apply (Permutation_map Segment.segment_name Hperm)|].
    apply Hnd. unfold segment_definitions. simpl.
    repeat constructor; simpl; intuition discriminate.
  - apply PandasFacts.sort_by_sorted. intros x y. apply np_desc_total.
  - intros Hfew. destruct sorted as [|seg rest]; [reflexivity|].
    inversion HF' as [|? ? [_ [Hu _]] _]. lia.
Qed.

(** X24 at the classified frame of the two-user relation. *)
Lemma high_value_segments_account_witness :
  has_columns
    (classified_frame (classify_user_events default_classifier two_users)) = true
  /\ exists segments,
       _identify_high_value_segments Config._get_default_config
         (classified_frame (classify_user_events default_classifier two_users))
       = Ok segments
       /\ segments_account
            (classified_frame (classify_user_events default_classifier two_users))
            segments.
Proof.
  split; [reflexivity|].
  apply (high_value_segments_account Config._get_default_config
           (classified_frame (classify_user_events default_classifier two_users))).
  - reflexivity.
  - vm_compute. discriminate.
Defined.

(** X25: on a frame without rows that has the user column,
    [_identify_drop_off_points] returns the empty list, whereas
    [_identify_high_value_segments] raises a KeyError: its first segment
    condition reads the column 'total_events' of a frame built from no
    record. *)
Theorem pattern_reports_without_rows
    (value_counts : list string -> list (string * nat)) (config : Config.t)
    (df : DataFrame) :
  rows df = [] -> PyStr.mem "userPseudoId" (columns df) = true ->
  _identify_drop_off_points value_counts df = Ok []
  /\ _identify_high_value_segments config df = Raise (KeyError "total_events").
Proof.
  intros Hrows Hcol.
  unfold _identify_drop_off_points, _identify_high_value_segments, require.
  rewrite Hrows, Hcol. split; reflexivity.
Qed.

(** X25 at the classified frame without rows. *)
Lemma pattern_reports_without_rows_witness :
  _identify_drop_off_points (map (fun page => (page, 1%nat))) (classified_frame [])
  = Ok []
  /\ _identify_high_value_segments Config._get_default_config (classified_frame [])
     = Raise (KeyError "total_events").
Proof.
  apply (pattern_reports_without_rows (map (fun page => (page, 1%nat)))
           Config._get_default_config (classified_frame [])); reflexivity.
Defined.

(** *** Blog visits *)

(** The three AWARENESS conditions an event other than a session start
    can meet: a source other than "(direct)", a landing page, the first
    row of the user's frame. *)
Definition awareness_full (event_row : Row) (user_context : list Row) : bool :=
  negb (field sessionSource event_row =? "(direct)")
  && PyStr.mem (field pagePath event_row) ["/"; "/skill-guide/one-click"]
  && match user_context with
     | [] => false
     | first_event :: _ => Nat.eqb (name event_row) (name first_event)
     end.

Definition interest_blog_scores : list float :=
  clamp_all
    (reachable [0.2]%float
       (map (fun c => (c + 0.6)%float)
            (reachable [0.5; 0.4]%float
               (map (fun c => (c + 0.7)%float) [0%float])))).

Lemma interest_blog_in (cfg : Config.t) (event_row : Row) (user_context : list Row) :
  field eventName event_row = "visit_blog" ->
  In (_interest_conditions cfg event_row user_context) interest_blog_scores.
Proof.
  intros E. unfold _interest_conditions, interest_blog_scores, clamp_all.
  rewrite E.
  change (PyStr.mem "visit_blog" ["user_engagement"; "visit_blog"]) with true.
  change ("visit_blog" =? "visit_blog") with true.
  rewrite !bump_true.
  apply (in_map (fun c => py_min c 1)). cbn [reachable].
  apply bump_reachable.
  apply (in_map (fun c => (c + 0.6)%float)). cbn [reachable].
  do 2 apply bump_reachable. now left.
Qed.

Lemma interest_blog_one (x : float) : In x interest_blog_scores -> x = 1%float.
Proof. intros H. each_score H; reflexivity. Qed.

Lemma awareness_of_blog_visit (event_row : Row) (user_context : list Row) :
  field eventName event_row = "visit_blog" ->
  if awareness_full event_row user_context
  then _awareness_conditions event_row user_context = 1%float
  else (_awareness_conditions event_row user_context <? 1)%float = true.
Proof.
  intros E. unfold _awareness_conditions, awareness_full. rewrite E.
  change ("visit_blog" =? "session_start") with false.
  change ("visit_blog" =? "first_visit") with false.
  destruct (negb (field sessionSource event_row =? "(direct)"));
    destruct (PyStr.mem (field pagePath event_row) ["/"; "/skill-guide/one-click"]);
    destruct (match user_context with
              | [] => false
              | first_event :: _ => Nat.eqb (name event_row) (name first_event)
              end);
    vm_compute; reflexivity.
Qed.

Lemma interest_one_wins (a c d : float) :
  (a <? 1)%float = true -> (1 <? c)%float = false -> (1 <? d)%float = false ->
  winner a 1 c d = (Interest, 1%float).
Proof.
  intros Ha Hc Hd. unfold winner, challenge. cbn [snd].
  assert (E : (snd (if (0 <? a)%float then (Awareness, a) else (NoStage, 0%float))
               <? 1)%float = true).
  { destruct (0 <? a)%float; [exact Ha | vm_compute; reflexivity]. }
  rewrite E. cbn [snd]. rewrite Hc. cbn [snd]. now rewrite Hd.
Qed.

(** X26: a visit_blog event always gets confidence 1.0 (0.7 for the
    event name and 0.6 for the blog visit already exceed the cap).  Its
    stage is INTEREST, unless it is the first row of its user's frame,
    lies on a landing page and comes from a source other than "(direct)":
    then AWARENESS also reaches 1.0 and, being evaluated first, keeps the
    event. *)
Theorem visit_blog_is_interest (cfg : Config.t) (event_row : Row)
    (user_context : list Row) :
  field eventName event_row = "visit_blog" ->
  _classify_single_event (init cfg) event_row user_context
  = (if awareness_full event_row user_context then "AWARENESS" else "INTEREST",
     1%float).
Proof.
  intros E.
  pose proof (awareness_of_blog_visit event_row user_context E) as Ha.
  destruct (awareness_full event_row user_context).
  - now apply awareness_one_wins.
  - rewrite classify_winner.
    destruct (scores_listed cfg event_row user_context) as [_ [_ [Hc Hd]]].
    rewrite (interest_blog_one _ (interest_blog_in cfg event_row user_context E)).
    rewrite interest_one_wins;
      [reflexivity | exact Ha | now apply score_not_above_one
      | now apply score_not_above_one].
Qed.

(** A blog visit in the middle of a journey. *)
Definition blog_visit : Row :=
  {| name := 1;
     event := mk_event "A" "visit_blog" "/posts/5" "google" "2024-01-01 10:05:00";
     funnel_stage := "UNKNOWN"; stage_confidence := 0;
     page_category := "content" |}.

(** X26 at [blog_visit], alone in its context. *)
Lemma visit_blog_is_interest_witness :
  _classify_single_event default_classifier blog_visit [blog_visit]
  = (if awareness_full blog_visit [blog_visit] then "AWARENESS" else "INTEREST",
     1%float).
Proof.
  apply (visit_blog_is_interest Config._get_default_config blog_visit [blog_visit]).
  reflexivity.
Defined.

End Extra.
